(** * BusyBee status display: the status/render engine and its animation

    A shallow embedding of the firmware sketch (the version carrying the
    Game of Life animation): the automaton and its auto-reset, the morph
    animator's count reconciliation and greedy assignment, the button
    state machine, the web handlers that change the status, and the
    flash-save debouncer.

    Conventions.  C [int], [unsigned long], [uint8_t] and [uint32_t] values
    are integers in [Z]; wrap-around is written where the type forces it
    ([u8], [u32]).  A [std::vector] is a [list], indexed with stdpp's
    lookup.  A C string is a [string]; what a [char] buffer holds after
    [strncpy] is the prefix of the source up to its first NUL. *)

From Stdlib Require Import ZArith Lia Bool Ascii String.
From stdpp Require Import gmap strings list fin_maps pretty.

Local Open Scope Z_scope.

(** ** Machine integers *)

Definition u8 (v : Z) : Z := v mod 256.
Definition u32 (v : Z) : Z := v mod 2 ^ 32.

(** What a fallible piece of code does: it returns, or the processor
    traps on an integer division by zero. *)
Inductive outcome (A : Type) : Type :=
  | Done (a : A)
  | DivByZero.
Arguments Done {A} a.
Arguments DivByZero {A}.

#[global] Instance outcome_ret : MRet outcome := fun A a => Done a.
#[global] Instance outcome_bind : MBind outcome := fun A B k o =>
  match o with
  | Done a => k a
  | DivByZero => DivByZero
  end.

(** ** Display constants *)

Definition screenWidth : Z := 320.
Definition screenHeight : Z := 170.
Definition golCellSize : Z := 6.
Definition HASH_HISTORY : Z := 8.

(** ** The automaton grid *)

Abbreviation Grid := (list (list Z)).

(** [g[y][x]]; the code only reads inside the grid. *)
Definition cellAt (g : Grid) (y x : Z) : Z :=
  match g !! Z.to_nat y with
  | Some row => default 0 (row !! Z.to_nat x)
  | None => 0
  end.

(** [for (int i = 0; i < n; ++i)] *)
Definition upto (n : Z) : list Z := seqZ 0 n.

(** [std::vector<std::vector<uint8_t>>(rows, std::vector<uint8_t>(cols, v))] *)
Definition filled (rows cols v : Z) : Grid :=
  replicate (Z.to_nat rows) (replicate (Z.to_nat cols) v).

(** A grid rebuilt cell by cell by the two nested loops over [y] and [x]. *)
Definition tabulate (rows cols : Z) (f : Z -> Z -> Z) : Grid :=
  (fun y => (fun x => f y x) <$> upto cols) <$> upto rows.

Record GolState : Type := mkGol {
  golCols : Z;
  golRows : Z;
  golFrame : Z;
  golGrid : Grid;
  golNext : Grid;
  (* the statics of stepGameOfLife *)
  hashHistory : list Z;
  hashIdx : Z;
  prevGrid : Grid;
  alphaGrid : Grid
}.

(** The state before the first call: globals and statics as initialised. *)
Definition golBoot : GolState :=
  {| golCols := 0; golRows := 0; golFrame := 0;
     golGrid := []; golNext := [];
     hashHistory := replicate (Z.to_nat HASH_HISTORY) 0; hashIdx := 0;
     prevGrid := []; alphaGrid := [] |}.

(** [initGameOfLife]; [rnd y x] is the value [rand()] returns for the cell. *)
Definition initGameOfLife (rnd : Z -> Z -> Z) (st : GolState) : GolState :=
  let cols := Z.quot screenWidth golCellSize in
  let rows := Z.quot screenHeight golCellSize in
  {| golCols := cols; golRows := rows; golFrame := 0;
     golGrid := tabulate rows cols
                  (fun y x => if Z.rem (rnd y x) 4 =? 0 then 1 else 0);
     golNext := filled rows cols 0;
     hashHistory := hashHistory st; hashIdx := hashIdx st;
     prevGrid := prevGrid st; alphaGrid := alphaGrid st |}.

(** *** The transition *)

(** The two inner loops over [dy] and [dx] that add up the eight
    neighbours, with the indices wrapped as the code wraps them. *)
Definition liveNeighbours (g : Grid) (rows cols y x : Z) : Z :=
  fold_left (fun live dy =>
    fold_left (fun live dx =>
      if negb (dx =? 0) || negb (dy =? 0)
      then live + cellAt g (Z.rem (y + dy + rows) rows)
                           (Z.rem (x + dx + cols) cols)
      else live) [-1; 0; 1] live) [-1; 0; 1] 0.

Definition nextCell (g : Grid) (rows cols y x : Z) : Z :=
  let live := liveNeighbours g rows cols y x in
  if negb (cellAt g y x =? 0)
  then (if (live =? 2) || (live =? 3) then 1 else 0)
  else (if live =? 3 then 1 else 0).

(** The "next generation" block: fill [golNext], copy the grid to
    [prevGrid], swap the buffers, count the frame. *)
Definition nextGeneration (st : GolState) : GolState :=
  let next := tabulate (golRows st) (golCols st)
                (nextCell (golGrid st) (golRows st) (golCols st)) in
  {| golCols := golCols st; golRows := golRows st;
     golFrame := golFrame st + 1;
     golGrid := next; golNext := golGrid st;
     hashHistory := hashHistory st; hashIdx := hashIdx st;
     prevGrid := golGrid st; alphaGrid := alphaGrid st |}.

(** Every cell holds 0 or 1. *)
Definition binaryGrid (g : Grid) : Prop :=
  forall y x, cellAt g y x = 0 \/ cellAt g y x = 1.

(** The eight neighbours on the torus, by their mathematical definition. *)
Definition torusNeighbours (rows cols y x : Z) : list (Z * Z) :=
  (fun d : Z * Z => ((y + fst d) mod rows, (x + snd d) mod cols)) <$>
  [(-1, -1); (-1, 0); (-1, 1); (0, -1); (0, 1); (1, -1); (1, 0); (1, 1)].

Definition liveCount (g : Grid) (rows cols y x : Z) : Z :=
  Z.of_nat (length (filter (fun p : Z * Z => cellAt g (fst p) (snd p) <> 0)
                           (torusNeighbours rows cols y x))).

(** *** Fade levels *)

(** One pass of the "update alpha state" loop body on a [uint8_t] cell. *)
Definition alphaStep (alive a : Z) : Z :=
  if negb (alive =? 0) then
    let a1 := if a <? 255 then u8 (a + 32) else a in
    if a1 >? 255 then 255 else a1
  else
    if a >? 0 then (if a >? 32 then u8 (a - 32) else 0) else a.

(** The two guards that size the static grids, then the fade loop. *)
Definition updateAlpha (st : GolState) : GolState :=
  let prev := if Z.of_nat (length (prevGrid st)) =? golRows st
              then prevGrid st else filled (golRows st) (golCols st) 0 in
  let alpha := if Z.of_nat (length (alphaGrid st)) =? golRows st
               then alphaGrid st else filled (golRows st) (golCols st) 0 in
  {| golCols := golCols st; golRows := golRows st; golFrame := golFrame st;
     golGrid := golGrid st; golNext := golNext st;
     hashHistory := hashHistory st; hashIdx := hashIdx st;
     prevGrid := prev;
     alphaGrid := tabulate (golRows st) (golCols st)
                    (fun y x => alphaStep (cellAt (golGrid st) y x)
                                          (cellAt alpha y x)) |}.

(** The fade level of one cell after [n] ticks during which the cell keeps
    the same state. *)
Fixpoint alphaAfter (alive : Z) (n : nat) (a : Z) : Z :=
  match n with
  | O => a
  | S n' => alphaAfter alive n' (alphaStep alive a)
  end.

(** *** Fingerprint and stall detection *)

Definition gridHash (g : Grid) (rows cols : Z) : Z :=
  fold_left (fun hash y =>
    fold_left (fun hash x =>
      Z.lxor hash (u32 (Z.shiftl (cellAt g y x) (Z.rem (x + y) 24))))
      (upto cols) hash) (upto rows) 0.

Definition allDead (g : Grid) (rows cols : Z) : bool :=
  forallb (fun y => forallb (fun x => cellAt g y x =? 0) (upto cols))
          (upto rows).

Definition historyAt (h : list Z) (i : Z) : Z := default 0 (h !! Z.to_nat i).

Definition cycleFound (h : list Z) (hash : Z) : bool :=
  existsb (fun i => hash =? historyAt h i) (upto HASH_HISTORY).

Definition clearHistory (h : list Z) : list Z :=
  fold_left (fun h i => <[Z.to_nat i := 0]> h) (upto HASH_HISTORY) h.

(** ** The morph animator *)

Module TargetPoint.
Record t : Type := mk { x : Z; y : Z; gridX : Z; gridY : Z }.
End TargetPoint.

Module LiveCell.
Record t : Type := mk { x : Z; y : Z; color : Z }.
End LiveCell.

Abbreviation TargetPoint := TargetPoint.t.
Abbreviation LiveCell := LiveCell.t.

(** The squared distance the inner loop computes.  The coordinates are
    whole numbers below 2^9 held in [float]s, so the products and the sum
    are exact. *)
Definition dist2 (c : LiveCell) (t : TargetPoint) : Z :=
  let dx := LiveCell.x c - TargetPoint.x t in
  let dy := LiveCell.y c - TargetPoint.y t in
  dx * dx + dy * dy.

(** The [while] loop that repeats the live cells: one pass per missing
    cell, each pass indexing [liveCells] at [usedCells.size() %
    liveCells.size()]. *)
Fixpoint duplicateCells (missing : nat) (liveCells usedCells : list LiveCell)
    : outcome (list LiveCell) :=
  match missing with
  | O => Done usedCells
  | S missing' =>
      match liveCells with
      | [] => DivByZero
      | c0 :: _ =>
          let j := (length usedCells mod length liveCells)%nat in
          duplicateCells missing' liveCells (usedCells ++ [nth j liveCells c0])
      end
  end.

(** Step 3: as many sources as targets.  [shuffle] is what
    [std::random_shuffle] does to the vector of live cells. *)
Definition reconcile (shuffle : list LiveCell -> list LiveCell)
    (liveCells : list LiveCell) (n : nat) : outcome (list LiveCell) :=
  if (n <=? length liveCells)%nat
  then Done (take n (shuffle liveCells))
  else duplicateCells (n - length liveCells) liveCells liveCells.

(** The inner loop of step 4: the closest cell not yet used, as the pair
    [(minDist, minIdx)]. *)
Definition nearestUnused (t : TargetPoint) (cells : list LiveCell)
    (used : list bool) : Z * Z :=
  fold_left (fun (best : Z * Z) (j : nat) =>
    if default false (used !! j) then best
    else match cells !! j with
         | Some c =>
             let dist := dist2 c t in
             if dist <? fst best then (dist, Z.of_nat j) else best
         | None => best
         end)
    (seq 0 (length cells)) (1000000000, -1).

(** Step 4: the assignment vector and the used flags after the outer loop. *)
Definition assignTargets (targets : list TargetPoint) (cells : list LiveCell)
    : list Z * list bool :=
  fold_left (fun (acc : list Z * list bool) (it : nat * TargetPoint) =>
    let minIdx := snd (nearestUnused (snd it) cells (snd acc)) in
    if 0 <=? minIdx
    then (<[fst it := minIdx]> (fst acc), <[Z.to_nat minIdx := true]> (snd acc))
    else acc)
    (imap pair targets)
    (replicate (length targets) (-1), replicate (length cells) false).

Record Morph : Type := mkMorph {
  usedCells : list LiveCell;
  assignment : list Z
}.

(** What one call leaves on the display. *)
Inductive GolEvent : Type :=
  | FramePushed
  | Morphed (m : option Morph)
  | Reinitialised.

Definition isMorph (e : GolEvent) : bool :=
  match e with Morphed _ => true | _ => false end.

Definition morphCount (evs : list GolEvent) : nat :=
  length (List.filter isMorph evs).

Definition setHistory (st : GolState) (h : list Z) (i : Z) : GolState :=
  {| golCols := golCols st; golRows := golRows st; golFrame := golFrame st;
     golGrid := golGrid st; golNext := golNext st;
     hashHistory := h; hashIdx := i;
     prevGrid := prevGrid st; alphaGrid := alphaGrid st |}.

(** The randomness one call may consume. *)
Record Entropy : Type := mkEntropy {
  rnd : Z -> Z -> Z;
  shuffle : list LiveCell -> list LiveCell
}.

Section Engine.

(** The edge pixels of the rendered wordmark, in scan order: the result of
    step 1, which only reads the sprite. *)
Variable targetPoints : list TargetPoint.

(** The 565 colour of the cell at [(x, y)] in frame [f], computed in
    [float]s from the hue. *)
Variable cellColour : Z -> Z -> Z -> Z.

(** Step 2: the centre and colour of every live cell, row by row. *)
Definition liveCellsOf (st : GolState) : list LiveCell :=
  y ← upto (golRows st);
  x ← upto (golCols st);
  if negb (cellAt (golGrid st) y x =? 0)
  then [LiveCell.mk (x * golCellSize + Z.quot golCellSize 2)
               (y * golCellSize + Z.quot golCellSize 2)
               (cellColour x y (golFrame st))]
  else [].

(** [animateToBusyBee] up to the assignment; [None] is the early return
    on an empty target list. *)
Definition animateToBusyBee (sh : list LiveCell -> list LiveCell)
    (st : GolState) : outcome (option Morph) :=
  match targetPoints with
  | [] => Done None
  | _ :: _ =>
      used ← reconcile sh (liveCellsOf st) (length targetPoints);
      Done (Some (mkMorph used (fst (assignTargets targetPoints used))))
  end.

Definition stepGameOfLife (e : Entropy) (st : GolState)
    : outcome (GolState * list GolEvent) :=
  let st1 := updateAlpha st in
  let st2 := nextGeneration st1 in
  let hash := gridHash (golGrid st2) (golRows st2) (golCols st2) in
  let dead := allDead (golGrid st2) (golRows st2) (golCols st2) in
  let cycle := cycleFound (hashHistory st2) hash in
  let st3 := setHistory st2 (<[Z.to_nat (hashIdx st2) := hash]> (hashHistory st2))
               (Z.rem (hashIdx st2 + 1) HASH_HISTORY) in
  if dead || cycle then
    m ← animateToBusyBee (shuffle e) st3;
    let st4 := initGameOfLife (rnd e) st3 in
    Done (setHistory st4 (clearHistory (hashHistory st4)) 0,
          [FramePushed; Morphed m; Reinitialised])
  else Done (st3, [FramePushed]).

(** The generation a call computes, and its fingerprint. *)
Definition newGeneration (st : GolState) : Grid :=
  golGrid (nextGeneration (updateAlpha st)).

Definition newFingerprint (st : GolState) : Z :=
  gridHash (newGeneration st) (golRows st) (golCols st).

Definition newAllDead (st : GolState) : bool :=
  allDead (newGeneration st) (golRows st) (golCols st).

(** What drives the engine: a call of [stepGameOfLife] by the display
    task, or the [/threebody] handler, which starts a session. *)
Inductive Action : Type :=
  | Step (e : Entropy)
  | Threebody (r : Z -> Z -> Z).

(** A run from some state.  Next to the state it keeps the fingerprints
    written to the ring since the ring was last cleared, oldest first. *)
Fixpoint trackedRun (st : GolState) (recorded : list Z) (acts : list Action)
    : outcome (GolState * list Z) :=
  match acts with
  | [] => Done (st, recorded)
  | Step e :: acts' =>
      r ← stepGameOfLife e st;
      trackedRun (fst r)
        (if (0 <? morphCount (snd r))%nat then []
         else recorded ++ [newFingerprint st]) acts'
  | Threebody r :: acts' =>
      trackedRun (initGameOfLife r st) recorded acts'
  end.

End Engine.

(** The last [n] elements of a list. *)
Definition lastN {A} (n : nat) (l : list A) : list A :=
  drop (length l - n) l.

(** ** Strings and colours *)

(** The C string a [String] hands out: its bytes up to the first NUL. *)
Fixpoint c_str (s : string) : string :=
  match s with
  | EmptyString => EmptyString
  | String c r => if Ascii.eqb c "000"%char then EmptyString
                  else String c (c_str r)
  end.

(** What a [char] buffer holds after [strncpy(buf, src, n); buf[n] = 0]. *)
Definition strncpy (src : string) (n : nat) : string :=
  substring 0 n (c_str src).

Definition strlen (s : string) : Z := Z.of_nat (String.length s).

(** The display library's colour constants. *)
Definition TFT_RED : Z := 0xF800.
Definition TFT_GREEN : Z := 0x07E0.
Definition TFT_BLUE : Z := 0x001F.

Definition rgbTo565 (r g b : Z) : Z :=
  Z.lor (Z.lor (Z.shiftl (Z.land r 0xF8) 8) (Z.shiftl (Z.land g 0xFC) 3))
        (Z.shiftr b 3) mod 2 ^ 16.

(** ** Shared status *)

Module CustomStatus.
Record t : Type := mk { text : string; color : Z }.
End CustomStatus.
Abbreviation CustomStatus := CustomStatus.t.

Record StatusState : Type := mkStatus {
  isBusy : bool;
  customText : string;
  customColor : Z;
  customStatuses : list CustomStatus;
  showBattery : bool;
  showCornerInfo : Z;
  needSaveStatus : bool
}.

(** [customStatuses[i]] *)
Definition slotAt (st : StatusState) (i : Z) : CustomStatus :=
  default (CustomStatus.mk "" 0) (customStatuses st !! Z.to_nat i).

(** The writes to the shared status, and the two critical-section
    markers, in the order a piece of code issues them. *)
Inductive Op : Type :=
  | EnterCritical
  | ExitCritical
  | SetIsBusy (b : bool)
  | SetCustomText (s : string)
  | SetCustomColor (c : Z)
  | SetSlotText (i : Z) (s : string)
  | SetSlotColor (i : Z) (c : Z).

Definition applyOp (st : StatusState) (op : Op) : StatusState :=
  match op with
  | EnterCritical | ExitCritical => st
  | SetIsBusy b =>
      mkStatus b (customText st) (customColor st) (customStatuses st)
               (showBattery st) (showCornerInfo st) (needSaveStatus st)
  | SetCustomText s =>
      mkStatus (isBusy st) s (customColor st) (customStatuses st)
               (showBattery st) (showCornerInfo st) (needSaveStatus st)
  | SetCustomColor c =>
      mkStatus (isBusy st) (customText st) c (customStatuses st)
               (showBattery st) (showCornerInfo st) (needSaveStatus st)
  | SetSlotText i s =>
      mkStatus (isBusy st) (customText st) (customColor st)
               (<[Z.to_nat i := CustomStatus.mk s (CustomStatus.color (slotAt st i))]>
                  (customStatuses st))
               (showBattery st) (showCornerInfo st) (needSaveStatus st)
  | SetSlotColor i c =>
      mkStatus (isBusy st) (customText st) (customColor st)
               (<[Z.to_nat i := CustomStatus.mk (CustomStatus.text (slotAt st i)) c]>
                  (customStatuses st))
               (showBattery st) (showCornerInfo st) (needSaveStatus st)
  end.

Definition runOps (ops : list Op) (st : StatusState) : StatusState :=
  fold_left applyOp ops st.

(** The states the other task can read while [ops] run: the state before
    each operation issued outside a critical section, and the final state.
    A critical section is taken to be indivisible. *)
Fixpoint visibleStates (depth : nat) (st : StatusState) (ops : list Op)
    : list StatusState :=
  match ops with
  | [] => [st]
  | op :: rest =>
      let depth' := match op with
                    | EnterCritical => S depth
                    | ExitCritical => Nat.pred depth
                    | _ => depth
                    end in
      (if (depth =? 0)%nat then [st] else []) ++
      visibleStates depth' (applyOp st op) rest
  end.

(** What a render pass shows of a state. *)
Definition shown (st : StatusState) : string * Z := (customText st, customColor st).

(** Every operation of [ops] that writes the status text or colour sits
    between an [EnterCritical] and its [ExitCritical]. *)
Fixpoint writesGuarded (depth : nat) (ops : list Op) : bool :=
  match ops with
  | [] => true
  | EnterCritical :: rest => writesGuarded (S depth) rest
  | ExitCritical :: rest => writesGuarded (Nat.pred depth) rest
  | (SetCustomText _ | SetCustomColor _) :: rest =>
      negb (depth =? 0)%nat && writesGuarded depth rest
  | _ :: rest => writesGuarded depth rest
  end.

(** The number of critical sections [ops] open. *)
Definition sections (ops : list Op) : nat :=
  length (List.filter (fun op => match op with EnterCritical => true | _ => false end) ops).

(** ** Flash preferences *)

Inductive PrefVal : Type :=
  | PBool (b : bool)
  | PString (s : string)
  | PUInt (v : Z)
  | PInt (v : Z).

(** The key-value store, and every [put] issued so far, oldest first. *)
Record Flash : Type := mkFlash {
  prefs : gmap string PrefVal;
  written : list (string * PrefVal)
}.

Definition put (k : string) (v : PrefVal) (f : Flash) : Flash :=
  mkFlash (<[k := v]> (prefs f)) (written f ++ [(k, v)]).

(** ["customText" + String(i+1)] *)
Definition slotKey (base : string) (i : Z) : string := base +:+ pretty (i + 1).

Definition saveCustomStatuses (st : StatusState) (f : Flash) : Flash :=
  fold_left (fun f i =>
    put (slotKey "customColor" i) (PUInt (CustomStatus.color (slotAt st i)))
      (put (slotKey "customText" i) (PString (CustomStatus.text (slotAt st i))) f))
    (upto 3) f.

(** The six statements [saveStatus] and [reallySaveStatus] share. *)
Definition saveAll (st : StatusState) (f : Flash) : Flash :=
  saveCustomStatuses st
    (put "showCornerInfo" (PInt (showCornerInfo st))
      (put "showBattery" (PBool (showBattery st))
        (put "customColor" (PUInt (customColor st))
          (put "customText" (PString (customText st))
            (put "isBusy" (PBool (isBusy st)) f))))).

(** ** The device *)

Record Buttons : Type := mkButtons {
  lastRotation : Z;
  lastPress : Z;
  buttonWasPressed : bool;
  statusIndex : Z;
  buttonPressTime : Z
}.

Record Screen : Type := mkScreen {
  textX : Z;
  useMarquee : bool;
  rotation : Z;
  frames : list (string * Z)   (* what each displayStatus drew *)
}.

Record Device : Type := mkDevice {
  status : StatusState;
  gameOfLifeRunning : bool;
  buttons : Buttons;
  screen : Screen;
  flash : Flash
}.

Definition bootStatus : StatusState :=
  mkStatus true "BUSY" TFT_RED
    [CustomStatus.mk "CUSTOM1" TFT_BLUE; CustomStatus.mk "CUSTOM2" TFT_BLUE;
     CustomStatus.mk "CUSTOM3" TFT_BLUE] true 1 false.

(** The device after a first boot on empty flash. *)
Definition bootDevice : Device :=
  mkDevice bootStatus false (mkButtons 3 0 false 0 0)
           (mkScreen screenWidth false 3 []) (mkFlash ∅ []).

Definition withStatus (d : Device) (st : StatusState) : Device :=
  mkDevice st (gameOfLifeRunning d) (buttons d) (screen d) (flash d).
Definition withRunning (d : Device) (r : bool) : Device :=
  mkDevice (status d) r (buttons d) (screen d) (flash d).
Definition withButtons (d : Device) (b : Buttons) : Device :=
  mkDevice (status d) (gameOfLifeRunning d) b (screen d) (flash d).
Definition withScreen (d : Device) (s : Screen) : Device :=
  mkDevice (status d) (gameOfLifeRunning d) (buttons d) s (flash d).
Definition withFlash (d : Device) (f : Flash) : Device :=
  mkDevice (status d) (gameOfLifeRunning d) (buttons d) (screen d) f.

Definition setNeedSave (st : StatusState) (b : bool) : StatusState :=
  mkStatus (isBusy st) (customText st) (customColor st) (customStatuses st)
           (showBattery st) (showCornerInfo st) b.

Definition displayStatus (d : Device) : Device :=
  let s := screen d in
  withScreen d (mkScreen (textX s) (useMarquee s) (rotation s)
                         (frames s ++ [shown (status d)])).

Definition saveStatus (d : Device) : Device :=
  withFlash d (saveAll (status d) (flash d)).

Definition reallySaveStatus (d : Device) : Device :=
  withStatus (withFlash d (saveAll (status d) (flash d)))
             (setNeedSave (status d) false).

(** The "check if need to save" block of the display task; the second
    component is the task's [lastSaveCheck]. *)
Definition saveCheck (currentMillis : Z) (dl : Device * Z) : Device * Z :=
  let d := fst dl in
  if u32 (currentMillis - snd dl) >=? 1000
  then (if needSaveStatus (status d) then reallySaveStatus d else d,
        currentMillis)
  else dl.

(** ** Buttons *)

Definition longPressDuration : Z := 3000.

(** What one poll reads: the two pins (pressed is LOW) and the two values
    of [millis()]. *)
Record Pins : Type := mkPins {
  anglePressed : bool;
  nowAngle : Z;
  buttonPressed : bool;
  now : Z
}.

(** How one poll ends: it returns, the device goes to deep sleep (the call
    never returns), or the probe loop is still turning when its budget of
    iterations is spent. *)
Inductive Poll : Type :=
  | Returned (d : Device)
  | DeepSleep (d : Device)
  | Spinning.

(** The [do ... while] loop that looks for the next status; [budget] is
    the number of times the loop may still go round again. *)
Fixpoint cycleLoop (budget : nat) (st : StatusState) (statusIndex tryCount : Z)
    : option (Z * Z) :=
  let statusIndex := Z.rem (statusIndex + 1) 5 in
  let tryCount := tryCount + 1 in
  if (2 <=? statusIndex) && (statusIndex <=? 4)
     && (strlen (CustomStatus.text (slotAt st (statusIndex - 2))) =? 0)
     && (tryCount <? 5)
  then match budget with
       | O => None
       | S budget' => cycleLoop budget' st statusIndex tryCount
       end
  else Some (statusIndex, tryCount).

(** The block between [portENTER_CRITICAL] and [portEXIT_CRITICAL] that
    applies the status the cycle stopped at. *)
Definition applyIndexOps (st : StatusState) (statusIndex : Z) : list Op :=
  [EnterCritical] ++
  (if statusIndex =? 0 then
     [SetIsBusy true; SetCustomText "BUSY"; SetCustomColor TFT_RED]
   else if statusIndex =? 1 then
     [SetIsBusy false; SetCustomText "LET'S TALK"; SetCustomColor TFT_GREEN]
   else
     let idx := statusIndex - 2 in
     [SetIsBusy false;
      SetCustomText (strncpy (CustomStatus.text (slotAt st idx)) 31);
      SetCustomColor (CustomStatus.color (slotAt st idx))]) ++
  [ExitCritical].

Definition setButtonState (d : Device) (pressTime : Z) (wasPressed : bool)
    : Device :=
  let b := buttons d in
  withButtons d (mkButtons (lastRotation b) (lastPress b) wasPressed
                           (statusIndex b) pressTime).

Definition setLastPress (d : Device) (t : Z) : Device :=
  let b := buttons d in
  withButtons d (mkButtons (lastRotation b) t (buttonWasPressed b)
                           (statusIndex b) (buttonPressTime b)).

Definition setStatusIndex (d : Device) (i : Z) : Device :=
  let b := buttons d in
  withButtons d (mkButtons (lastRotation b) (lastPress b) (buttonWasPressed b)
                           i (buttonPressTime b)).

Section Platform.

(** The pixel width the display library measures for a text in the font
    [setDynamicFont] selects for it. *)
Variable textWidth : string -> Z.

(** [String::toInt] and [strtol(_, nullptr, 16)] of the C library. *)
Variable toInt : string -> Z.
Variable strtol16 : string -> Z.

(** [textX = screenWidth; checkMarquee();] *)
Definition resetMarquee (d : Device) : Device :=
  let s := screen d in
  withScreen d (mkScreen screenWidth
                         (textWidth (customText (status d)) >? screenWidth)
                         (rotation s) (frames s)).

(** The rotation button; the flag tells that the function returned from
    inside this block. *)
Definition rotationButton (p : Pins) (d : Device) : Device * bool :=
  if anglePressed p then
    if u32 (nowAngle p - lastPress (buttons d)) >? 300 then
      if gameOfLifeRunning d then (displayStatus (withRunning d false), true)
      else
        let newRotation := if lastRotation (buttons d) =? 1 then 3 else 1 in
        let s := screen d in
        let d1 := displayStatus
                    (withScreen d (mkScreen (textX s) (useMarquee s)
                                            newRotation (frames s))) in
        let d2 := withFlash d1 (put "screenRotation" (PInt newRotation) (flash d1)) in
        let b := buttons d2 in
        (withButtons d2 (mkButtons newRotation (nowAngle p) (buttonWasPressed b)
                                   (statusIndex b) (buttonPressTime b)), false)
    else (d, false)
  else (d, false).

(** The main button. *)
Definition mainButton (p : Pins) (d : Device) : Poll :=
  let b := buttons d in
  if buttonPressed p && negb (buttonWasPressed b) then
    Returned (setButtonState d (now p) (buttonPressed p))
  else if negb (buttonPressed p) && buttonWasPressed b then
    let pressDuration := u32 (now p - buttonPressTime b) in
    if pressDuration >=? longPressDuration then DeepSleep d
    else if pressDuration >? 30 then
      if u32 (now p - lastPress b) >? 300 then
        if gameOfLifeRunning d then
          Returned (setButtonState
                      (setLastPress (displayStatus (withRunning d false)) (now p))
                      0 (buttonPressed p))
        else
          match cycleLoop 4 (status d) (statusIndex b) 0 with
          | None => Spinning
          | Some (idx, _) =>
              let d1 := setStatusIndex d idx in
              let d2 := withStatus d1 (runOps (applyIndexOps (status d1) idx)
                                              (status d1)) in
              let d3 := saveStatus (displayStatus (resetMarquee d2)) in
              Returned (setButtonState (setLastPress d3 (now p))
                                       0 (buttonPressed p))
          end
      else Returned (setButtonState d 0 (buttonPressed p))
    else Returned (setButtonState d 0 (buttonPressed p))
  else Returned (setButtonState d (buttonPressTime b) (buttonPressed p)).

Definition handleButtonPress (p : Pins) (d : Device) : Poll :=
  let r := rotationButton p d in
  if snd r then Returned (fst r) else mainButton p (fst r).

(** *** Web handlers *)

(** [server.arg(name)]: the argument, or the empty string. *)
Definition arg (req : gmap string string) (name : string) : string :=
  default "" (req !! name).

Definition hasArg (req : gmap string string) (name : string) : bool :=
  bool_decide (is_Some (req !! name)).

(** The colour a ["#rrggbb"] argument stands for; [None] when the length
    or the first character is wrong. *)
Definition parseColor (c : string) : option Z :=
  if (String.length c =? 7)%nat
     && bool_decide (String.get 0 c = Some "#"%char)
  then Some (rgbTo565 (u8 (strtol16 (substring 1 2 c)))
                      (u8 (strtol16 (substring 3 2 c)))
                      (u8 (strtol16 (substring 5 2 c))))
  else None.

Definition serverSetCustomOps (req : gmap string string) : list Op :=
  let newText := arg req "customText" in
  let newColor := arg req "customColor" in
  (if (0 <? strlen newText) && (strlen newText <=? 20)
   then [EnterCritical; SetCustomText (strncpy newText 31); ExitCritical]
   else []) ++
  match parseColor newColor with
  | Some c => [EnterCritical; SetCustomColor c; ExitCritical]
  | None => []
  end.

Definition serverSetCustom (req : gmap string string) (d : Device) : Device :=
  let d1 := withStatus d (runOps (serverSetCustomOps req) (status d)) in
  let d2 := displayStatus (resetMarquee d1) in
  withStatus d2 (setNeedSave (status d2) true).

(** The writes of the [/setStatus] handler for a status other than
    ["CUSTOM"]. *)
Definition setStatusOps (req : gmap string string) (st : StatusState)
    : list Op :=
  let statusArg := arg req "status" in
  if String.eqb (c_str statusArg) "BUSY" then
    [SetIsBusy true; SetCustomText "BUSY"; SetCustomColor TFT_RED]
  else if String.eqb (c_str statusArg) "TALK" then
    [SetIsBusy false; SetCustomText "LET'S TALK"; SetCustomColor TFT_GREEN]
  else if String.prefix "CUSTOM" statusArg then
    let idx := toInt (substring 6 (String.length statusArg - 6) statusArg) - 1 in
    if (0 <=? idx) && (idx <? 3)
       && (0 <? strlen (CustomStatus.text (slotAt st idx)))
    then [EnterCritical;
          SetCustomText (strncpy (CustomStatus.text (slotAt st idx)) 31);
          SetCustomColor (CustomStatus.color (slotAt st idx));
          ExitCritical]
    else []
  else [].

Definition setStatusHandler (req : gmap string string) (d : Device) : Device :=
  let statusArg := arg req "status" in
  if negb (String.eqb (c_str statusArg) "BUSY")
     && negb (String.eqb (c_str statusArg) "TALK")
     && String.eqb (c_str statusArg) "CUSTOM"
  then serverSetCustom req d
  else
    let d1 := withStatus d (runOps (setStatusOps req (status d)) (status d)) in
    saveStatus (displayStatus (resetMarquee d1)).

(** The handler of [/setCustomStatus1..3], for slot [i] in 0..2. *)
Definition setCustomStatusOps (i : Z) (req : gmap string string) : list Op :=
  let text := arg req "text" in
  let color := arg req "color" in
  (if strlen text <=? 20
   then [EnterCritical; SetSlotText i (strncpy text 31); ExitCritical]
   else []) ++
  match parseColor color with
  | Some c => [EnterCritical; SetSlotColor i c; ExitCritical]
  | None => []
  end.

Definition setCustomStatusHandler (i : Z) (req : gmap string string)
    (d : Device) : Device :=
  let d1 := withStatus d (runOps (setCustomStatusOps i req) (status d)) in
  withFlash d1 (saveCustomStatuses (status d1) (flash d1)).

Definition setCornerInfoHandler (req : gmap string string) (d : Device)
    : Device :=
  let st := status d in
  let st' := if hasArg req "cornerInfo"
             then mkStatus (isBusy st) (customText st) (customColor st)
                    (customStatuses st) (showBattery st)
                    (toInt (arg req "cornerInfo")) (needSaveStatus st)
             else st in
  displayStatus (saveStatus (withStatus d st')).

Definition setShowBatteryHandler (req : gmap string string) (d : Device)
    : Device :=
  let st := status d in
  let st' := mkStatus (isBusy st) (customText st) (customColor st)
               (customStatuses st) (hasArg req "showBattery")
               (showCornerInfo st) (needSaveStatus st) in
  displayStatus (saveStatus (withStatus d st')).

End Platform.

(** ** Notions used in the statements *)

(** A status index the cycle may stop at: a preset, or a custom slot with
    a text. *)
Definition selectable (st : StatusState) (i : Z) : bool :=
  (i <? 2) || negb (strlen (CustomStatus.text (slotAt st (i - 2))) =? 0).

(** The indices [n] successive short presses stop at, starting after [idx]. *)
Fixpoint visits (n : nat) (st : StatusState) (idx : Z) : list Z :=
  match n with
  | O => []
  | S n' =>
      match cycleLoop 4 st idx 0 with
      | Some (i, _) => i :: visits n' st i
      | None => []
      end
  end.

(** A poll that releases the main button after a press, with the rotation
    button up. *)
Definition releases (p : Pins) (d : Device) : Prop :=
  anglePressed p = false /\ buttonPressed p = false /\
  buttonWasPressed (buttons d) = true.

Definition pressDuration (p : Pins) (d : Device) : Z :=
  u32 (now p - buttonPressTime (buttons d)).

(** The poll moves the status to the next selectable index and shows it. *)
Definition cyclesStatus (textWidth : string -> Z) (p : Pins) (d : Device)
    : Prop :=
  exists d' idx' tries,
    handleButtonPress textWidth p d = Returned d' /\
    cycleLoop 4 (status d) (statusIndex (buttons d)) 0 = Some (idx', tries) /\
    statusIndex (buttons d') = idx' /\
    idx' <> statusIndex (buttons d) /\
    status d' = runOps (applyIndexOps (status d) idx') (status d) /\
    written (flash d') = written (saveAll (status d') (flash d)).

(** The poll returns and leaves status, index and flash as they were. *)
Definition ignoresPress (textWidth : string -> Z) (p : Pins) (d : Device)
    : Prop :=
  exists d',
    handleButtonPress textWidth p d = Returned d' /\
    status d' = status d /\
    statusIndex (buttons d') = statusIndex (buttons d) /\
    flash d' = flash d.

(** The classification as the design document words it: every press of
    30 ms up to 3000 ms that passes the 300 ms debounce cycles the status. *)
Definition shortPressFrom30 (textWidth : string -> Z) : Prop :=
  forall (p : Pins) (d : Device),
    releases p d ->
    0 <= statusIndex (buttons d) < 5 ->
    30 <= pressDuration p d < 3000 ->
    300 < u32 (now p - lastPress (buttons d)) ->
    gameOfLifeRunning d = false ->
    cyclesStatus textWidth p d.

(** The device with the main button held down since [t]. *)
Definition heldSince (t : Z) (d : Device) : Device :=
  setButtonState d t true.

(** Truncation as the design document words it: a text longer than the
    31 characters the buffer holds is cut to 31 and stored. *)
Definition truncatesLongText (textWidth strtol16 : string -> Z) : Prop :=
  forall (req : gmap string string) (d : Device),
    31 < strlen (arg req "customText") ->
    customText (status (serverSetCustom textWidth strtol16 req d)) =
    substring 0 31 (c_str (arg req "customText")).

(** The fields one flush writes, in the order it writes them. *)
Definition persisted (st : StatusState) : list (string * PrefVal) :=
  [("isBusy", PBool (isBusy st));
   ("customText", PString (customText st));
   ("customColor", PUInt (customColor st));
   ("showBattery", PBool (showBattery st));
   ("showCornerInfo", PInt (showCornerInfo st));
   ("customText1", PString (CustomStatus.text (slotAt st 0)));
   ("customColor1", PUInt (CustomStatus.color (slotAt st 0)));
   ("customText2", PString (CustomStatus.text (slotAt st 1)));
   ("customColor2", PUInt (CustomStatus.color (slotAt st 1)));
   ("customText3", PString (CustomStatus.text (slotAt st 2)));
   ("customColor3", PUInt (CustomStatus.color (slotAt st 2)))].

(** A burst of set-custom-text commands, oldest first. *)
Definition burst (textWidth strtol16 : string -> Z)
    (reqs : list (gmap string string)) (d : Device) : Device :=
  fold_left (fun d req => serverSetCustom textWidth strtol16 req d) reqs d.

(** The status after the preset "LET'S TALK" was applied at boot. *)
Definition talkStatus : StatusState :=
  mkStatus false "LET'S TALK" TFT_GREEN (customStatuses bootStatus) true 1 false.

(** The reset rule as the design document words it, in its half that
    says when no reset happens: a new generation that has a live cell and
    whose fingerprint is none of the last 8 recorded ones does not trigger
    the morph. *)
Definition resetsOnlyOnRepeat (targetPoints : list TargetPoint)
    (cellColour : Z -> Z -> Z -> Z) : Prop :=
  forall (acts : list Action) (st : GolState) (recorded : list Z)
         (e : Entropy) (st' : GolState) (evs : list GolEvent),
    trackedRun targetPoints cellColour golBoot [] acts = Done (st, recorded) ->
    stepGameOfLife targetPoints cellColour e st = Done (st', evs) ->
    newAllDead st = false ->
    ~ In (newFingerprint st) (lastN 8 recorded) ->
    morphCount evs = 0%nat.

(** Two 2x2 blocks, at columns 0..1 of rows 0..1 and at columns 10..11 of
    rows 14..15, as the values of [rand()] that produce them. *)
Definition twoBlocks (y x : Z) : Z :=
  if (((y =? 0) || (y =? 1)) && ((x =? 0) || (x =? 1)))
     || (((y =? 14) || (y =? 15)) && ((x =? 10) || (x =? 11)))
  then 0 else 1.

(** A single live cell, at row 3, column 3. *)
Definition oneCell (y x : Z) : Z :=
  if (y =? 3) && (x =? 3) then 0 else 1.

(** The ring read as a list of recorded fingerprints: eight zeros, as left
    by the initialiser or the clearing loop, followed by what was written
    since. *)
Definition padded (recorded : list Z) : list Z := replicate 8 0 ++ recorded.

(** The ring holds the last eight entries of [padded recorded], each at
    the slot its position selects. *)
Definition ringHolds (st : GolState) (recorded : list Z) : Prop :=
  let n := Z.of_nat (length recorded) in
  length (hashHistory st) = 8%nat /\
  hashIdx st = n mod 8 /\
  forall j, 0 <= j < 8 ->
    historyAt (hashHistory st) j = historyAt (padded recorded) (n + (j - n) mod 8).

(** ** Notions used for the assignment *)

(** [used[j]] *)
Definition taken (used : list bool) (j : nat) : bool := default false (used !! j).

Definition usedCount (used : list bool) : nat := length (List.filter id used).

(** The inner loop after its first [k] rounds. *)
Definition scan (t : TargetPoint) (cells : list LiveCell) (used : list bool)
    (k : nat) : Z * Z :=
  fold_left (fun (best : Z * Z) (j : nat) =>
    if default false (used !! j) then best
    else match cells !! j with
         | Some c =>
             let dist := dist2 c t in
             if dist <? fst best then (dist, Z.of_nat j) else best
         | None => best
         end)
    (seq 0 k) (1000000000, -1).

(** Among the first [k] cells, no free cell is closer to [t] than [d], and
    none at distance [d] comes before cell [j]. *)
Definition minimalAt (t : TargetPoint) (cells : list LiveCell)
    (used : list bool) (k : nat) (d : Z) (j : nat) : Prop :=
  forall j' c', (j' < k)%nat -> cells !! j' = Some c' -> taken used j' = false ->
    d <= dist2 c' t /\ (dist2 c' t = d -> (j <= j')%nat).

Definition bestOf (t : TargetPoint) (cells : list LiveCell) (used : list bool)
    (k : nat) (best : Z * Z) : Prop :=
  (snd best = -1 /\ fst best = 1000000000 /\
   forall j, (j < k)%nat -> taken used j = true) \/
  (exists j c, (j < k)%nat /\ snd best = Z.of_nat j /\ cells !! j = Some c /\
     taken used j = false /\ fst best = dist2 c t /\
     minimalAt t cells used k (fst best) j).

(** One round of the outer loop, and the rounds for the targets [ts]
    numbered from [i]. *)
Definition stepAssign (cells : list LiveCell) (i : nat) (t : TargetPoint)
    (acc : list Z * list bool) : list Z * list bool :=
  let minIdx := snd (nearestUnused t cells (snd acc)) in
  if 0 <=? minIdx
  then (<[i := minIdx]> (fst acc), <[Z.to_nat minIdx := true]> (snd acc))
  else acc.

Fixpoint assignFrom (cells : list LiveCell) (i : nat) (ts : list TargetPoint)
    (acc : list Z * list bool) : list Z * list bool :=
  match ts with
  | [] => acc
  | t :: ts' => assignFrom cells (S i) ts' (stepAssign cells i t acc)
  end.

(** Cell [j] is the one the greedy rule picks for target [i]: no earlier
    target has it, and among the cells no earlier target has, it is
    closest to the target, the first such in index order. *)
Definition chosen (targets : list TargetPoint) (cells : list LiveCell)
    (asg : list Z) (i j : nat) : Prop :=
  (forall i', (i' < i)%nat -> asg !! i' <> Some (Z.of_nat j)) /\
  forall t c, targets !! i = Some t -> cells !! j = Some c ->
    forall j' c', cells !! j' = Some c' ->
      (forall i', (i' < i)%nat -> asg !! i' <> Some (Z.of_nat j')) ->
      dist2 c t <= dist2 c' t /\ (dist2 c' t = dist2 c t -> (j <= j')%nat).

(** The state of the outer loop after [i] rounds. *)
Definition assigned (targets : list TargetPoint) (cells : list LiveCell)
    (i : nat) (acc : list Z * list bool) : Prop :=
  length (fst acc) = length targets /\
  length (snd acc) = length cells /\
  usedCount (snd acc) = i /\
  (forall j, (j < length cells)%nat ->
     taken (snd acc) j = true <->
     exists i', (i' < i)%nat /\ fst acc !! i' = Some (Z.of_nat j)) /\
  (forall i', (i' < i)%nat ->
     exists j, (j < length cells)%nat /\ fst acc !! i' = Some (Z.of_nat j) /\
               chosen targets cells (fst acc) i' j).

(** A point of the display. *)
Definition onDisplay (x y : Z) : Prop :=
  0 <= x < screenWidth /\ 0 <= y < screenHeight.

(** The status with the custom slots "", "LUNCH", "". *)
Definition lunchStatus : StatusState :=
  mkStatus true "BUSY" TFT_RED
    [CustomStatus.mk "" TFT_BLUE; CustomStatus.mk "LUNCH" TFT_BLUE;
     CustomStatus.mk "" TFT_BLUE] true 1 false.

(** ** Further parts of the sketch *)

(** *** Loading the preferences in [setup] *)

(** The typed getters of the preferences store: the stored value when the
    key holds one of that type, the default otherwise. *)
Definition getBool (m : gmap string PrefVal) (k : string) (def : bool) : bool :=
  match m !! k with Some (PBool b) => b | _ => def end.

Definition getString (m : gmap string PrefVal) (k : string) (def : string)
    : string :=
  match m !! k with Some (PString v) => v | _ => def end.

Definition getUInt (m : gmap string PrefVal) (k : string) (def : Z) : Z :=
  match m !! k with Some (PUInt v) => v | _ => def end.

Definition getInt (m : gmap string PrefVal) (k : string) (def : Z) : Z :=
  match m !! k with Some (PInt v) => v | _ => def end.

(** [s.toCharArray(buf, bufsize)] *)
Definition toCharArray (s : string) (bufsize : nat) : string :=
  strncpy s (bufsize - 1).

(** One round of the loop over the slots. *)
Definition loadSlot (m : gmap string PrefVal) (i : Z) : CustomStatus :=
  CustomStatus.mk
    (toCharArray (getString m (slotKey "customText" i) ("CUSTOM" +:+ pretty (i + 1))) 32)
    (getUInt m (slotKey "customColor" i) TFT_BLUE).

(** The status variables after the "load saved preferences" block. *)
Definition loadStatus (m : gmap string PrefVal) : StatusState :=
  mkStatus (getBool m "isBusy" true)
           (toCharArray (getString m "customText" "BUSY") 32)
           (getUInt m "customColor" TFT_RED)
           (loadSlot m <$> upto 3)
           (getBool m "showBattery" true)
           (getInt m "showCornerInfo" 1)
           false.

(** *** The access point name *)

(** One digit of [%X]. *)
Definition hexDigit (n : Z) : ascii :=
  nth (Z.to_nat n)
      ["0"; "1"; "2"; "3"; "4"; "5"; "6"; "7"; "8"; "9";
       "A"; "B"; "C"; "D"; "E"; "F"]%char "0"%char.

(** [%02X] of a byte. *)
Definition hex2 (b : Z) : string :=
  String (hexDigit (Z.quot b 16)) (String (hexDigit (Z.rem b 16)) EmptyString).

(** [sprintf(ssid, "%s-%02X%02X%02X", PRODUCT_NAME, mac[3], mac[4], mac[5])] *)
Definition ssidOf (mac : list Z) : string :=
  "BusyBee-" +:+ hex2 (default 0 (mac !! 3%nat)) +:+ hex2 (default 0 (mac !! 4%nat))
             +:+ hex2 (default 0 (mac !! 5%nat)).

(** *** The marquee *)

Definition updateInterval : Z := 80.
Definition textSpeed : Z := 2.

(** A value stored in an [int16_t]. *)
Definition s16 (v : Z) : Z := (v + 2 ^ 15) mod 2 ^ 16 - 2 ^ 15.

(** The marquee globals the device record does not hold, and the bands
    [drawMarqueeTextOnly] drew: text, colour and x position. *)
Record Marquee : Type := mkMarquee {
  marqueeNeedsUpdate : bool;
  lastUpdate : Z;
  bands : list (string * Z * Z)
}.

(** [updateMarqueeIfNeeded]; [w] is what [sprite.textWidth(customText)]
    returns in this call. *)
Definition updateMarqueeIfNeeded (currentMillis w : Z) (dm : Device * Marquee)
    : Device * Marquee :=
  let d := fst dm in
  let m := snd dm in
  if negb (useMarquee (screen d)) then dm
  else
    let due := u32 (currentMillis - lastUpdate m) >=? updateInterval in
    let x1 := s16 (textX (screen d) - textSpeed) in
    let x2 := if x1 <? - w then screenWidth else x1 in
    let x := if due then x2 else textX (screen d) in
    let needs := if due then true else marqueeNeedsUpdate m in
    let last := if due then currentMillis else lastUpdate m in
    let s := screen d in
    let d' := withScreen d (mkScreen x (useMarquee s) (rotation s) (frames s)) in
    if needs
    then (d', mkMarquee false last
                (bands m ++ [(customText (status d), customColor (status d), x)]))
    else (d', mkMarquee needs last (bands m)).

(** [n] marquee updates, each one due, each measuring the same width. *)
Fixpoint marqueeTicks (n : nat) (t w : Z) (dm : Device * Marquee)
    : Device * Marquee :=
  match n with
  | O => dm
  | S n' =>
      marqueeTicks n' (t + updateInterval) w
        (updateMarqueeIfNeeded (t + updateInterval) w dm)
  end.

(** *** The whole device: status side and engine side *)

Record System : Type := mkSystem {
  dev : Device;
  gol : GolState;
  marquee : Marquee;
  lastBatteryUpdate : Z;     (* the two locals of the display task *)
  lastSaveCheck : Z
}.

(** The routes [setupWebServer] registers, the page itself apart. *)
Inductive Route : Type :=
  | SetCornerInfo
  | SetShowBattery
  | SetStatus
  | SetCustomStatus (i : Z)          (* /setCustomStatus1..3, [i] in 0..2 *)
  | ThreeBody (r : Z -> Z -> Z)      (* with the values of rand() it draws *)
  | StopThreeBody.

(** What is drawn, in the order it reaches the panel. *)
Inductive Drawn : Type :=
  | StatusFrame (f : string * Z)
  | BandFrame (b : string * Z * Z)
  | EngineFrame (e : GolEvent).

(** How one pass of the display task ends. *)
Inductive Pass : Type :=
  | Continues (s : System) (drawn : list Drawn)
  | Sleeps
  | Faults
  | Hangs.

Section Sketch.

Variable textWidth : string -> Z.
Variable toInt : string -> Z.
Variable strtol16 : string -> Z.
Variable targetPoints : list TargetPoint.
Variable cellColour : Z -> Z -> Z -> Z.

(** [checkMarquee] *)
Definition checkMarquee (d : Device) : Device :=
  let s := screen d in
  withScreen d (mkScreen (textX s)
                         (textWidth (customText (status d)) >? screenWidth)
                         (rotation s) (frames s)).

(** The device as [setup] leaves it, for the flash it finds. *)
Definition setupDevice (f : Flash) : Device :=
  displayStatus
    (checkMarquee
       (mkDevice (loadStatus (prefs f)) false (mkButtons 3 0 false 0 0)
                 (mkScreen screenWidth false (getInt (prefs f) "screenRotation" 3) [])
                 f)).

(** The handler of a route. *)
Definition serve (r : Route) (req : gmap string string) (s : System) : System :=
  let onDevice (d : Device) :=
    mkSystem d (gol s) (marquee s) (lastBatteryUpdate s) (lastSaveCheck s) in
  match r with
  | SetCornerInfo => onDevice (setCornerInfoHandler toInt req (dev s))
  | SetShowBattery => onDevice (setShowBatteryHandler req (dev s))
  | SetStatus => onDevice (setStatusHandler textWidth toInt strtol16 req (dev s))
  | SetCustomStatus i => onDevice (setCustomStatusHandler strtol16 i req (dev s))
  | ThreeBody r =>
      mkSystem (withRunning (dev s) true) (initGameOfLife r (gol s))
               (marquee s) (lastBatteryUpdate s) (lastSaveCheck s)
  | StopThreeBody => onDevice (withRunning (dev s) false)
  end.

(** The status frames a piece of code added to the log. *)
Definition newFrames (before after : Device) : list Drawn :=
  StatusFrame <$> drop (length (frames (screen before))) (frames (screen after)).

Definition newBands (before after : Marquee) : list Drawn :=
  BandFrame <$> drop (length (bands before)) (bands after).

(** One pass of the loop of [updateDisplay]: the pins and the times the
    button handler reads, the randomness the engine may draw, the time
    and the text width the marquee reads, and the time the rest of the
    pass reads. *)
Definition updateDisplayPass (p : Pins) (e : Entropy) (marqueeMillis w : Z)
    (currentMillis : Z) (s : System) : Pass :=
  if gameOfLifeRunning (dev s) then
    match handleButtonPress textWidth p (dev s) with
    | DeepSleep _ => Sleeps
    | Spinning => Hangs
    | Returned d1 =>
        match stepGameOfLife targetPoints cellColour e (gol s) with
        | DivByZero => Faults
        | Done (g1, evs) =>
            Continues (mkSystem d1 g1 (marquee s) (lastBatteryUpdate s)
                                (lastSaveCheck s))
                      (newFrames (dev s) d1 ++ (EngineFrame <$> evs))
        end
    end
  else
    match handleButtonPress textWidth p (dev s) with
    | DeepSleep _ => Sleeps
    | Spinning => Hangs
    | Returned d1 =>
        let dm := updateMarqueeIfNeeded marqueeMillis w (d1, marquee s) in
        let d2 := fst dm in
        let batteryDue := u32 (currentMillis - lastBatteryUpdate s) >=? 60000 in
        let d3 := if batteryDue then displayStatus d2 else d2 in
        let ds := saveCheck currentMillis (d3, lastSaveCheck s) in
        Continues (mkSystem (fst ds) (gol s) (snd dm)
                            (if batteryDue then currentMillis
                             else lastBatteryUpdate s)
                            (snd ds))
                  (newFrames (dev s) d1 ++ newBands (marquee s) (snd dm)
                   ++ newFrames d2 d3)
    end.

End Sketch.

(** *** Well-formed status *)

(** A C string that fits a [char[32]]: no NUL inside, at most 31 bytes. *)
Definition fitsBuffer (s : string) : Prop :=
  c_str s = s /\ (String.length s <= 31)%nat.

Definition validSlot (c : CustomStatus) : Prop :=
  fitsBuffer (CustomStatus.text c) /\ 0 <= CustomStatus.color c < 65536.

Definition validStatus (st : StatusState) : Prop :=
  fitsBuffer (customText st) /\ 0 <= customColor st < 65536 /\
  length (customStatuses st) = 3%nat /\ Forall validSlot (customStatuses st).

(** The payload of a write is well formed. *)
Definition validOp (op : Op) : Prop :=
  match op with
  | SetCustomText s | SetSlotText _ s => fitsBuffer s
  | SetCustomColor c | SetSlotColor _ c => 0 <= c < 65536
  | _ => True
  end.

(** *** The colour fields of the page *)

(** The digits [%X] prints for a [uint32_t]. *)
Fixpoint hexOf (digits : nat) (n : Z) : string :=
  match digits with
  | O => EmptyString
  | S digits' =>
      if n <? 16 then String (hexDigit n) EmptyString
      else hexOf digits' (Z.quot n 16) +:+ String (hexDigit (Z.rem n 16)) EmptyString
  end.

(** Zeros in front, up to a width. *)
Fixpoint zeroPad (missing : nat) (s : string) : string :=
  match missing with
  | O => s
  | S missing' => String "0"%char (zeroPad missing' s)
  end.

(** What [sprintf(buf, "#%04X", color)] writes, the final NUL apart. *)
Definition colourHex (c : Z) : string :=
  let digits := hexOf 8 c in
  String "#"%char (zeroPad (4 - String.length digits) digits).

(** *** The colour of a slot button *)

(** The conversion the page applies to a slot colour for its button:
    565 back to three bytes. *)
Definition rgb565To888 (c : Z) : Z * Z * Z :=
  (u8 (Z.quot (Z.land (Z.shiftr c 11) 0x1F * 255) 31),
   u8 (Z.quot (Z.land (Z.shiftr c 5) 0x3F * 255) 63),
   u8 (Z.quot (Z.land c 0x1F * 255) 31)).

(** [sprintf(colorHex, "#%02X%02X%02X", r, g, b)] *)
Definition buttonColourHex (c : Z) : string :=
  let '(r, g, b) := rgb565To888 c in
  String "#"%char (hex2 r +:+ hex2 g +:+ hex2 b).

(** The value of a hexadecimal digit, and what [strtol(_, nullptr, 16)]
    returns on a string of two of them. *)
Definition hexValue (c : ascii) : Z :=
  let n := Z.of_nat (nat_of_ascii c) in
  if (48 <=? n) && (n <=? 57) then n - 48
  else if (65 <=? n) && (n <=? 70) then n - 55
  else if (97 <=? n) && (n <=? 102) then n - 87
  else 0.

Definition strtolHex2 (s : string) : Z :=
  match s with
  | String a (String b EmptyString) => 16 * hexValue a + hexValue b
  | _ => 0
  end.

(** *** Runs *)

Section Runs.

Variable textWidth : string -> Z.
Variable targetPoints : list TargetPoint.
Variable cellColour : Z -> Z -> Z -> Z.

(** Successive polls of the buttons, until one does not return. *)
Fixpoint runPolls (ps : list Pins) (d : Device) : Poll :=
  match ps with
  | [] => Returned d
  | p :: ps' =>
      match handleButtonPress textWidth p d with
      | Returned d' => runPolls ps' d'
      | r => r
      end
  end.

(** Successive calls of the engine none of which resets or faults; [None]
    as soon as one does. *)
Fixpoint quietSteps (es : list Entropy) (st : GolState) : option GolState :=
  match es with
  | [] => Some st
  | e :: es' =>
      match stepGameOfLife targetPoints cellColour e st with
      | Done (st', evs) =>
          if (0 <? morphCount evs)%nat then None else quietSteps es' st'
      | DivByZero => None
      end
  end.

End Runs.

(** The next generation of a grid, and the generation after [n]. *)
Definition nextGrid (rows cols : Z) (g : Grid) : Grid :=
  tabulate rows cols (nextCell g rows cols).

Definition generation (rows cols : Z) (n : nat) (g : Grid) : Grid :=
  Nat.iter n (nextGrid rows cols) g.



(** *** Flash and status in step *)

(** Unless a deferred save is pending, the load block of [setup], run on
    the flash as it is now, gives the status as it is now. *)
Definition inSync (d : Device) : Prop :=
  needSaveStatus (status d) = false ->
  loadStatus (prefs (flash d)) = status d.

(** *** A release and the rotation button in one poll *)

(** The poll takes a press of the rotation button: the pin is low and
    more than 300 ms have passed since the last accepted press. *)
Definition acceptsRotation (p : Pins) (d : Device) : bool :=
  anglePressed p && (u32 (nowAngle p - lastPress (buttons d)) >? 300).

(** The same readings with the rotation button up. *)
Definition rotationUp (p : Pins) : Pins :=
  mkPins false (nowAngle p) (buttonPressed p) (now p).

(** The device as the rotation block leaves it. *)
Definition rotated (p : Pins) (d : Device) : Device := fst (rotationButton p d).

(** *** The two tasks, statement by statement *)

(** The two critical sections of [serverSetCustom]. *)
Definition customTextOps (req : gmap string string) : list Op :=
  let newText := arg req "customText" in
  if (0 <? strlen newText) && (strlen newText <=? 20)
  then [EnterCritical; SetCustomText (strncpy newText 31); ExitCritical]
  else [].

Definition customColorOps (strtol16 : string -> Z) (req : gmap string string)
    : list Op :=
  match parseColor strtol16 (arg req "customColor") with
  | Some c => [EnterCritical; SetCustomColor c; ExitCritical]
  | None => []
  end.

(** One statement of [reallySaveStatus] or of [serverSetCustom], as far
    as the status and the flash go.  A [Put] reads the global when it
    runs; [reallySaveStatus] takes no lock, so a critical section of the
    other task does not keep it out. *)
Inductive Stmt : Type :=
  | Put (k : string) (v : StatusState -> PrefVal)   (* prefs.putX(k, global) *)
  | PutSlots                                        (* saveCustomStatuses() *)
  | AssignNeedSave (b : bool)                       (* needSaveStatus = b *)
  | Critical (ops : list Op)                        (* one critical section *)
  | Redraw.            (* textX = screenWidth; checkMarquee(); displayStatus() *)

Definition reallySaveStmts : list Stmt :=
  [Put "isBusy" (fun st => PBool (isBusy st));
   Put "customText" (fun st => PString (customText st));
   Put "customColor" (fun st => PUInt (customColor st));
   Put "showBattery" (fun st => PBool (showBattery st));
   Put "showCornerInfo" (fun st => PInt (showCornerInfo st));
   PutSlots;
   AssignNeedSave false].

Definition serverSetCustomStmts (strtol16 : string -> Z)
    (req : gmap string string) : list Stmt :=
  [Critical (customTextOps req); Critical (customColorOps strtol16 req);
   Redraw; AssignNeedSave true].

(** The core whose task runs its next statement: core 0 has the web
    server task, core 1 the display task. *)
Inductive Core : Type := Core0 | Core1.

(** The statements of the free text command in the middle of the flush:
    after the flush has written the text, before it clears the flag. *)
Definition overlapped : list Core :=
  [Core1; Core1; Core0; Core0; Core0; Core0; Core1; Core1; Core1; Core1; Core1].

Section Tasks.

Variable textWidth : string -> Z.

Definition exec (s : Stmt) (d : Device) : Device :=
  match s with
  | Put k v => withFlash d (put k (v (status d)) (flash d))
  | PutSlots => withFlash d (saveCustomStatuses (status d) (flash d))
  | AssignNeedSave b => withStatus d (setNeedSave (status d) b)
  | Critical ops => withStatus d (runOps ops (status d))
  | Redraw => displayStatus (resetMarquee textWidth d)
  end.

(** One task alone. *)
Definition runStmts (l : list Stmt) (d : Device) : Device :=
  fold_left (fun d s => exec s d) l d.

(** The two tasks under a schedule: each turn runs the next statement of
    the task of that core, if it has one left.  The result is the device
    and the statements not yet run. *)
Fixpoint interleave (sched : list Core) (web disp : list Stmt) (d : Device)
    : Device * (list Stmt * list Stmt) :=
  match sched with
  | [] => (d, (web, disp))
  | Core0 :: sched' =>
      match web with
      | [] => interleave sched' web disp d
      | s :: web' => interleave sched' web' disp (exec s d)
      end
  | Core1 :: sched' =>
      match disp with
      | [] => interleave sched' web disp d
      | s :: disp' => interleave sched' web disp' (exec s d)
      end
  end.

End Tasks.

(** * Properties *)

(** ** The transition rule *)

Lemma cellAt_tabulate rows cols f y x :
  0 <= y < rows -> 0 <= x < cols ->
  cellAt (tabulate rows cols f) y x = f y x.
Proof.
  intros Hy Hx. unfold cellAt, tabulate, upto.
  rewrite list_lookup_fmap.
  rewrite (lookup_seqZ_lt 0 rows (Z.to_nat y)) by lia. simpl.
  rewrite list_lookup_fmap.
  rewrite (lookup_seqZ_lt 0 cols (Z.to_nat x)) by lia. simpl.
  f_equal; lia.
Qed.

Lemma cellAt_tabulate_binary rows cols f :
  (forall y x, f y x = 0 \/ f y x = 1) -> binaryGrid (tabulate rows cols f).
Proof.
  intros Hf y x. unfold cellAt, tabulate, upto.
  rewrite list_lookup_fmap.
  destruct (seqZ 0 rows !! Z.to_nat y) as [y'|]; simpl; [|auto].
  rewrite list_lookup_fmap.
  destruct (seqZ 0 cols !! Z.to_nat x) as [x'|]; simpl; auto.
Qed.

Lemma wrap_index (i d n : Z) :
  0 <= i < n -> -1 <= d <= 1 -> Z.rem (i + d + n) n = (i + d) mod n.
Proof.
  intros Hi Hd. rewrite Z.rem_mod_nonneg by lia.
  replace (i + d + n) with (i + d + 1 * n) by lia.
  apply Z_mod_plus_full.
Qed.

Lemma sum_of_flags {A} (f : A -> Z) (l : list A) :
  (forall a, f a = 0 \/ f a = 1) ->
  fold_right Z.add 0 (f <$> l) =
  Z.of_nat (length (filter (fun a => f a <> 0) l)).
Proof.
  intros Hf. induction l as [|a l IH]; [reflexivity|].
  rewrite filter_cons. cbn [fmap list_fmap fold_right] in *.
  rewrite IH. destruct (decide (f a <> 0)) as [Hn|Hn]; cbn [length].
  - destruct (Hf a); lia.
  - destruct (Hf a); lia.
Qed.

Lemma liveNeighbours_sum g rows cols y x :
  0 <= y < rows -> 0 <= x < cols ->
  liveNeighbours g rows cols y x =
  fold_right Z.add 0 ((fun p : Z * Z => cellAt g (fst p) (snd p)) <$>
                      torusNeighbours rows cols y x).
Proof.
  intros Hy Hx. unfold liveNeighbours, torusNeighbours.
  cbn [fold_left fold_right fmap list_fmap fst snd Z.eqb negb orb].
  rewrite !wrap_index by lia. lia.
Qed.

Lemma liveNeighbours_count g rows cols y x :
  binaryGrid g -> 0 <= y < rows -> 0 <= x < cols ->
  liveNeighbours g rows cols y x = liveCount g rows cols y x.
Proof.
  intros Hb Hy Hx. rewrite liveNeighbours_sum by assumption.
  unfold liveCount. apply sum_of_flags. intros [a b]. apply Hb.
Qed.

Lemma initGameOfLife_binary r st : binaryGrid (golGrid (initGameOfLife r st)).
Proof.
  apply cellAt_tabulate_binary. intros y x.
  destruct (Z.rem (r y x) 4 =? 0); auto.
Qed.

Lemma nextGeneration_binary st : binaryGrid (golGrid (nextGeneration st)).
Proof.
  apply cellAt_tabulate_binary. intros y x. unfold nextCell.
  repeat match goal with |- context [if ?b then _ else _] => destruct b end;
    auto.
Qed.

Lemma newGeneration_eq st :
  newGeneration st =
  tabulate (golRows st) (golCols st)
    (nextCell (golGrid st) (golRows st) (golCols st)).
Proof. reflexivity. Qed.

(** C1.  One call replaces the grid by the next generation of the standard
    rule on the torus: the number the code adds up for a cell is the number
    of its eight wrapped neighbours that are alive, and the cell is alive
    afterwards exactly when it was alive with 2 or 3 such neighbours or
    dead with exactly 3.  So 3 live neighbours always give a live cell, and
    a live cell with at most 1 or at least 4 dies.  The old generation is
    left in the other buffer. *)
Theorem transition_rule (st : GolState) (y x : Z) :
  binaryGrid (golGrid st) ->
  0 <= y < golRows st -> 0 <= x < golCols st ->
  let old := cellAt (golGrid st) y x in
  let live := liveCount (golGrid st) (golRows st) (golCols st) y x in
  let new := cellAt (newGeneration st) y x in
  liveNeighbours (golGrid st) (golRows st) (golCols st) y x = live /\
  (new = 1 <-> (old = 1 /\ (live = 2 \/ live = 3)) \/ (old = 0 /\ live = 3)) /\
  (new = 0 \/ new = 1) /\
  (live = 3 -> new = 1) /\
  (old = 1 -> live <= 1 \/ 4 <= live -> new = 0) /\
  golNext (nextGeneration (updateAlpha st)) = golGrid st.
Proof.
  intros Hb Hy Hx old live new.
  assert (Hlive : liveNeighbours (golGrid st) (golRows st) (golCols st) y x = live)
    by (apply liveNeighbours_count; assumption).
  assert (Hnew : new = nextCell (golGrid st) (golRows st) (golCols st) y x).
  { unfold new. rewrite newGeneration_eq. apply cellAt_tabulate; assumption. }
  unfold nextCell in Hnew. rewrite Hlive in Hnew. fold old in Hnew.
  split; [exact Hlive|].
  assert (Hold : old = 0 \/ old = 1) by apply Hb.
  destruct (Z.eqb_spec old 0) as [H0|H0];
    destruct (Z.eqb_spec live 2) as [H2|H2];
    destruct (Z.eqb_spec live 3) as [H3|H3];
    cbn [negb orb] in Hnew; rewrite Hnew;
    repeat split; intros; try lia; auto.
Qed.

(** The corner cell of a block has three live neighbours and stays
    alive. *)
Lemma transition_rule_witness :
  liveNeighbours (golGrid (initGameOfLife twoBlocks golBoot)) 28 53 0 0 = 3 /\
  cellAt (newGeneration (initGameOfLife twoBlocks golBoot)) 0 0 = 1.
Proof.
  destruct (transition_rule (initGameOfLife twoBlocks golBoot) 0 0)
    as (Hlive & _ & _ & Hthree & _).
  - apply initGameOfLife_binary.
  - vm_compute. split; [discriminate|reflexivity].
  - vm_compute. split; [discriminate|reflexivity].
  - split.
    + vm_compute. reflexivity.
    + apply Hthree. vm_compute. reflexivity.
Defined.

(** ** Fade levels *)


Lemma updateAlpha_cell st y x :
  0 <= y < golRows st -> 0 <= x < golCols st ->
  Z.of_nat (length (alphaGrid st)) = golRows st ->
  cellAt (alphaGrid (updateAlpha st)) y x =
  alphaStep (cellAt (golGrid st) y x) (cellAt (alphaGrid st) y x).
Proof.
  intros Hy Hx Hlen. unfold updateAlpha. cbn [alphaGrid].
  rewrite cellAt_tabulate by assumption.
  apply Z.eqb_eq in Hlen. rewrite Hlen. reflexivity.
Qed.

Lemma alphaStep_alive_multiple (k : Z) :
  0 <= k < 8 -> alphaStep 1 (32 * k) = 32 * ((k + 1) mod 8).
Proof.
  intros Hk.
  assert (Hc : k = 0 \/ k = 1 \/ k = 2 \/ k = 3 \/ k = 4 \/ k = 5 \/ k = 6 \/ k = 7)
    by lia.
  destruct Hc as [->|[->|[->|[->|[->|[->|[->| ->]]]]]]]; reflexivity.
Qed.

Lemma alphaAfter_alive (n : nat) (k : Z) :
  0 <= k < 8 ->
  alphaAfter 1 n (32 * k) = 32 * ((k + Z.of_nat n) mod 8).
Proof.
  revert k. induction n as [|n IH]; intros k Hk.
  - cbn [alphaAfter]. rewrite Z.add_0_r, Z.mod_small by lia. reflexivity.
  - cbn [alphaAfter]. rewrite alphaStep_alive_multiple by assumption.
    rewrite IH by (apply Z.mod_pos_bound; lia).
    rewrite Zplus_mod_idemp_l. f_equal. f_equal. lia.
Qed.

(** C6.  The fade level of a live cell is stepped in a [uint8_t]: from 224
    the step of 32 wraps to 0, since the test against 255 that follows can
    no longer see the overflow.  A cell that stays alive from level 0
    therefore runs through 0, 32, ..., 224 and starts again at 0; it never
    holds 255.  (The level does stay within 0..255, and a dead cell's
    level falls by 32 down to 0 and stays there.) *)
Theorem alpha_wraps :
  alphaStep 1 224 = 0 /\
  (forall n : nat, alphaAfter 1 n 0 = 32 * (Z.of_nat n mod 8)) /\
  (forall n : nat, alphaAfter 1 n 0 <> 255) /\
  alphaAfter 1 8 0 < alphaAfter 1 7 0.
Proof.
  assert (H : forall n : nat, alphaAfter 1 n 0 = 32 * (Z.of_nat n mod 8)).
  { intros n. change 0 with (32 * 0) at 1.
    rewrite alphaAfter_alive by lia. reflexivity. }
  split; [reflexivity|]. split; [exact H|]. split.
  - intros n. rewrite H. lia.
  - rewrite !H. reflexivity.
Qed.

(** ** The status cycle *)

Ltac probe E0 E1 E2 :=
  repeat (progress (cbv -[strlen slotAt CustomStatus.text Z.eqb Z.le Z.lt
                          Z.modulo selectable];
                    rewrite ?E0, ?E1, ?E2)).

Ltac decideSlot E0 E1 E2 :=
  repeat (progress (cbv -[strlen slotAt CustomStatus.text Z.eqb];
                    rewrite ?E0, ?E1, ?E2)).

Lemma cycleLoop_spec (st : StatusState) (idx : Z) :
  0 <= idx < 5 ->
  exists idx' tries,
    cycleLoop 4 st idx 0 = Some (idx', tries) /\
    1 <= tries <= 4 /\ 0 <= idx' < 5 /\
    selectable st idx' = true /\
    idx' = (idx + tries) mod 5 /\
    (forall j, 1 <= j < tries -> selectable st ((idx + j) mod 5) = false).
Proof.
  intros Hidx.
  assert (Hc : idx = 0 \/ idx = 1 \/ idx = 2 \/ idx = 3 \/ idx = 4) by lia.
  destruct (strlen (CustomStatus.text (slotAt st 0)) =? 0) eqn:E0;
  destruct (strlen (CustomStatus.text (slotAt st 1)) =? 0) eqn:E1;
  destruct (strlen (CustomStatus.text (slotAt st 2)) =? 0) eqn:E2;
  destruct Hc as [->|[->|[->|[-> | ->]]]];
  probe E0 E1 E2;
  eexists _, _; (split; [reflexivity|]);
  (split; [lia|]); (split; [lia|]);
  (split; [decideSlot E0 E1 E2; reflexivity|]);
  (split; [reflexivity|]);
  intros j Hj; try lia;
  assert (Hj' : j = 1 \/ j = 2 \/ j = 3) by lia;
  destruct Hj' as [->|[-> | ->]]; try lia;
  decideSlot E0 E1 E2; reflexivity.
Qed.

Lemma cycleLoop_moves (st : StatusState) (idx idx' tries : Z) :
  0 <= idx < 5 -> cycleLoop 4 st idx 0 = Some (idx', tries) ->
  0 <= idx' < 5 /\ idx' <> idx.
Proof.
  intros Hidx Hc.
  destruct (cycleLoop_spec st idx Hidx) as (i & t & Hc' & Ht & Hi & _ & Hmod & _).
  rewrite Hc in Hc'. injection Hc' as <- <-. split; [assumption|].
  intros ->. rewrite Z.add_comm in Hmod.
  assert (Hc2 : idx = 0 \/ idx = 1 \/ idx = 2 \/ idx = 3 \/ idx = 4) by lia.
  assert (Ht2 : tries = 1 \/ tries = 2 \/ tries = 3 \/ tries = 4) by lia.
  destruct Hc2 as [->|[->|[->|[-> | ->]]]];
    destruct Ht2 as [->|[->|[-> | ->]]]; vm_compute in Hmod; discriminate.
Qed.

(** C5.  From any index of the cycle 0..4 (Busy, Available, Custom1..3)
    the probe loop ends, after 1 to 4 probes, on the first index after the
    current one, in cyclic order, that is a preset or a custom slot with a
    text; every index it passed is an empty custom slot.  With the slot
    texts "", "LUNCH", "", successive short presses from Busy stop at
    Available, Custom2, Busy, Available, Custom2, Busy. *)
Theorem cycle_skips_empty_slots (st : StatusState) (idx : Z) :
  0 <= idx < 5 ->
  (exists idx' tries,
     cycleLoop 4 st idx 0 = Some (idx', tries) /\
     1 <= tries <= 4 /\ 0 <= idx' < 5 /\
     selectable st idx' = true /\
     idx' = (idx + tries) mod 5 /\
     (forall j, 1 <= j < tries -> selectable st ((idx + j) mod 5) = false)) /\
  (CustomStatus.text <$> customStatuses st = [""; "LUNCH"; ""] ->
   visits 6 st 0 = [1; 3; 0; 1; 3; 0]).
Proof.
  intros Hidx. split; [apply cycleLoop_spec; assumption|].
  intros Hs.
  destruct (customStatuses st) as [|a [|b [|c [|? ?]]]] eqn:Hcs;
    try discriminate Hs.
  cbn in Hs. injection Hs as Ha Hb Hc.
  assert (E0 : (strlen (CustomStatus.text (slotAt st 0)) =? 0) = true)
    by (unfold slotAt; rewrite Hcs; change ((strlen (CustomStatus.text a) =? 0) = true);
        rewrite Ha; reflexivity).
  assert (E1 : (strlen (CustomStatus.text (slotAt st 1)) =? 0) = false)
    by (unfold slotAt; rewrite Hcs; change ((strlen (CustomStatus.text b) =? 0) = false);
        rewrite Hb; reflexivity).
  assert (E2 : (strlen (CustomStatus.text (slotAt st 2)) =? 0) = true)
    by (unfold slotAt; rewrite Hcs; change ((strlen (CustomStatus.text c) =? 0) = true);
        rewrite Hc; reflexivity).
  probe E0 E1 E2. reflexivity.
Qed.

Lemma cycle_skips_empty_slots_witness :
  cycleLoop 4 lunchStatus 1 0 = Some (3, 2) /\
  visits 6 lunchStatus 0 = [1; 3; 0; 1; 3; 0].
Proof.
  destruct (cycle_skips_empty_slots lunchStatus 1 ltac:(lia))
    as ((idx' & tries & Hc & _) & Hv).
  split.
  - rewrite Hc. vm_compute in Hc. symmetry. exact Hc.
  - apply Hv. reflexivity.
Defined.

(** ** The main button *)

Section ButtonProperties.

Variable textWidth : string -> Z.

Lemma rotation_button_up (p : Pins) (d : Device) :
  anglePressed p = false ->
  handleButtonPress textWidth p d = mainButton textWidth p d.
Proof.
  intros Ha. unfold handleButtonPress, rotationButton. rewrite Ha.
  reflexivity.
Qed.

Lemma mainButton_release (p : Pins) (d : Device) :
  buttonPressed p = false -> buttonWasPressed (buttons d) = true ->
  mainButton textWidth p d =
  if pressDuration p d >=? longPressDuration then DeepSleep d
  else if pressDuration p d >? 30 then
    if u32 (now p - lastPress (buttons d)) >? 300 then
      if gameOfLifeRunning d then
        Returned (setButtonState
                    (setLastPress (displayStatus (withRunning d false)) (now p))
                    0 false)
      else
        match cycleLoop 4 (status d) (statusIndex (buttons d)) 0 with
        | None => Spinning
        | Some (idx, _) =>
            let d1 := setStatusIndex d idx in
            let d2 := withStatus d1 (runOps (applyIndexOps (status d1) idx)
                                            (status d1)) in
            let d3 := saveStatus (displayStatus (resetMarquee textWidth d2)) in
            Returned (setButtonState (setLastPress d3 (now p)) 0 false)
        end
    else Returned (setButtonState d 0 false)
  else Returned (setButtonState d 0 false).
Proof.
  intros Hp Hw. unfold mainButton, pressDuration. rewrite Hp, Hw.
  reflexivity.
Qed.

End ButtonProperties.

(** ** A release with the rotation button in play *)

Section ReleaseProperties.

Variable textWidth : string -> Z.

Lemma poll_without_rotation (p : Pins) (d : Device) :
  acceptsRotation p d = false ->
  handleButtonPress textWidth p d = mainButton textWidth p d.
Proof.
  unfold acceptsRotation, handleButtonPress, rotationButton. intros Ha.
  destruct (anglePressed p); [|reflexivity].
  cbn [andb] in Ha. rewrite Ha. reflexivity.
Qed.

Lemma poll_rotation_running (p : Pins) (d : Device) :
  acceptsRotation p d = true -> gameOfLifeRunning d = true ->
  handleButtonPress textWidth p d = Returned (displayStatus (withRunning d false)).
Proof.
  unfold acceptsRotation, handleButtonPress, rotationButton. intros Ha Hr.
  apply andb_prop in Ha as [-> ->]. rewrite Hr. reflexivity.
Qed.

Lemma poll_rotation_idle (p : Pins) (d : Device) :
  acceptsRotation p d = true -> gameOfLifeRunning d = false ->
  handleButtonPress textWidth p d
    = handleButtonPress textWidth (rotationUp p) (rotated p d) /\
  rotation (screen (rotated p d)) = (if lastRotation (buttons d) =? 1 then 3 else 1) /\
  status (rotated p d) = status d /\
  statusIndex (buttons (rotated p d)) = statusIndex (buttons d) /\
  buttonWasPressed (buttons (rotated p d)) = buttonWasPressed (buttons d) /\
  buttonPressTime (buttons (rotated p d)) = buttonPressTime (buttons d) /\
  lastPress (buttons (rotated p d)) = nowAngle p /\
  gameOfLifeRunning (rotated p d) = false.
Proof.
  unfold acceptsRotation, handleButtonPress, rotated, rotationButton.
  intros Ha Hr. apply andb_prop in Ha as [-> ->]. rewrite Hr.
  cbn [rotationUp anglePressed fst snd]. repeat split. exact Hr.
Qed.

(** The release of the main button, in a poll whose rotation block has
    done nothing. *)
Lemma release_classes (p : Pins) (d : Device) :
  handleButtonPress textWidth p d = mainButton textWidth p d ->
  buttonPressed p = false -> buttonWasPressed (buttons d) = true ->
  0 <= statusIndex (buttons d) < 5 ->
  let dur := pressDuration p d in
  let sinceLast := u32 (now p - lastPress (buttons d)) in
  (3000 <= dur -> handleButtonPress textWidth p d = DeepSleep d) /\
  (30 < dur < 3000 -> 300 < sinceLast -> gameOfLifeRunning d = false ->
     cyclesStatus textWidth p d) /\
  (30 < dur < 3000 -> 300 < sinceLast -> gameOfLifeRunning d = true ->
     ignoresPress textWidth p d /\
     exists d', handleButtonPress textWidth p d = Returned d' /\
                gameOfLifeRunning d' = false) /\
  (30 < dur < 3000 -> sinceLast <= 300 -> ignoresPress textWidth p d) /\
  (dur <= 30 -> ignoresPress textWidth p d).
Proof.
  intros Hpoll Hp Hw Hidx dur sinceLast.
  assert (Hm := mainButton_release textWidth p d Hp Hw).
  fold dur in Hm. fold sinceLast in Hm.
  unfold longPressDuration in Hm. rewrite Z.geb_leb, !Z.gtb_ltb in Hm.
  unfold cyclesStatus, ignoresPress.
  rewrite Hpoll, Hm.
  split; [|split; [|split; [|split]]].
  - intros Hd. apply Z.leb_le in Hd. rewrite Hd. reflexivity.
  - intros Hd Hs Hr.
    destruct (Z.leb_spec 3000 dur); [lia|].
    destruct (Z.ltb_spec 30 dur); [|lia].
    destruct (Z.ltb_spec 300 sinceLast); [|lia].
    rewrite Hr.
    destruct (cycleLoop_spec (status d) _ Hidx)
      as (idx' & tries & Hc & _).
    destruct (cycleLoop_moves _ _ _ _ Hidx Hc) as [_ Hne].
    rewrite Hc. eexists _, idx', tries.
    split; [reflexivity|]. repeat split; assumption.
  - intros Hd Hs Hr.
    destruct (Z.leb_spec 3000 dur); [lia|].
    destruct (Z.ltb_spec 30 dur); [|lia].
    destruct (Z.ltb_spec 300 sinceLast); [|lia].
    rewrite Hr. split.
    + eexists. split; [reflexivity|]. repeat split.
    + eexists. split; [reflexivity|]. reflexivity.
  - intros Hd Hs.
    destruct (Z.leb_spec 3000 dur); [lia|].
    destruct (Z.ltb_spec 30 dur); [|lia].
    destruct (Z.ltb_spec 300 sinceLast); [lia|].
    eexists. split; [reflexivity|]. repeat split.
  - intros Hd.
    destruct (Z.leb_spec 3000 dur); [lia|].
    destruct (Z.ltb_spec 30 dur); [lia|].
    eexists. split; [reflexivity|]. repeat split.
Qed.

(** C4.  The poll that sees the main button released after a press of
    [dur] milliseconds.

    When the poll takes no press of the rotation button (the button is
    up, or down within 300 ms of the last accepted press): from 3000 ms
    on the device goes to deep sleep; above 30 ms and below 3000 ms the
    press is a short press, which cycles the status when more than
    300 ms have passed since the last accepted press and no animation
    runs, stops the animation when one runs, and is dropped inside the
    300 ms; up to and including 30 ms the press is ignored and status,
    index and flash stay as they were.

    When the poll takes a rotation press and the animation runs, it
    stops the animation and returns: the release is not looked at,
    whatever [dur] is, and the button state is as before, so the release
    is still to come at the next poll.

    When the poll takes a rotation press and no animation runs, the
    rotation block runs first and restarts the debounce timer; the rest
    of the poll is the poll of the same release, rotation button up, on
    the rotated device: from 3000 ms on it sleeps, up to 30 ms it is
    ignored, and a short press cycles only when the main button's clock
    reading is more than 300 ms after the rotation's, and is dropped
    otherwise. *)
Theorem press_duration_classes (p : Pins) (d : Device) :
  buttonPressed p = false -> buttonWasPressed (buttons d) = true ->
  0 <= statusIndex (buttons d) < 5 ->
  let dur := pressDuration p d in
  (acceptsRotation p d = false ->
     let sinceLast := u32 (now p - lastPress (buttons d)) in
     (3000 <= dur -> handleButtonPress textWidth p d = DeepSleep d) /\
     (30 < dur < 3000 -> 300 < sinceLast -> gameOfLifeRunning d = false ->
        cyclesStatus textWidth p d) /\
     (30 < dur < 3000 -> 300 < sinceLast -> gameOfLifeRunning d = true ->
        ignoresPress textWidth p d /\
        exists d', handleButtonPress textWidth p d = Returned d' /\
                   gameOfLifeRunning d' = false) /\
     (30 < dur < 3000 -> sinceLast <= 300 -> ignoresPress textWidth p d) /\
     (dur <= 30 -> ignoresPress textWidth p d)) /\
  (acceptsRotation p d = true -> gameOfLifeRunning d = true ->
     exists d',
       handleButtonPress textWidth p d = Returned d' /\
       gameOfLifeRunning d' = false /\ buttons d' = buttons d /\
       status d' = status d /\ flash d' = flash d) /\
  (acceptsRotation p d = true -> gameOfLifeRunning d = false ->
     let p' := rotationUp p in
     let d1 := rotated p d in
     let sinceRotation := u32 (now p - nowAngle p) in
     handleButtonPress textWidth p d = handleButtonPress textWidth p' d1 /\
     rotation (screen d1) = (if lastRotation (buttons d) =? 1 then 3 else 1) /\
     status d1 = status d /\
     statusIndex (buttons d1) = statusIndex (buttons d) /\
     (3000 <= dur -> handleButtonPress textWidth p d = DeepSleep d1) /\
     (30 < dur < 3000 -> 300 < sinceRotation -> cyclesStatus textWidth p' d1) /\
     (30 < dur < 3000 -> sinceRotation <= 300 -> ignoresPress textWidth p' d1) /\
     (dur <= 30 -> ignoresPress textWidth p' d1)).
Proof.
  intros Hp Hw Hidx dur. split; [|split].
  - intros Ha sinceLast.
    apply (release_classes p d (poll_without_rotation p d Ha) Hp Hw Hidx).
  - intros Ha Hr. rewrite (poll_rotation_running p d Ha Hr).
    eexists. split; [reflexivity|]. repeat split.
  - intros Ha Hr p' d1 sinceRotation.
    destruct (poll_rotation_idle p d Ha Hr)
      as (Hpoll & Hrot & Hst & Hi & Hw1 & Ht & Hl & Hr1).
    fold p' d1 in Hpoll, Hrot, Hst, Hi, Hw1, Ht, Hl, Hr1.
    assert (Hup : handleButtonPress textWidth p' d1 = mainButton textWidth p' d1)
      by (apply rotation_button_up; reflexivity).
    assert (Hdur : pressDuration p' d1 = dur)
      by (unfold pressDuration, dur; rewrite Ht; reflexivity).
    assert (Hsince : u32 (now p' - lastPress (buttons d1)) = sinceRotation)
      by (rewrite Hl; reflexivity).
    destruct (release_classes p' d1 Hup Hp ltac:(rewrite Hw1; exact Hw)
                ltac:(rewrite Hi; exact Hidx))
      as (Hsleep & Hcycle & _ & Hdrop & Hshort).
    rewrite Hdur in Hsleep, Hcycle, Hdrop, Hshort.
    rewrite Hsince in Hcycle, Hdrop.
    split; [exact Hpoll|]. split; [exact Hrot|]. split; [exact Hst|].
    split; [exact Hi|].
    split; [intros Hd; rewrite Hpoll; apply Hsleep; exact Hd|].
    split; [intros Hd Hs; apply Hcycle; assumption|].
    split; [exact Hdrop|exact Hshort].
Qed.

End ReleaseProperties.

(** The four durations the design document names, on a freshly booted
    device whose button went down at 1000 ms: 3000 ms, 31 ms, 2999 ms and
    29 ms; and a press of 100 ms released in the poll that takes a press
    of the rotation button, which rotates the screen and drops the
    press. *)
Lemma press_duration_classes_witness :
  handleButtonPress (fun _ => 0) (mkPins false 4000 false 4000)
                    (heldSince 1000 bootDevice)
    = DeepSleep (heldSince 1000 bootDevice) /\
  cyclesStatus (fun _ => 0) (mkPins false 1031 false 1031)
               (heldSince 1000 bootDevice) /\
  cyclesStatus (fun _ => 0) (mkPins false 3999 false 3999)
               (heldSince 1000 bootDevice) /\
  ignoresPress (fun _ => 0) (mkPins false 1029 false 1029)
               (heldSince 1000 bootDevice) /\
  ignoresPress (fun _ => 0) (rotationUp (mkPins true 1100 false 1100))
               (rotated (mkPins true 1100 false 1100) (heldSince 1000 bootDevice)) /\
  rotation (screen (rotated (mkPins true 1100 false 1100)
                            (heldSince 1000 bootDevice))) = 1.
Proof.
  assert (Hc : forall t, 0 <= statusIndex (buttons (heldSince t bootDevice)) < 5)
    by (intros t; vm_compute; split; [discriminate|reflexivity]).
  pose proof (press_duration_classes (fun _ => 0) (mkPins false 4000 false 4000)
                (heldSince 1000 bootDevice) eq_refl eq_refl (Hc 1000))
    as (Hsleep & _).
  pose proof (press_duration_classes (fun _ => 0) (mkPins false 1031 false 1031)
                (heldSince 1000 bootDevice) eq_refl eq_refl (Hc 1000))
    as (H31 & _).
  pose proof (press_duration_classes (fun _ => 0) (mkPins false 3999 false 3999)
                (heldSince 1000 bootDevice) eq_refl eq_refl (Hc 1000))
    as (H2999 & _).
  pose proof (press_duration_classes (fun _ => 0) (mkPins false 1029 false 1029)
                (heldSince 1000 bootDevice) eq_refl eq_refl (Hc 1000))
    as (H29 & _).
  pose proof (press_duration_classes (fun _ => 0) (mkPins true 1100 false 1100)
                (heldSince 1000 bootDevice) eq_refl eq_refl (Hc 1000))
    as (_ & _ & Hrot).
  destruct (Hrot ltac:(vm_compute; reflexivity) eq_refl)
    as (_ & Hturn & _ & _ & _ & _ & Hdrop & _).
  split; [|split; [|split; [|split; [|split]]]].
  - apply (Hsleep eq_refl). vm_compute. discriminate.
  - apply (H31 eq_refl); [vm_compute; split; reflexivity | vm_compute; reflexivity
                         | reflexivity].
  - apply (H2999 eq_refl); [vm_compute; split; reflexivity | vm_compute; reflexivity
                           | reflexivity].
  - apply (H29 eq_refl). vm_compute. discriminate.
  - apply Hdrop; [vm_compute; split; reflexivity | vm_compute; discriminate].
  - exact Hturn.
Defined.

(** A press of exactly 30 ms is ignored: the code asks for more than 30. *)
Lemma press_of_30ms_is_ignored : ~ shortPressFrom30 (fun _ => 0).
Proof.
  intros H.
  destruct (H (mkPins false 1030 false 1030) (heldSince 1000 bootDevice))
    as (d' & idx' & tries & Hret & _ & Hidx & Hne & _).
  - repeat split.
  - vm_compute. split; [discriminate|reflexivity].
  - vm_compute. split; [discriminate|reflexivity].
  - vm_compute. reflexivity.
  - reflexivity.
  - vm_compute in Hret. injection Hret as <-.
    vm_compute in Hidx. vm_compute in Hne. congruence.
Qed.

(** ** Text inputs *)

Lemma c_str_length (s : string) : (String.length (c_str s) <= String.length s)%nat.
Proof.
  induction s as [|c s IH]; cbn [c_str String.length]; [lia|].
  destruct (Ascii.eqb c "000"); cbn [String.length]; lia.
Qed.

Lemma substring_whole (s : string) (n : nat) :
  (String.length s <= n)%nat -> substring 0 n s = s.
Proof.
  revert n. induction s as [|c s IH]; intros n Hn.
  - destruct n; reflexivity.
  - destruct n as [|n]; cbn [String.length] in Hn; [lia|].
    cbn [substring]. rewrite IH by lia. reflexivity.
Qed.

Lemma strncpy_short (s : string) :
  strlen s <= 20 -> strncpy s 31 = c_str s.
Proof.
  intros H. unfold strncpy. apply substring_whole.
  pose proof (c_str_length s). unfold strlen in H. lia.
Qed.

Lemma substring_length_le (s : string) (n : nat) :
  (String.length (substring 0 n s) <= n)%nat.
Proof.
  revert n. induction s as [|c s IH]; intros [|n]; cbn; try lia.
  specialize (IH n). lia.
Qed.

Lemma runOps_app (a b : list Op) (st : StatusState) :
  runOps (a ++ b) st = runOps b (runOps a st).
Proof. apply fold_left_app. Qed.

Section TextProperties.

Variables textWidth strtol16 : string -> Z.

Lemma colourOps_keep_text (c : string) (st : StatusState) :
  customText
    (runOps match parseColor strtol16 c with
            | Some v => [EnterCritical; SetCustomColor v; ExitCritical]
            | None => []
            end st) = customText st.
Proof. destruct (parseColor strtol16 c); reflexivity. Qed.

Lemma slotColourOps_keep_text (i : Z) (c : string) (st : StatusState) :
  (Z.to_nat i < length (customStatuses st))%nat ->
  CustomStatus.text
    (slotAt (runOps match parseColor strtol16 c with
                    | Some v => [EnterCritical; SetSlotColor i v; ExitCritical]
                    | None => []
                    end st) i) = CustomStatus.text (slotAt st i).
Proof.
  intros Hi. destruct (parseColor strtol16 c); [|reflexivity].
  unfold runOps, slotAt at 1. cbn [fold_left applyOp customStatuses].
  rewrite list_lookup_insert_eq by assumption. reflexivity.
Qed.

(** C7.  A text of 1 to 20 bytes sent with the set-custom-text command
    is stored whole (up to its first NUL); an empty text and a text of
    more than 20 bytes leave the status text as it was, and the handler
    still completes.  A text of at most 20 bytes sent for a custom slot
    is stored whole, the empty text included, which makes the slot one
    the cycle skips; a longer one leaves the slot text as it was.  The
    status text stays within the 31 bytes of its buffer. *)
Theorem text_inputs (i : Z) (req : gmap string string) (d : Device) :
  0 <= i < 3 -> length (customStatuses (status d)) = 3%nat ->
  let t := arg req "customText" in
  let d1 := serverSetCustom textWidth strtol16 req d in
  let u := arg req "text" in
  let d2 := setCustomStatusHandler strtol16 i req d in
  customText (status d1) =
    (if (0 <? strlen t) && (strlen t <=? 20) then c_str t
     else customText (status d)) /\
  CustomStatus.text (slotAt (status d2) i) =
    (if strlen u <=? 20 then c_str u
     else CustomStatus.text (slotAt (status d) i)) /\
  (u = "" -> selectable (status d2) (i + 2) = false) /\
  ((String.length (customText (status d)) <= 31)%nat ->
   (String.length (customText (status d1)) <= 31)%nat).
Proof.
  intros Hi Hlen t d1 u d2.
  assert (Hin : (Z.to_nat i < length (customStatuses (status d)))%nat) by lia.
  assert (H1 : customText (status d1) =
               (if (0 <? strlen t) && (strlen t <=? 20) then c_str t
                else customText (status d))).
  { unfold d1, serverSetCustom.
    cbn [status withStatus displayStatus resetMarquee withScreen setNeedSave
         customText].
    unfold serverSetCustomOps. rewrite runOps_app, colourOps_keep_text.
    fold t. destruct ((0 <? strlen t) && (strlen t <=? 20)) eqn:E.
    - apply andb_true_iff in E as [_ E]. apply Z.leb_le in E.
      cbn. apply strncpy_short. assumption.
    - reflexivity. }
  assert (H2 : CustomStatus.text (slotAt (status d2) i) =
               (if strlen u <=? 20 then c_str u
                else CustomStatus.text (slotAt (status d) i))).
  { unfold d2, setCustomStatusHandler.
    cbn [status withStatus withFlash].
    unfold setCustomStatusOps. rewrite runOps_app. fold u.
    destruct (strlen u <=? 20) eqn:E.
    - rewrite slotColourOps_keep_text
        by (unfold runOps; cbn [fold_left applyOp customStatuses];
            rewrite length_insert; assumption).
      unfold runOps, slotAt at 1. cbn [fold_left applyOp customStatuses].
      rewrite list_lookup_insert_eq by assumption. cbn.
      apply strncpy_short. apply Z.leb_le. assumption.
    - rewrite slotColourOps_keep_text by assumption. reflexivity. }
  split; [exact H1|]. split; [exact H2|]. split.
  - intros Hu. unfold selectable.
    replace (i + 2 - 2) with i by lia. rewrite H2, Hu.
    assert (E : (i + 2 <? 2) = false) by (apply Z.ltb_ge; lia).
    rewrite E. reflexivity.
  - intros Hb. rewrite H1.
    destruct ((0 <? strlen t) && (strlen t <=? 20)) eqn:E; [|assumption].
    apply andb_true_iff in E as [_ E]. apply Z.leb_le in E.
    pose proof (c_str_length t). unfold strlen in E. lia.
Qed.

End TextProperties.

Lemma text_inputs_witness :
  let req : gmap string string :=
    list_to_map [("customText", "HELLO"); ("text", "")] in
  customText (status (serverSetCustom (fun _ => 0) (fun _ => 0) req bootDevice))
    = "HELLO" /\
  CustomStatus.text
    (slotAt (status (setCustomStatusHandler (fun _ => 0) 1 req bootDevice)) 1)
    = "" /\
  selectable (status (setCustomStatusHandler (fun _ => 0) 1 req bootDevice)) 3
    = false.
Proof.
  intros req.
  pose proof (text_inputs (fun _ => 0) (fun _ => 0) 1 req bootDevice
                ltac:(lia) eq_refl) as (H1 & H2 & H3 & _).
  split; [rewrite H1; reflexivity|].
  split; [rewrite H2; reflexivity|].
  apply H3. reflexivity.
Defined.

(** A text of 40 bytes is not cut to 31 and stored: the status text stays
    as it was. *)
Lemma long_text_is_dropped : ~ truncatesLongText (fun _ => 0) (fun _ => 0).
Proof.
  intros H.
  specialize (H (list_to_map
                   [("customText", "0123456789012345678901234567890123456789")])
                bootDevice).
  vm_compute in H. specialize (H eq_refl). discriminate H.
Qed.

(** ** Critical sections *)

Lemma applyIndexOps_atomic (st : StatusState) (idx : Z) :
  writesGuarded 0 (applyIndexOps st idx) = true /\
  sections (applyIndexOps st idx) = 1%nat /\
  visibleStates 0 st (applyIndexOps st idx) =
    [st; runOps (applyIndexOps st idx) st].
Proof.
  unfold applyIndexOps.
  destruct (idx =? 0); [|destruct (idx =? 1)]; repeat split.
Qed.

(** C3.  The [/setStatus] handler writes the text and the colour of the
    presets BUSY and TALK outside any critical section, and the
    set-custom-text handler writes text and colour in two separate
    critical sections.  So, even with every critical section taken as
    indivisible, a render pass between the writes sees ("BUSY", green)
    when BUSY is set over "LET'S TALK", ("LET'S TALK", red) when TALK is
    set over "BUSY", and the new custom text on the old colour.  The
    button cycle, by contrast, issues its writes inside one section,
    which leaves only the state before and the state after to be seen. *)
Theorem preset_writes_are_unguarded (toInt strtol16 : string -> Z) :
  let busyReq : gmap string string := {[ "status" := "BUSY" ]} in
  let talkReq : gmap string string := {[ "status" := "TALK" ]} in
  let customReq : gmap string string :=
    list_to_map [("customText", "LUNCH"); ("customColor", "#0000ff")] in
  writesGuarded 0 (setStatusOps toInt busyReq talkStatus) = false /\
  In ("BUSY", TFT_GREEN)
     (shown <$> visibleStates 0 talkStatus (setStatusOps toInt busyReq talkStatus)) /\
  In ("LET'S TALK", TFT_RED)
     (shown <$> visibleStates 0 bootStatus (setStatusOps toInt talkReq bootStatus)) /\
  sections (serverSetCustomOps strtol16 customReq) = 2%nat /\
  In ("LUNCH", TFT_RED)
     (shown <$> visibleStates 0 bootStatus (serverSetCustomOps strtol16 customReq)) /\
  (forall st idx,
     writesGuarded 0 (applyIndexOps st idx) = true /\
     visibleStates 0 st (applyIndexOps st idx) =
       [st; runOps (applyIndexOps st idx) st]).
Proof.
  intros busyReq talkReq customReq.
  split; [reflexivity|].
  split; [vm_compute; auto|].
  split; [vm_compute; auto|].
  split; [reflexivity|].
  split; [vm_compute; auto|].
  intros st idx. destruct (applyIndexOps_atomic st idx) as (H1 & _ & H2).
  split; assumption.
Qed.

(** ** The save debouncer *)

Lemma saveAll_written (st : StatusState) (f : Flash) :
  written (saveAll st f) = written f ++ persisted st.
Proof.
  unfold saveAll, saveCustomStatuses. change (upto 3) with [0; 1; 2].
  cbn [fold_left put written]. rewrite <- !app_assoc. reflexivity.
Qed.

Lemma saveAll_prefs (st : StatusState) (f : Flash) (k : string) (v : PrefVal) :
  In (k, v) (persisted st) -> prefs (saveAll st f) !! k = Some v.
Proof.
  intros Hin. unfold saveAll, saveCustomStatuses.
  change (upto 3) with [0; 1; 2]. cbn [fold_left put prefs].
  change (slotKey "customText" 0) with "customText1".
  change (slotKey "customText" 1) with "customText2".
  change (slotKey "customText" 2) with "customText3".
  change (slotKey "customColor" 0) with "customColor1".
  change (slotKey "customColor" 1) with "customColor2".
  change (slotKey "customColor" 2) with "customColor3".
  unfold persisted in Hin. cbn [In] in Hin.
  repeat (destruct Hin as [Hin|Hin];
          [injection Hin as <- <-;
           repeat (rewrite lookup_insert_ne by discriminate);
           apply lookup_insert_eq|]).
  contradiction.
Qed.

Section SaveProperties.

Variables textWidth strtol16 : string -> Z.

Lemma burst_flash (reqs : list (gmap string string)) (d : Device) :
  flash (burst textWidth strtol16 reqs d) = flash d.
Proof.
  revert d. induction reqs as [|r reqs IH]; intros d; [reflexivity|].
  unfold burst in *. cbn [fold_left]. rewrite IH. reflexivity.
Qed.

Lemma burst_dirty (reqs : list (gmap string string)) (d : Device) :
  reqs <> [] -> needSaveStatus (status (burst textWidth strtol16 reqs d)) = true.
Proof.
  intros Hne. destruct (exists_last Hne) as (reqs' & r & ->).
  unfold burst. rewrite fold_left_app. reflexivity.
Qed.

(** Commands and checks that do not overlap.  Any burst of one or more
    set-custom-text commands, each run to its end, writes nothing to
    flash and leaves the save flag set; the first save check that comes
    due after the burst then writes every persisted field exactly once,
    with the values of the status as the last command of the burst left
    it, and clears the flag; a check that follows without a new command
    writes nothing, and a check that is not yet due does nothing. *)
Lemma burst_is_saved_once (reqs : list (gmap string string)) (d : Device)
    (lastSaveCheck t t' : Z) :
  reqs <> [] -> 1000 <= u32 (t - lastSaveCheck) ->
  let d1 := burst textWidth strtol16 reqs d in
  let r := saveCheck t (d1, lastSaveCheck) in
  let r' := saveCheck t' r in
  flash d1 = flash d /\
  needSaveStatus (status d1) = true /\
  written (flash (fst r)) = written (flash d) ++ persisted (status d1) /\
  (forall k v, In (k, v) (persisted (status d1)) ->
               prefs (flash (fst r)) !! k = Some v) /\
  needSaveStatus (status (fst r)) = false /\
  flash (fst r') = flash (fst r) /\
  (forall reqs' req, reqs = reqs' ++ [req] ->
     d1 = serverSetCustom textWidth strtol16 req
            (burst textWidth strtol16 reqs' d)) /\
  (forall l u, u32 (u - l) < 1000 -> saveCheck u (d1, l) = (d1, l)).
Proof.
  intros Hne Hdue d1 r r'.
  assert (Hflash : flash d1 = flash d) by apply burst_flash.
  assert (Hdirty : needSaveStatus (status d1) = true)
    by (apply burst_dirty; assumption).
  assert (Hr : r = (reallySaveStatus d1, t)).
  { unfold r, saveCheck. cbn [fst snd].
    destruct (Z.geb_spec (u32 (t - lastSaveCheck)) 1000); [|lia].
    rewrite Hdirty. reflexivity. }
  split; [exact Hflash|]. split; [exact Hdirty|].
  rewrite Hr. cbn [fst].
  split.
  { unfold reallySaveStatus. cbn [flash withStatus withFlash].
    rewrite saveAll_written, Hflash. reflexivity. }
  split.
  { intros k v Hin. unfold reallySaveStatus. cbn [flash withStatus withFlash].
    apply saveAll_prefs. assumption. }
  split; [reflexivity|].
  split.
  { unfold r'. rewrite Hr. unfold saveCheck. cbn [fst snd].
    destruct (u32 (t' - t) >=? 1000); reflexivity. }
  split.
  { intros reqs' req ->. unfold d1, burst. rewrite fold_left_app.
    reflexivity. }
  intros l u Hu. unfold saveCheck. cbn [fst snd].
  destruct (Z.geb_spec (u32 (u - l)) 1000); [lia|reflexivity].
Qed.

End SaveProperties.

(** Two commands in one window, "A" then "B": one flush, carrying "B". *)
Lemma burst_is_saved_once_witness :
  let reqs : list (gmap string string) :=
    [ {[ "customText" := "A" ]}; {[ "customText" := "B" ]} ] in
  let d1 := burst (fun _ => 0) (fun _ => 0) reqs bootDevice in
  let r := saveCheck 1000 (d1, 0) in
  written (flash (fst r)) = persisted (status d1) /\
  prefs (flash (fst r)) !! "customText" = Some (PString "B") /\
  needSaveStatus (status (fst r)) = false.
Proof.
  intros reqs d1 r.
  destruct (burst_is_saved_once (fun _ => 0) (fun _ => 0) reqs bootDevice
              0 1000 1001)
    as (_ & _ & Hw & Hp & Hf & _).
  - discriminate.
  - vm_compute. discriminate.
  - split; [exact Hw|]. split; [|exact Hf].
    apply Hp. right. left. reflexivity.
Defined.

(** ** The flush and a command on the other core *)

Lemma customOps_split (strtol16 : string -> Z) (req : gmap string string) :
  serverSetCustomOps strtol16 req = customTextOps req ++ customColorOps strtol16 req.
Proof. reflexivity. Qed.

Section TaskProperties.

Variables textWidth strtol16 : string -> Z.

(** The statements are those of the two functions. *)
Lemma reallySaveStmts_run (d : Device) :
  runStmts textWidth reallySaveStmts d = reallySaveStatus d.
Proof. reflexivity. Qed.

Lemma serverSetCustomStmts_run (req : gmap string string) (d : Device) :
  runStmts textWidth (serverSetCustomStmts strtol16 req) d
  = serverSetCustom textWidth strtol16 req d.
Proof.
  unfold runStmts, serverSetCustomStmts, serverSetCustom.
  cbn [fold_left exec]. rewrite customOps_split, runOps_app. reflexivity.
Qed.

(** A schedule that gives every turn to one core runs that task alone. *)
Lemma interleave_core1 (disp : list Stmt) (d : Device) :
  interleave textWidth (replicate (length disp) Core1) [] disp d
  = (runStmts textWidth disp d, ([], [])).
Proof.
  revert d. induction disp as [|s disp IH]; intros d; [reflexivity|].
  cbn [length replicate interleave]. rewrite IH. reflexivity.
Qed.

Lemma colourOps_text (req : gmap string string) (st : StatusState) :
  customText (runOps (customColorOps strtol16 req) st) = customText st /\
  needSaveStatus (runOps (customColorOps strtol16 req) st) = needSaveStatus st.
Proof.
  unfold customColorOps. destruct (parseColor _ _); split; reflexivity.
Qed.

(** The overlapped schedule runs the first two statements of the flush,
    then the whole command, then the rest of the flush. *)
Lemma overlapped_split (req : gmap string string) (d : Device) :
  interleave textWidth overlapped (serverSetCustomStmts strtol16 req)
    reallySaveStmts d
  = (runStmts textWidth (drop 2 reallySaveStmts)
       (serverSetCustom textWidth strtol16 req
          (runStmts textWidth (take 2 reallySaveStmts) d)),
     ([], [])).
Proof. rewrite <- serverSetCustomStmts_run. reflexivity. Qed.

Lemma flush_head (d : Device) :
  status (runStmts textWidth (take 2 reallySaveStmts) d) = status d /\
  prefs (flash (runStmts textWidth (take 2 reallySaveStmts) d)) !! "customText"
    = Some (PString (customText (status d))) /\
  length (written (flash (runStmts textWidth (take 2 reallySaveStmts) d)))
    = (length (written (flash d)) + 2)%nat.
Proof.
  cbn [take reallySaveStmts runStmts fold_left exec status flash withFlash put
       prefs written].
  split; [reflexivity|]. split; [apply lookup_insert_eq|].
  rewrite !length_app. cbn [length]. lia.
Qed.

Lemma command_text (req : gmap string string) (d : Device) :
  0 < strlen (arg req "customText") <= 20 ->
  customText (status (serverSetCustom textWidth strtol16 req d))
    = strncpy (arg req "customText") 31 /\
  flash (serverSetCustom textWidth strtol16 req d) = flash d.
Proof.
  intros Hlen. split; [|reflexivity].
  unfold serverSetCustom.
  cbn [status withStatus displayStatus resetMarquee withScreen setNeedSave
       customText].
  rewrite customOps_split, runOps_app, (proj1 (colourOps_text req _)).
  unfold customTextOps.
  destruct (Z.ltb_spec 0 (strlen (arg req "customText"))); [|lia].
  destruct (Z.leb_spec (strlen (arg req "customText")) 20); [|lia].
  reflexivity.
Qed.

Lemma flush_tail (d : Device) :
  status (runStmts textWidth (drop 2 reallySaveStmts) d)
    = setNeedSave (status d) false /\
  prefs (flash (runStmts textWidth (drop 2 reallySaveStmts) d)) !! "customText"
    = prefs (flash d) !! "customText" /\
  prefs (flash (runStmts textWidth (drop 2 reallySaveStmts) d)) !! "customColor"
    = Some (PUInt (customColor (status d))) /\
  length (written (flash (runStmts textWidth (drop 2 reallySaveStmts) d)))
    = (length (written (flash d)) + 9)%nat.
Proof.
  cbn [drop reallySaveStmts runStmts fold_left exec status flash withFlash
       withStatus].
  unfold saveCustomStatuses. change (upto 3) with [0; 1; 2].
  cbn [fold_left put prefs written].
  change (slotKey "customText" 0) with "customText1".
  change (slotKey "customText" 1) with "customText2".
  change (slotKey "customText" 2) with "customText3".
  change (slotKey "customColor" 0) with "customColor1".
  change (slotKey "customColor" 1) with "customColor2".
  change (slotKey "customColor" 2) with "customColor3".
  split; [reflexivity|].
  split; [repeat (rewrite lookup_insert_ne by discriminate); reflexivity|].
  split; [repeat (rewrite lookup_insert_ne by discriminate);
          apply lookup_insert_eq|].
  rewrite !length_app. cbn [length]. lia.
Qed.

(** The device after the overlapped schedule. *)
Lemma overlapped_device (req : gmap string string) (d : Device) :
  0 < strlen (arg req "customText") <= 20 ->
  let r := interleave textWidth overlapped (serverSetCustomStmts strtol16 req)
             reallySaveStmts d in
  snd r = ([], []) /\
  customText (status (fst r)) = strncpy (arg req "customText") 31 /\
  needSaveStatus (status (fst r)) = false /\
  prefs (flash (fst r)) !! "customText" = Some (PString (customText (status d))) /\
  prefs (flash (fst r)) !! "customColor"
    = Some (PUInt (customColor (status (fst r)))) /\
  length (written (flash (fst r))) = (length (written (flash d)) + 11)%nat.
Proof.
  intros Hlen r. subst r. rewrite overlapped_split. cbn [fst snd].
  destruct (flush_head d) as (Hs1 & Hk1 & Hw1).
  set (d1 := runStmts textWidth (take 2 reallySaveStmts) d) in *.
  destruct (command_text req d1 Hlen) as (Ht2 & Hf2).
  set (d2 := serverSetCustom textWidth strtol16 req d1) in *.
  destruct (flush_tail d2) as (Hs3 & Hk3 & Hc3 & Hw3).
  set (d3 := runStmts textWidth (drop 2 reallySaveStmts) d2) in *.
  clearbody d3 d2 d1.
  split; [reflexivity|].
  split; [rewrite Hs3; exact Ht2|].
  split; [rewrite Hs3; reflexivity|].
  split; [rewrite Hk3, Hf2; exact Hk1|].
  split; [rewrite Hc3, Hs3; reflexivity|].
  rewrite Hw3, Hf2, Hw1. lia.
Qed.

(** C9.  The flush and the flag are not protected against the other
    core.  Take a device with a save pending and the check due, so that
    the tick runs [reallySaveStatus] on core 1, and a free text command
    with a text of 1 to 20 bytes that differs from the status text,
    served on core 0 after the flush has written the text and before it
    clears the flag.  Both tasks run to their end.  Afterwards the
    status holds the new text and the flag is clear, but the flash holds
    the old text (next to the colour as the command left it): the
    values flushed are not those of the last mutation, the flush has
    cleared the flag the command set, and no later tick writes
    anything.  The statements scheduled are exactly those of the two
    functions. *)
Theorem flush_loses_overlapping_command (req : gmap string string)
    (d : Device) (t l : Z) :
  needSaveStatus (status d) = true -> 1000 <= u32 (t - l) ->
  0 < strlen (arg req "customText") <= 20 ->
  strncpy (arg req "customText") 31 <> customText (status d) ->
  let r := interleave textWidth overlapped (serverSetCustomStmts strtol16 req)
             reallySaveStmts d in
  let d' := fst r in
  saveCheck t (d, l) = (runStmts textWidth reallySaveStmts d, t) /\
  (forall d0, runStmts textWidth (serverSetCustomStmts strtol16 req) d0
              = serverSetCustom textWidth strtol16 req d0) /\
  snd r = ([], []) /\
  customText (status d') = strncpy (arg req "customText") 31 /\
  needSaveStatus (status d') = false /\
  prefs (flash d') !! "customText" = Some (PString (customText (status d))) /\
  prefs (flash d') !! "customText" <> Some (PString (customText (status d'))) /\
  prefs (flash d') !! "customColor" = Some (PUInt (customColor (status d'))) /\
  length (written (flash d')) = (length (written (flash d)) + 11)%nat /\
  (forall t' l', fst (saveCheck t' (d', l')) = d').
Proof.
  intros Hn Hdue Hlen Hne r d'.
  destruct (overlapped_device req d Hlen) as (Hend & Htext & Hflag & Hold & Hcol & Hw).
  fold r in Hend, Htext, Hflag, Hold, Hcol, Hw.
  fold d' in Htext, Hflag, Hold, Hcol, Hw.
  split.
  { unfold saveCheck. cbn [fst snd].
    destruct (Z.geb_spec (u32 (t - l)) 1000); [|lia].
    rewrite Hn. reflexivity. }
  split; [intros d0; apply serverSetCustomStmts_run|].
  split; [exact Hend|]. split; [exact Htext|]. split; [exact Hflag|].
  split; [exact Hold|].
  split; [rewrite Hold, Htext; intros [= E]; apply Hne; symmetry; exact E|].
  split; [exact Hcol|]. split; [exact Hw|].
  intros t' l'. unfold saveCheck. cbn [fst snd]. rewrite Hflag.
  destruct (_ >=? _); reflexivity.
Qed.

End TaskProperties.

(** A device on which LUNCH was set as free text, and the command
    DINNER served in the middle of the flush: the flash holds LUNCH, the
    screen says DINNER, and nothing is left to save. *)
Lemma flush_loses_overlapping_command_witness :
  let d := serverSetCustom (fun _ => 0) (fun _ => 0)
             {[ "customText" := "LUNCH" ]} bootDevice in
  let d' := fst (interleave (fun _ => 0) overlapped
                   (serverSetCustomStmts (fun _ => 0) {[ "customText" := "DINNER" ]})
                   reallySaveStmts d) in
  customText (status d') = "DINNER" /\
  needSaveStatus (status d') = false /\
  prefs (flash d') !! "customText" = Some (PString "LUNCH").
Proof.
  intros d d'.
  destruct (flush_loses_overlapping_command (fun _ => 0) (fun _ => 0)
              {[ "customText" := "DINNER" ]} d 1000 0)
    as (_ & _ & _ & Ht & Hf & Ho & _).
  - reflexivity.
  - vm_compute. discriminate.
  - vm_compute. split; [reflexivity|discriminate].
  - vm_compute. discriminate.
  - split; [exact Ht|]. split; [exact Hf|exact Ho].
Defined.

(** ** The auto-reset *)

Lemma bind_nil_all {A B} (f : A -> list B) (l : list A) :
  (forall a, In a l -> f a = []) -> l ≫= f = [].
Proof.
  induction l as [|a l IH]; intros H; [reflexivity|].
  cbn. rewrite (H a) by (left; reflexivity).
  rewrite IH by (intros b Hb; apply H; right; assumption). reflexivity.
Qed.

Section EngineProperties.

Variable targetPoints : list TargetPoint.
Variable cellColour : Z -> Z -> Z -> Z.

Lemma allDead_no_cells (st : GolState) :
  allDead (golGrid st) (golRows st) (golCols st) = true ->
  liveCellsOf cellColour st = [].
Proof.
  intros Hd. unfold allDead in Hd. rewrite forallb_forall in Hd.
  unfold liveCellsOf. apply bind_nil_all. intros y Hy.
  specialize (Hd y Hy). rewrite forallb_forall in Hd.
  apply bind_nil_all. intros x Hx. rewrite (Hd x Hx). reflexivity.
Qed.

Lemma alive_some_cell (st : GolState) :
  allDead (golGrid st) (golRows st) (golCols st) = false ->
  liveCellsOf cellColour st <> [].
Proof.
  intros Hd Hnil.
  assert (Hall : allDead (golGrid st) (golRows st) (golCols st) = true);
    [|congruence].
  unfold allDead. apply forallb_forall. intros y Hy.
  apply forallb_forall. intros x Hx.
  destruct (cellAt (golGrid st) y x =? 0) eqn:E; [reflexivity|].
  exfalso.
  assert (Hin : LiveCell.mk (x * golCellSize + Z.quot golCellSize 2)
                            (y * golCellSize + Z.quot golCellSize 2)
                            (cellColour x y (golFrame st))
                ∈ liveCellsOf cellColour st).
  { unfold liveCellsOf. apply list_elem_of_bind. exists y.
    split; [|apply list_elem_of_In; assumption].
    apply list_elem_of_bind. exists x.
    split; [|apply list_elem_of_In; assumption].
    rewrite E. cbn. apply list_elem_of_here. }
  rewrite Hnil in Hin. inversion Hin.
Qed.

Lemma duplicateCells_done (missing : nat) (live used : list LiveCell) :
  live <> [] ->
  exists used', duplicateCells missing live used = Done used' /\
                length used' = (length used + missing)%nat.
Proof.
  intros Hne. revert used. induction missing as [|k IH]; intros used.
  - exists used. split; [reflexivity|lia].
  - destruct live as [|c0 live']; [congruence|].
    cbn [duplicateCells].
    destruct (IH (used ++ [nth (length used mod length (c0 :: live'))
                               (c0 :: live') c0]))
      as (used' & Hd & Hl).
    exists used'. split; [exact Hd|].
    rewrite Hl, length_app. cbn [length]. lia.
Qed.

Lemma reconcile_done (sh : list LiveCell -> list LiveCell)
    (live : list LiveCell) (n : nat) :
  live <> [] -> exists used, reconcile sh live n = Done used.
Proof.
  intros Hne. unfold reconcile.
  destruct (n <=? length live)%nat; [eexists; reflexivity|].
  destruct (duplicateCells_done (n - length live) live live Hne)
    as (used & Hd & _).
  exists used. exact Hd.
Qed.

(** What a call does when the new generation has a live cell. *)
Lemma step_alive (e : Entropy) (st : GolState) :
  newAllDead st = false ->
  let h := newFingerprint st in
  let st2 := nextGeneration (updateAlpha st) in
  let st3 := setHistory st2 (<[Z.to_nat (hashIdx st) := h]> (hashHistory st))
               (Z.rem (hashIdx st + 1) HASH_HISTORY) in
  if cycleFound (hashHistory st) h then
    exists m,
      stepGameOfLife targetPoints cellColour e st =
      Done (setHistory (initGameOfLife (rnd e) st3)
              (clearHistory (<[Z.to_nat (hashIdx st) := h]> (hashHistory st))) 0,
            [FramePushed; Morphed m; Reinitialised])
  else
    stepGameOfLife targetPoints cellColour e st = Done (st3, [FramePushed]).
Proof.
  intros Hd h st2 st3. unfold stepGameOfLife.
  change (allDead (golGrid (nextGeneration (updateAlpha st)))
            (golRows (nextGeneration (updateAlpha st)))
            (golCols (nextGeneration (updateAlpha st))))
    with (newAllDead st).
  rewrite Hd. cbn [orb].
  change (gridHash (golGrid (nextGeneration (updateAlpha st)))
            (golRows (nextGeneration (updateAlpha st)))
            (golCols (nextGeneration (updateAlpha st)))) with h.
  change (hashHistory (nextGeneration (updateAlpha st))) with (hashHistory st).
  change (hashIdx (nextGeneration (updateAlpha st))) with (hashIdx st).
  fold st2. fold st3.
  destruct (cycleFound (hashHistory st) h); [|reflexivity].
  unfold animateToBusyBee.
  destruct targetPoints as [|t ts] eqn:Htp.
  - exists None. reflexivity.
  - assert (Hlive : liveCellsOf cellColour st3 <> [])
      by (apply alive_some_cell; exact Hd).
    destruct (reconcile_done (shuffle e) _ (length (t :: ts)) Hlive)
      as (used & Hu).
    rewrite Hu. eexists. reflexivity.
Qed.

(** What a call does when the new generation is empty and the wordmark
    has an edge pixel. *)
Lemma step_all_dead (e : Entropy) (st : GolState) :
  targetPoints <> [] -> newAllDead st = true ->
  stepGameOfLife targetPoints cellColour e st = DivByZero.
Proof.
  intros Htp Hd. unfold stepGameOfLife.
  change (allDead (golGrid (nextGeneration (updateAlpha st)))
            (golRows (nextGeneration (updateAlpha st)))
            (golCols (nextGeneration (updateAlpha st))))
    with (newAllDead st).
  rewrite Hd. cbn [orb]. unfold animateToBusyBee.
  destruct targetPoints as [|t ts]; [congruence|].
  rewrite allDead_no_cells by exact Hd.
  reflexivity.
Qed.

End EngineProperties.

(** ** The fingerprint ring *)

Lemma historyAt_zeros (n : nat) (j : Z) : historyAt (replicate n 0) j = 0.
Proof.
  unfold historyAt.
  destruct (replicate n 0 !! Z.to_nat j) as [v|] eqn:E; [|reflexivity].
  apply lookup_replicate in E as [-> _]. reflexivity.
Qed.

Lemma historyAt_app_l (l1 l2 : list Z) (i : Z) :
  0 <= i < Z.of_nat (length l1) -> historyAt (l1 ++ l2) i = historyAt l1 i.
Proof.
  intros Hi. unfold historyAt. rewrite lookup_app_l by lia. reflexivity.
Qed.

Lemma historyAt_last (l : list Z) (v : Z) (i : Z) :
  i = Z.of_nat (length l) -> historyAt (l ++ [v]) i = v.
Proof.
  intros ->. unfold historyAt. rewrite Nat2Z.id.
  rewrite lookup_app_r by lia. rewrite Nat.sub_diag. reflexivity.
Qed.

Lemma historyAt_insert_eq (l : list Z) (i v : Z) :
  0 <= i < Z.of_nat (length l) -> historyAt (<[Z.to_nat i := v]> l) i = v.
Proof.
  intros Hi. unfold historyAt. rewrite list_lookup_insert_eq by lia.
  reflexivity.
Qed.

Lemma historyAt_insert_ne (l : list Z) (i j v : Z) :
  0 <= i -> 0 <= j -> i <> j ->
  historyAt (<[Z.to_nat i := v]> l) j = historyAt l j.
Proof.
  intros Hi Hj Hne. unfold historyAt.
  rewrite list_lookup_insert_ne by lia. reflexivity.
Qed.

Lemma clearHistory_zeros (h : list Z) :
  length h = 8%nat -> clearHistory h = replicate 8 0.
Proof.
  intros Hl.
  destruct h as [|a0 [|a1 [|a2 [|a3 [|a4 [|a5 [|a6 [|a7 [|a8 h]]]]]]]]];
    try discriminate Hl.
  reflexivity.
Qed.

Lemma ring_boot : ringHolds golBoot [].
Proof.
  repeat split. intros j Hj.
  change (hashHistory golBoot) with (replicate 8 0).
  change (padded []) with (replicate 8 0).
  rewrite !historyAt_zeros. reflexivity.
Qed.

Lemma ring_cleared (st : GolState) (h : list Z) :
  length h = 8%nat -> ringHolds (setHistory st (clearHistory h) 0) [].
Proof.
  intros Hl. rewrite clearHistory_zeros by assumption.
  repeat split. intros j Hj. cbn [setHistory hashHistory].
  change (padded []) with (replicate 8 0).
  rewrite !historyAt_zeros. reflexivity.
Qed.

Lemma ring_record (st st2 : GolState) (recorded : list Z) (h : Z) :
  ringHolds st recorded ->
  ringHolds (setHistory st2 (<[Z.to_nat (hashIdx st) := h]> (hashHistory st))
                        (Z.rem (hashIdx st + 1) HASH_HISTORY))
            (recorded ++ [h]).
Proof.
  intros (Hl & Hi & Hs). unfold ringHolds.
  cbn [setHistory hashHistory hashIdx]. rewrite length_app. cbn [length].
  set (n := Z.of_nat (length recorded)) in *.
  replace (Z.of_nat (length recorded + 1)) with (n + 1) by lia.
  assert (Hn : 0 <= n) by lia.
  pose proof (Z.mod_pos_bound n 8 ltac:(lia)) as Hb.
  split; [rewrite length_insert; exact Hl|]. split.
  - unfold HASH_HISTORY. rewrite Z.rem_mod_nonneg by lia.
    rewrite Hi. rewrite Zplus_mod_idemp_l. reflexivity.
  - intros j Hj. rewrite Hi.
    destruct (Z.eq_dec j (n mod 8)) as [->|Hne].
    + rewrite historyAt_insert_eq by lia.
      replace (n mod 8 - (n + 1)) with (7 + (-1 - n / 8) * 8)
        by (pose proof (Z_div_mod_eq_full n 8); lia).
      rewrite Z_mod_plus_full. change (7 mod 8) with 7.
      unfold padded. rewrite app_assoc. symmetry. apply historyAt_last.
      rewrite length_app, length_replicate. lia.
    + rewrite historyAt_insert_ne by lia. rewrite (Hs j Hj).
      assert (Hm : (j - (n + 1)) mod 8 = (j - n) mod 8 - 1).
      { pose proof (Z.mod_pos_bound (j - n) 8 ltac:(lia)).
        assert ((j - n) mod 8 <> 0).
        { intros H0. apply Hne.
          pose proof (Z_div_mod_eq_full (j - n) 8).
          pose proof (Z_div_mod_eq_full n 8). lia. }
        replace (j - (n + 1)) with ((j - n) mod 8 - 1 + ((j - n) / 8) * 8)
          by (pose proof (Z_div_mod_eq_full (j - n) 8); lia).
        rewrite Z_mod_plus_full. apply Z.mod_small. lia. }
      rewrite Hm. unfold padded. rewrite app_assoc.
      replace (n + 1 + ((j - n) mod 8 - 1)) with (n + (j - n) mod 8) by lia.
      symmetry. apply historyAt_app_l.
      pose proof (Z.mod_pos_bound (j - n) 8 ltac:(lia)).
      rewrite length_app, length_replicate. lia.
Qed.

Lemma cycleFound_slot (hist : list Z) (h : Z) :
  cycleFound hist h = true <-> exists j, 0 <= j < 8 /\ historyAt hist j = h.
Proof.
  unfold cycleFound, upto, HASH_HISTORY. rewrite existsb_exists. split.
  - intros (j & Hin & Heq). apply list_elem_of_In, elem_of_seqZ in Hin.
    apply Z.eqb_eq in Heq. exists j. split; [lia|congruence].
  - intros (j & Hj & Heq). exists j. split.
    + apply list_elem_of_In, elem_of_seqZ. lia.
    + apply Z.eqb_eq. congruence.
Qed.

Lemma ring_members (st : GolState) (recorded : list Z) (h : Z) :
  ringHolds st recorded ->
  cycleFound (hashHistory st) h = true <->
  In h (lastN 8 recorded) \/ (h = 0 /\ (length recorded < 8)%nat).
Proof.
  intros (Hl & Hi & Hs). rewrite cycleFound_slot.
  set (n := Z.of_nat (length recorded)) in *.
  assert (Hdrop : drop (length recorded) (padded recorded) =
                  replicate (8 - length recorded) 0 ++ lastN 8 recorded).
  { unfold padded, lastN. rewrite drop_app, drop_replicate, length_replicate.
    reflexivity. }
  assert (Hmem : In h (drop (length recorded) (padded recorded)) <->
                 In h (lastN 8 recorded) \/ (h = 0 /\ (length recorded < 8)%nat)).
  { rewrite Hdrop, in_app_iff. rewrite <- (list_elem_of_In (replicate _ _)).
    rewrite elem_of_replicate. intuition lia. }
  rewrite <- Hmem. rewrite <- list_elem_of_In, list_elem_of_lookup.
  assert (Hlen : length (padded recorded) = (8 + length recorded)%nat)
    by (unfold padded; rewrite length_app, length_replicate; reflexivity).
  split.
  - intros (j & Hj & Heq). rewrite (Hs j Hj) in Heq.
    pose proof (Z.mod_pos_bound (j - n) 8 ltac:(lia)) as Hb.
    exists (Z.to_nat ((j - n) mod 8)). rewrite lookup_drop.
    unfold historyAt in Heq.
    replace (Z.to_nat (n + (j - n) mod 8))
      with (length recorded + Z.to_nat ((j - n) mod 8))%nat in Heq by lia.
    destruct (padded recorded !! _) as [v|] eqn:E.
    + cbn in Heq. congruence.
    + apply lookup_ge_None in E. lia.
  - intros (i & Hi'). rewrite lookup_drop in Hi'.
    assert (Hlt : (i < 8)%nat) by (apply lookup_lt_Some in Hi'; lia).
    exists ((Z.of_nat i + n) mod 8).
    pose proof (Z.mod_pos_bound (Z.of_nat i + n) 8 ltac:(lia)) as Hb.
    split; [lia|]. rewrite Hs by lia.
    replace (((Z.of_nat i + n) mod 8 - n) mod 8) with (Z.of_nat i).
    + unfold historyAt.
      replace (Z.to_nat (n + Z.of_nat i)) with (length recorded + i)%nat by lia.
      rewrite Hi'. reflexivity.
    + replace ((Z.of_nat i + n) mod 8 - n)
        with (Z.of_nat i + (- ((Z.of_nat i + n) / 8)) * 8)
        by (pose proof (Z_div_mod_eq_full (Z.of_nat i + n) 8); lia).
      rewrite Z_mod_plus_full. symmetry. apply Z.mod_small. lia.
Qed.

Section ResetProperties.

Variable targetPoints : list TargetPoint.
Variable cellColour : Z -> Z -> Z -> Z.

(** The three ways a call can end. *)
Lemma step_cases (e : Entropy) (st : GolState) :
  let h := newFingerprint st in
  let st2 := nextGeneration (updateAlpha st) in
  let hist := <[Z.to_nat (hashIdx st) := h]> (hashHistory st) in
  stepGameOfLife targetPoints cellColour e st = DivByZero \/
  (exists m,
     stepGameOfLife targetPoints cellColour e st =
     Done (setHistory (initGameOfLife (rnd e)
                         (setHistory st2 hist (Z.rem (hashIdx st + 1) HASH_HISTORY)))
                      (clearHistory hist) 0,
           [FramePushed; Morphed m; Reinitialised])) \/
  stepGameOfLife targetPoints cellColour e st =
  Done (setHistory st2 hist (Z.rem (hashIdx st + 1) HASH_HISTORY), [FramePushed]).
Proof.
  intros h st2 hist. unfold stepGameOfLife. fold st2.
  change (gridHash (golGrid st2) (golRows st2) (golCols st2)) with h.
  change (hashHistory st2) with (hashHistory st).
  change (hashIdx st2) with (hashIdx st). fold hist.
  destruct (allDead (golGrid st2) (golRows st2) (golCols st2)
            || cycleFound (hashHistory st) h); [|right; right; reflexivity].
  destruct (animateToBusyBee targetPoints cellColour (shuffle e) _) as [m|];
    [right; left; exists m; reflexivity | left; reflexivity].
Qed.

Lemma tracked_ring (acts : list Action) (st st' : GolState)
    (recorded recorded' : list Z) :
  ringHolds st recorded ->
  trackedRun targetPoints cellColour st recorded acts = Done (st', recorded') ->
  ringHolds st' recorded'.
Proof.
  revert st recorded. induction acts as [|[e|r] acts IH]; intros st recorded Hr Hrun.
  - cbn in Hrun. injection Hrun as <- <-. exact Hr.
  - cbn [trackedRun] in Hrun.
    destruct (step_cases e st) as [Hs|[[m Hs]|Hs]]; rewrite Hs in Hrun.
    + discriminate Hrun.
    + cbn in Hrun. eapply IH; [|exact Hrun].
      apply ring_cleared. rewrite length_insert. apply Hr.
    + cbn in Hrun. eapply IH; [|exact Hrun].
      apply ring_record. exact Hr.
  - cbn [trackedRun] in Hrun. eapply IH; [|exact Hrun]. exact Hr.
Qed.

(** Every grid the engine reaches holds only 0 and 1. *)
Lemma tracked_binary (acts : list Action) (st st' : GolState)
    (recorded recorded' : list Z) :
  binaryGrid (golGrid st) ->
  trackedRun targetPoints cellColour st recorded acts = Done (st', recorded') ->
  binaryGrid (golGrid st').
Proof.
  revert st recorded. induction acts as [|[e|r] acts IH]; intros st recorded Hb Hrun.
  - cbn in Hrun. injection Hrun as <- <-. exact Hb.
  - cbn [trackedRun] in Hrun.
    destruct (step_cases e st) as [Hs|[[m Hs]|Hs]]; rewrite Hs in Hrun.
    + discriminate Hrun.
    + cbn in Hrun. eapply IH; [|exact Hrun]. apply initGameOfLife_binary.
    + cbn in Hrun. eapply IH; [|exact Hrun]. apply nextGeneration_binary.
  - cbn [trackedRun] in Hrun. eapply IH; [|exact Hrun].
    apply initGameOfLife_binary.
Qed.

Lemma boot_binary : binaryGrid (golGrid golBoot).
Proof. intros y x. left. reflexivity. Qed.

(** C2.  Along any run from boot, take a call whose new generation has a
    live cell.  The call completes.  If the new fingerprint is among the
    last 8 recorded since the ring was last cleared, or is 0 while fewer
    than 8 have been recorded since then (a cleared slot holds 0), the
    morph runs once, the grid is initialised anew after it, and all eight
    slots are 0 with the index back at 0.  Otherwise nothing is reset: the
    grid is the new generation, and the only change to the ring is the
    fingerprint written at the index, which moves on by one modulo 8. *)
Theorem reset_rule (acts : list Action) (st : GolState) (recorded : list Z)
    (e : Entropy) :
  trackedRun targetPoints cellColour golBoot [] acts = Done (st, recorded) ->
  newAllDead st = false ->
  let h := newFingerprint st in
  let repeated := In h (lastN 8 recorded) \/ (h = 0 /\ (length recorded < 8)%nat) in
  exists st' evs,
    stepGameOfLife targetPoints cellColour e st = Done (st', evs) /\
    (repeated ->
       (exists m, evs = [FramePushed; Morphed m; Reinitialised]) /\
       morphCount evs = 1%nat /\
       golGrid st' = golGrid (initGameOfLife (rnd e) st) /\
       hashHistory st' = replicate 8 0 /\ hashIdx st' = 0) /\
    (~ repeated ->
       evs = [FramePushed] /\
       golGrid st' = newGeneration st /\
       hashHistory st' = <[Z.to_nat (hashIdx st) := h]> (hashHistory st) /\
       hashIdx st' = (hashIdx st + 1) mod 8).
Proof.
  intros Hrun Hd h repeated.
  assert (Hring : ringHolds st recorded)
    by (eapply tracked_ring; [apply ring_boot | exact Hrun]).
  assert (Hm := ring_members st recorded h Hring). fold repeated in Hm.
  assert (Hs := step_alive targetPoints cellColour e st Hd).
  cbv zeta in Hs. fold h in Hs.
  destruct (cycleFound (hashHistory st) h) eqn:Hc.
  - destruct Hs as [m Hs]. eexists _, _. split; [exact Hs|]. split.
    + intros _. split; [exists m; reflexivity|]. split; [reflexivity|].
      split; [reflexivity|]. cbn [setHistory hashHistory hashIdx].
      split; [|reflexivity]. apply clearHistory_zeros.
      rewrite length_insert. apply Hring.
    + intros Hn. exfalso. apply Hn, Hm. reflexivity.
  - eexists _, _. split; [exact Hs|]. split.
    + intros Hrep. apply Hm in Hrep. discriminate Hrep.
    + intros _. repeat split. cbn [setHistory hashIdx]. unfold HASH_HISTORY.
      destruct Hring as (_ & Hi & _).
      apply Z.rem_mod_nonneg; [|lia].
      pose proof (Z.mod_pos_bound (Z.of_nat (length recorded)) 8 ltac:(lia)).
      lia.
Qed.

(** C10.  When the new generation is empty and the wordmark has an edge
    pixel, the call enters the morph with no live cell; the loop that
    repeats the live cells then takes an index modulo zero. *)
Theorem empty_generation_divides_by_zero (e : Entropy) (st : GolState) :
  targetPoints <> [] -> newAllDead st = true ->
  liveCellsOf cellColour
    (setHistory (nextGeneration (updateAlpha st)) (hashHistory st) (hashIdx st))
    = [] /\
  stepGameOfLife targetPoints cellColour e st = DivByZero.
Proof.
  intros Htp Hd. split.
  - apply allDead_no_cells. exact Hd.
  - apply step_all_dead; assumption.
Qed.

End ResetProperties.

(** A session started on two blocks: the first call finds the same two
    blocks, whose fingerprint is 0, and resets. *)
Lemma reset_rule_witness :
  exists st' evs,
    stepGameOfLife [TargetPoint.mk 100 60 (-1) (-1)] (fun _ _ _ => 0)
      (mkEntropy (fun _ _ => 1) (fun l => l))
      (initGameOfLife twoBlocks golBoot) = Done (st', evs) /\
    morphCount evs = 1%nat /\
    hashHistory st' = replicate 8 0.
Proof.
  destruct (reset_rule [TargetPoint.mk 100 60 (-1) (-1)] (fun _ _ _ => 0)
              [Threebody twoBlocks] (initGameOfLife twoBlocks golBoot) []
              (mkEntropy (fun _ _ => 1) (fun l => l)) eq_refl)
    as (st' & evs & Hs & Hrep & _).
  - vm_compute. reflexivity.
  - exists st', evs. split; [exact Hs|].
    destruct Hrep as (_ & Hc & _ & Hh & _).
    + right. split; [vm_compute; reflexivity | cbn; lia].
    + split; assumption.
Defined.

(** That first call resets although no fingerprint has been recorded yet
    and the grid is not empty. *)
Lemma fresh_ring_matches_zero :
  ~ resetsOnlyOnRepeat [TargetPoint.mk 100 60 (-1) (-1)] (fun _ _ _ => 0).
Proof.
  intros H.
  set (tp := [TargetPoint.mk 100 60 (-1) (-1)]) in *.
  set (st := initGameOfLife twoBlocks golBoot).
  set (e := mkEntropy (fun _ _ => 1) (fun l => l)).
  assert (Hd : newAllDead st = false) by (vm_compute; reflexivity).
  assert (Hs := step_alive tp (fun _ _ _ => 0) e st Hd). cbv zeta in Hs.
  assert (Hc : cycleFound (hashHistory st) (newFingerprint st) = true)
    by (vm_compute; reflexivity).
  rewrite Hc in Hs. destruct Hs as [m Hs].
  specialize (H [Threebody twoBlocks] st [] e _ _ eq_refl Hs Hd).
  discriminate H. intros [].
Qed.

(** A session started on a single cell: the first call finds an empty
    grid and faults in the morph. *)
Lemma empty_generation_divides_by_zero_witness :
  stepGameOfLife [TargetPoint.mk 100 60 (-1) (-1)] (fun _ _ _ => 0)
    (mkEntropy (fun _ _ => 1) (fun l => l))
    (initGameOfLife oneCell golBoot) = DivByZero.
Proof.
  apply (empty_generation_divides_by_zero
           [TargetPoint.mk 100 60 (-1) (-1)] (fun _ _ _ => 0)).
  - discriminate.
  - vm_compute. reflexivity.
Defined.

(** ** The morph animator *)

Section Nearest.

Variable t : TargetPoint.
Variable cells : list LiveCell.
Variable used : list bool.
Hypothesis near : forall c, In c cells -> dist2 c t < 1000000000.

Lemma scan_best (k : nat) :
  (k <= length cells)%nat -> bestOf t cells used k (scan t cells used k).
Proof.
  induction k as [|k IH]; intros Hk.
  - left. repeat split. intros j Hj. exfalso; lia.
  - assert (Hk' : (k <= length cells)%nat) by lia. specialize (IH Hk').
    unfold scan in *.
    rewrite seq_S, fold_left_app. cbn [fold_left Nat.add].
    set (best := fold_left _ (seq 0 k) _) in *.
    fold (taken used k).
    destruct (taken used k) eqn:Hu.
    { destruct IH as [(H1 & H2 & H3)|(j & c & Hj & H1 & H2 & H3 & H4 & H5)].
      - left. split; [assumption|]. split; [assumption|]. intros j Hj.
        destruct (decide (j = k)) as [->|]; [assumption|apply H3; lia].
      - right. exists j, c.
        split; [lia|]. do 4 (split; [assumption|]).
        intros j' c' Hj' Hc' Hf.
        destruct (decide (j' = k)) as [->|Hne]; [congruence|].
        apply (H5 j' c'); [lia|assumption|assumption]. }
    destruct (cells !! k) as [ck|] eqn:Hck;
      [|apply lookup_ge_None in Hck; lia].
    assert (Hnear : dist2 ck t < 1000000000).
    { apply near. apply list_elem_of_In, list_elem_of_lookup. eauto. }
    cbv zeta. destruct (Z.ltb_spec (dist2 ck t) (fst best)) as [Hlt|Hge].
    { right. exists k, ck. cbn [fst snd].
      split; [lia|]. do 4 (split; [assumption || reflexivity|]).
      intros j' c' Hj' Hc' Hf.
      destruct (decide (j' = k)) as [->|Hne].
      - assert (c' = ck) by congruence. subst. split; lia.
      - destruct IH as [(H1 & H2 & H3)|(j & c & Hj & H1 & H2 & H3 & H4 & H5)].
        + rewrite H3 in Hf by lia. discriminate.
        + destruct (H5 j' c' ltac:(lia) Hc' Hf). split; lia. }
    destruct IH as [(H1 & H2 & H3)|(j & c & Hj & H1 & H2 & H3 & H4 & H5)];
      [lia|].
    right. exists j, c.
    split; [lia|]. do 4 (split; [assumption|]).
    intros j' c' Hj' Hc' Hf.
    destruct (decide (j' = k)) as [->|Hne].
    + assert (c' = ck) by congruence. subst. split; lia.
    + apply (H5 j' c'); [lia|assumption|assumption].
Qed.

End Nearest.
Lemma usedCount_cons (b : bool) (used : list bool) :
  usedCount (b :: used) = ((if b then 1 else 0) + usedCount used)%nat.
Proof. destruct b; reflexivity. Qed.

Lemma usedCount_all (used : list bool) :
  (forall j, (j < length used)%nat -> taken used j = true) ->
  usedCount used = length used.
Proof.
  induction used as [|b used IH]; intros H; [reflexivity|].
  assert (Hb : b = true) by (apply (H 0%nat); cbn; lia). subst b.
  rewrite usedCount_cons. cbn [length]. rewrite IH; [reflexivity|].
  intros j Hj. apply (H (S j)). cbn. lia.
Qed.

Lemma usedCount_insert (used : list bool) (j : nat) :
  used !! j = Some false ->
  usedCount (<[j := true]> used) = S (usedCount used).
Proof.
  revert j. induction used as [|b used IH]; intros j Hj; [discriminate|].
  destruct j as [|j].
  - cbn in Hj. injection Hj as ->. reflexivity.
  - change (<[S j := true]> (b :: used)) with (b :: <[j := true]> used).
    rewrite !usedCount_cons, IH by exact Hj. lia.
Qed.

Lemma usedCount_replicate (n : nat) : usedCount (replicate n false) = 0%nat.
Proof. induction n; [reflexivity|assumption]. Qed.

Lemma taken_free (used : list bool) (j : nat) :
  (j < length used)%nat -> taken used j = false -> used !! j = Some false.
Proof.
  intros Hj Ht. unfold taken in Ht.
  destruct (used !! j) as [b|] eqn:E.
  - cbn in Ht. congruence.
  - apply lookup_ge_None in E. lia.
Qed.

Lemma chosen_insert targets cells asg i j k v :
  (i <= k)%nat -> chosen targets cells asg i j ->
  chosen targets cells (<[k := v]> asg) i j.
Proof.
  intros Hk [Hfresh Hmin]. split.
  - intros i' Hi'. rewrite list_lookup_insert_ne by lia. apply Hfresh. exact Hi'.
  - intros t c Ht Hc j' c' Hc' Hfree. apply (Hmin t c Ht Hc j' c' Hc').
    intros i' Hi'. specialize (Hfree i' Hi').
    rewrite list_lookup_insert_ne in Hfree by lia. exact Hfree.
Qed.

Lemma assign_fold (cells : list LiveCell) (ts : list TargetPoint) (i : nat)
    (acc : list Z * list bool) :
  fold_left (fun (acc : list Z * list bool) (it : nat * TargetPoint) =>
    let minIdx := snd (nearestUnused (snd it) cells (snd acc)) in
    if 0 <=? minIdx
    then (<[fst it := minIdx]> (fst acc), <[Z.to_nat minIdx := true]> (snd acc))
    else acc)
    (imap (fun k => pair (i + k)%nat) ts) acc =
  assignFrom cells i ts acc.
Proof.
  revert i acc. induction ts as [|t ts IH]; intros i acc; [reflexivity|].
  cbn [imap fold_left assignFrom].
  rewrite (imap_ext _ (fun k => pair (S i + k)%nat))
    by (intros k x _; cbn; f_equal; lia).
  rewrite IH. unfold stepAssign. cbn [fst snd]. rewrite Nat.add_0_r. reflexivity.
Qed.

Section Assign.

Variable targets : list TargetPoint.
Variable cells : list LiveCell.
Hypothesis sameSize : length cells = length targets.
Hypothesis near : forall c t, In c cells -> In t targets -> dist2 c t < 1000000000.

Lemma assigned_step (i : nat) (t : TargetPoint) (acc : list Z * list bool) :
  assigned targets cells i acc -> targets !! i = Some t ->
  assigned targets cells (S i) (stepAssign cells i t acc).
Proof.
  intros (Hla & Hlu & Hcount & Htaken & Hprev) Ht.
  assert (Hi : (i < length targets)%nat) by (apply lookup_lt_Some in Ht; exact Ht).
  assert (Hnear : forall c, In c cells -> dist2 c t < 1000000000).
  { intros c Hc. apply near; [exact Hc|].
    apply list_elem_of_In, list_elem_of_lookup. eauto. }
  pose proof (scan_best t cells (snd acc) Hnear (length cells) (le_n _)) as Hbest.
  change (scan t cells (snd acc) (length cells))
    with (nearestUnused t cells (snd acc)) in Hbest.
  unfold stepAssign.
  destruct Hbest as [(_ & _ & Hall)|(j & c & Hj & Hidx & Hc & Hfree & Hd & Hmin)].
  { exfalso. rewrite <- Hlu in Hall. apply usedCount_all in Hall. lia. }
  rewrite Hidx.
  destruct (Z.leb_spec 0 (Z.of_nat j)); [|lia].
  rewrite Nat2Z.id. unfold assigned. cbn [fst snd].
  assert (Hfresh : forall i', (i' < i)%nat -> fst acc !! i' <> Some (Z.of_nat j)).
  { intros i' Hi' Heq.
    assert (taken (snd acc) j = true) by (apply Htaken; eauto).
    congruence. }
  split; [rewrite length_insert; exact Hla|].
  split; [rewrite length_insert; exact Hlu|].
  split; [rewrite usedCount_insert; [lia|apply taken_free; [lia|exact Hfree]]|].
  split.
  - intros j1 Hj1. destruct (decide (j1 = j)) as [->|Hne].
    + split.
      * intros _. exists i. split; [lia|]. apply list_lookup_insert_eq. lia.
      * intros _. unfold taken. rewrite list_lookup_insert_eq by lia. reflexivity.
    + unfold taken. rewrite list_lookup_insert_ne by lia.
      fold (taken (snd acc) j1). rewrite (Htaken j1 Hj1). split.
      * intros (i' & Hi' & Heq). exists i'. split; [lia|].
        rewrite list_lookup_insert_ne by lia. exact Heq.
      * intros (i' & Hi' & Heq). destruct (decide (i' = i)) as [->|Hni].
        -- rewrite list_lookup_insert_eq in Heq by lia.
           injection Heq as Heq. lia.
        -- exists i'. split; [lia|].
           rewrite list_lookup_insert_ne in Heq by lia. exact Heq.
  - intros i' Hi'. destruct (decide (i' = i)) as [->|Hni].
    + exists j. split; [exact Hj|].
      split; [apply list_lookup_insert_eq; lia|].
      apply chosen_insert; [lia|]. split; [exact Hfresh|].
      intros t0 c0 Ht0 Hc0 j' c' Hc' Hfree'.
      assert (t0 = t) by congruence. assert (c0 = c) by congruence. subst t0 c0.
      assert (Hj' : (j' < length cells)%nat) by (apply lookup_lt_Some in Hc'; exact Hc').
      assert (Hf : taken (snd acc) j' = false).
      { destruct (taken (snd acc) j') eqn:E; [|reflexivity].
        apply (Htaken j' Hj') in E as (i' & Hi'' & Heq).
        exfalso. apply (Hfree' i' Hi''). exact Heq. }
      rewrite <- Hd. apply (Hmin j' c' Hj' Hc' Hf).
    + destruct (Hprev i' ltac:(lia)) as (j0 & Hj0 & Heq & Hch).
      exists j0. split; [exact Hj0|].
      split; [rewrite list_lookup_insert_ne by lia; exact Heq|].
      apply chosen_insert; [lia|exact Hch].
Qed.

Lemma assigned_from (ts : list TargetPoint) (i : nat) (acc : list Z * list bool) :
  assigned targets cells i acc ->
  (forall k t, ts !! k = Some t -> targets !! (i + k)%nat = Some t) ->
  (i + length ts = length targets)%nat ->
  assigned targets cells (length targets) (assignFrom cells i ts acc).
Proof.
  revert i acc. induction ts as [|t ts IH]; intros i acc Ha Hts Hlen.
  - cbn in *. replace (length targets) with i by lia. exact Ha.
  - cbn [assignFrom]. apply IH.
    + apply assigned_step; [exact Ha|].
      rewrite <- (Nat.add_0_r i). apply Hts. reflexivity.
    + intros k t' Hk. replace (S i + k)%nat with (i + S k)%nat by lia.
      apply Hts. exact Hk.
    + cbn in Hlen. lia.
Qed.

Lemma assignTargets_from :
  assignTargets targets cells =
  assignFrom cells 0 targets
    (replicate (length targets) (-1), replicate (length cells) false).
Proof. apply (assign_fold cells targets 0%nat). Qed.

Lemma assigned_start :
  assigned targets cells 0
    (replicate (length targets) (-1), replicate (length cells) false).
Proof.
  unfold assigned. cbn [fst snd]. split; [apply length_replicate|].
  split; [apply length_replicate|]. split; [apply usedCount_replicate|]. split.
  - intros j Hj. unfold taken. rewrite lookup_replicate_2 by exact Hj. cbn.
    split; [discriminate|]. intros (i' & Hi' & _). lia.
  - intros i' Hi'. lia.
Qed.

Lemma assigned_all :
  assigned targets cells (length targets) (assignTargets targets cells).
Proof.
  rewrite assignTargets_from. apply assigned_from.
  - apply assigned_start.
  - intros k t Hk. exact Hk.
  - reflexivity.
Qed.

End Assign.

Lemma duplicateCells_cyclic (missing : nat) (live used0 : list LiveCell) :
  live <> [] ->
  (forall k c, used0 !! k = Some c -> live !! (k mod length live)%nat = Some c) ->
  exists used,
    duplicateCells missing live used0 = Done used /\
    length used = (length used0 + missing)%nat /\
    (forall k c, used !! k = Some c -> live !! (k mod length live)%nat = Some c).
Proof.
  intros Hne. revert used0. induction missing as [|m IH]; intros used0 Hcyc.
  - exists used0. split; [reflexivity|]. split; [lia|exact Hcyc].
  - destruct live as [|c0 live'] eqn:Hlive; [congruence|].
    cbn [duplicateCells]. rewrite <- Hlive in *.
    set (j := (length used0 mod length live)%nat).
    assert (Hj : (j < length live)%nat)
      by (apply Nat.mod_upper_bound; rewrite Hlive; discriminate).
    destruct (lookup_lt_is_Some_2 live j Hj) as [cj Hcj].
    assert (Hnth : nth j live c0 = cj)
      by (rewrite nth_lookup, Hcj; reflexivity).
    rewrite Hnth.
    destruct (IH (used0 ++ [cj])) as (used & Hd & Hl & Hc).
    + intros k c Hk.
      destruct (decide (k < length used0)%nat) as [Hlt|Hge].
      * rewrite lookup_app_l in Hk by exact Hlt. apply Hcyc. exact Hk.
      * rewrite lookup_app_r in Hk by lia.
        destruct (k - length used0)%nat as [|d] eqn:Hkd; [|destruct d; discriminate].
        cbn in Hk. injection Hk as <-.
        replace k with (length used0) by lia. exact Hcj.
    + exists used. split; [exact Hd|]. split; [|exact Hc].
      rewrite Hl, length_app. cbn [length]. lia.
Qed.

Lemma reconcile_spec (sh : list LiveCell -> list LiveCell)
    (live : list LiveCell) (n : nat) :
  live <> [] -> (forall l, sh l ≡ₚ l) ->
  exists used,
    reconcile sh live n = Done used /\ length used = n /\
    (forall c, In c used -> In c live) /\
    ((n <= length live)%nat -> used ⊆+ live) /\
    ((length live < n)%nat ->
     forall k, (k < n)%nat -> used !! k = live !! (k mod length live)%nat).
Proof.
  intros Hne Hperm. unfold reconcile.
  destruct (Nat.leb_spec n (length live)) as [Hle|Hlt].
  - exists (take n (sh live)).
    assert (Hsub : take n (sh live) ⊆+ live).
    { rewrite <- (Hperm live) at 2. apply sublist_submseteq, sublist_take. }
    split; [reflexivity|]. split.
    { rewrite length_take, (Permutation_length (Hperm live)). lia. }
    split.
    { intros c Hc. apply list_elem_of_In. apply list_elem_of_In in Hc.
      eapply elem_of_submseteq; eassumption. }
    split; [intros _; exact Hsub|]. intros Hlt. lia.
  - destruct (duplicateCells_cyclic (n - length live) live live Hne)
      as (used & Hd & Hl & Hc).
    { intros k c Hk. rewrite Nat.mod_small by (apply lookup_lt_Some in Hk; exact Hk).
      exact Hk. }
    exists used. split; [exact Hd|]. split; [lia|]. split.
    { intros c Hin. apply list_elem_of_In, list_elem_of_lookup in Hin as [k Hk].
      apply list_elem_of_In, list_elem_of_lookup. eauto. }
    split; [intros Hle; lia|].
    intros _ k Hk.
    destruct (lookup_lt_is_Some_2 used k ltac:(lia)) as [c Hck].
    rewrite Hck. symmetry. apply Hc. exact Hck.
Qed.

Lemma morph_core (sh : list LiveCell -> list LiveCell)
    (live : list LiveCell) (targets : list TargetPoint) :
  live <> [] -> (forall l, sh l ≡ₚ l) ->
  (forall c t, In c live -> In t targets -> dist2 c t < 1000000000) ->
  exists used,
    reconcile sh live (length targets) = Done used /\
    length used = length targets /\
    ((length targets <= length live)%nat -> used ⊆+ live) /\
    ((length live < length targets)%nat ->
     forall k, (k < length targets)%nat ->
       used !! k = live !! (k mod length live)%nat) /\
    let asg := fst (assignTargets targets used) in
    length asg = length targets /\
    forall i, (i < length targets)%nat ->
      exists j, (j < length used)%nat /\ asg !! i = Some (Z.of_nat j) /\
                chosen targets used asg i j /\
                (forall i', asg !! i' = Some (Z.of_nat j) -> i' = i).
Proof.
  intros Hlive Hperm Hnear.
  destruct (reconcile_spec sh live (length targets) Hlive Hperm)
    as (used & Hrec & Hlen & Hin & Hsub & Hcyc).
  exists used. split; [exact Hrec|]. split; [exact Hlen|].
  split; [exact Hsub|]. split; [exact Hcyc|].
  assert (Hnear' : forall c t, In c used -> In t targets -> dist2 c t < 1000000000)
    by (intros c t Hc Ht; apply Hnear; [apply Hin; exact Hc|exact Ht]).
  destruct (assigned_all targets used Hlen Hnear')
    as (Hla & _ & _ & _ & Hall).
  cbv zeta. split; [exact Hla|].
  intros i Hi. destruct (Hall i Hi) as (j & Hj & Heq & Hch).
  exists j. split; [exact Hj|]. split; [exact Heq|]. split; [exact Hch|].
  intros i' Heq'.
  assert (Hi' : (i' < length targets)%nat)
    by (apply lookup_lt_Some in Heq'; lia).
  destruct (Nat.lt_trichotomy i' i) as [Hlt|[Heq0|Hgt]]; [|exact Heq0|].
  - exfalso. destruct Hch as [Hfresh _]. apply (Hfresh i' Hlt). exact Heq'.
  - exfalso. destruct (Hall i' Hi') as (j' & _ & Heqj & [Hfresh _]).
    assert (j' = j) by (rewrite Heq' in Heqj; injection Heqj; lia). subst j'.
    apply (Hfresh i Hgt). exact Heq.
Qed.

Lemma dist2_onDisplay (c : LiveCell) (t : TargetPoint) :
  onDisplay (LiveCell.x c) (LiveCell.y c) ->
  onDisplay (TargetPoint.x t) (TargetPoint.y t) ->
  dist2 c t < 1000000000.
Proof.
  unfold onDisplay, screenWidth, screenHeight, dist2. intros Hc Ht. cbv zeta.
  assert (-320 < LiveCell.x c - TargetPoint.x t < 320) by lia.
  assert (-170 < LiveCell.y c - TargetPoint.y t < 170) by lia.
  nia.
Qed.

(** C8.  Reconciliation handles every mismatch of sizes but one.  With
    at least one live cell, and all points on the display, it returns
    exactly as many sources as there are targets (the first cells of the
    shuffled vector when the cells are at least as many, the cells
    repeated cyclically when they are fewer), and the greedy loop then
    gives every target, in scan order, a source slot of its own: the
    closest of the slots no earlier target holds, the first of them on
    equal distance.  With no live cell, which is a mismatch too, the
    loop that repeats the cells takes its index modulo zero: no source
    list comes back, from [reconcile] or from the animator. *)
Theorem reconciliation_faults_without_sources
    (sh : list LiveCell -> list LiveCell) (live : list LiveCell)
    (targets : list TargetPoint) :
  targets <> [] -> (forall l, sh l ≡ₚ l) ->
  (live = [] ->
     reconcile sh live (length targets) = DivByZero /\
     forall cellColour st,
       liveCellsOf cellColour st = live ->
       animateToBusyBee targets cellColour sh st = DivByZero) /\
  (live <> [] ->
   (forall c, In c live -> onDisplay (LiveCell.x c) (LiveCell.y c)) ->
   (forall t, In t targets -> onDisplay (TargetPoint.x t) (TargetPoint.y t)) ->
   exists used,
     reconcile sh live (length targets) = Done used /\
     length used = length targets /\
     ((length targets <= length live)%nat -> used ⊆+ live) /\
     ((length live < length targets)%nat ->
      forall k, (k < length targets)%nat ->
        used !! k = live !! (k mod length live)%nat) /\
     let asg := fst (assignTargets targets used) in
     length asg = length targets /\
     forall i, (i < length targets)%nat ->
       exists j, (j < length used)%nat /\ asg !! i = Some (Z.of_nat j) /\
                 chosen targets used asg i j /\
                 (forall i', asg !! i' = Some (Z.of_nat j) -> i' = i)).
Proof.
  intros Htp Hperm. split.
  - intros ->.
    assert (Hrec : reconcile sh [] (length targets) = DivByZero).
    { destruct targets as [|t ts]; [congruence|]. reflexivity. }
    split; [exact Hrec|].
    intros cellColour st Hlive. unfold animateToBusyBee.
    destruct targets as [|t ts] eqn:E; [congruence|].
    rewrite Hlive. rewrite <- E in *. rewrite Hrec. reflexivity.
  - intros Hlive Hc Ht. apply morph_core; [exact Hlive|exact Hperm|].
    intros c t Hinc Hint. apply dist2_onDisplay; [apply Hc|apply Ht]; assumption.
Qed.

(** One target and no live cell. *)
Lemma reconciliation_faults_without_sources_witness :
  reconcile (fun l => l) [] 1 = DivByZero /\
  animateToBusyBee [TargetPoint.mk 100 60 (-1) (-1)] (fun _ _ _ => 0)
    (fun l => l) golBoot = DivByZero.
Proof.
  destruct (reconciliation_faults_without_sources (fun l => l) []
              [TargetPoint.mk 100 60 (-1) (-1)]) as [H _].
  - discriminate.
  - intros l. reflexivity.
  - destruct (H eq_refl) as [Hr Ha]. split; [exact Hr|].
    apply Ha. reflexivity.
Defined.

(** *** The animator on an engine state *)

Section AnimatorProperties.

Variable targetPoints : list TargetPoint.
Variable cellColour : Z -> Z -> Z -> Z.

Lemma liveCells_onDisplay (st : GolState) (c : LiveCell) :
  golRows st = 28 -> golCols st = 53 ->
  In c (liveCellsOf cellColour st) ->
  onDisplay (LiveCell.x c) (LiveCell.y c).
Proof.
  intros Hr Hc Hin. apply list_elem_of_In in Hin. unfold liveCellsOf in Hin.
  apply list_elem_of_bind in Hin as (y & Hin & Hy).
  apply list_elem_of_bind in Hin as (x & Hin & Hx).
  unfold upto in Hx, Hy. rewrite elem_of_seqZ in Hx, Hy. rewrite Hr in Hy.
  rewrite Hc in Hx.
  destruct (negb (cellAt (golGrid st) y x =? 0)); [|inversion Hin].
  apply list_elem_of_singleton in Hin. subst c.
  unfold onDisplay, screenWidth, screenHeight, golCellSize.
  cbn [LiveCell.x LiveCell.y]. change (Z.quot 6 2) with 3. lia.
Qed.

(** X25.  The animator, called on a session grid with a live cell, pairs every
    edge pixel of the wordmark with a source slot of its own. *)
Lemma animateToBusyBee_pairs (sh : list LiveCell -> list LiveCell)
    (st : GolState) :
  targetPoints <> [] ->
  (forall t, In t targetPoints -> onDisplay (TargetPoint.x t) (TargetPoint.y t)) ->
  golRows st = 28 -> golCols st = 53 ->
  allDead (golGrid st) (golRows st) (golCols st) = false ->
  (forall l, sh l ≡ₚ l) ->
  exists m,
    animateToBusyBee targetPoints cellColour sh st = Done (Some m) /\
    length (usedCells m) = length targetPoints /\
    length (assignment m) = length targetPoints /\
    forall i, (i < length targetPoints)%nat ->
      exists j, (j < length (usedCells m))%nat /\
                assignment m !! i = Some (Z.of_nat j) /\
                chosen targetPoints (usedCells m) (assignment m) i j /\
                (forall i', assignment m !! i' = Some (Z.of_nat j) -> i' = i).
Proof.
  intros Htp Hon Hr Hc Hd Hperm.
  destruct (morph_core sh (liveCellsOf cellColour st) targetPoints)
    as (used & Hrec & Hlen & _ & _ & Hasg & Hall).
  - apply alive_some_cell. exact Hd.
  - exact Hperm.
  - intros c t Hinc Hint. apply dist2_onDisplay; [|apply Hon; exact Hint].
    eapply liveCells_onDisplay; eassumption.
  - unfold animateToBusyBee.
    destruct targetPoints as [|t ts] eqn:E; [congruence|]. rewrite <- E in *.
    rewrite Hrec. eexists. split; [reflexivity|]. cbn [usedCells assignment].
    split; [exact Hlen|]. split; [exact Hasg|exact Hall].
Qed.

End AnimatorProperties.


(** * Further properties *)

(** ** Packed colours *)

Lemma red_field (r : Z) :
  0 <= r < 256 -> Z.shiftl (Z.land r 0xF8) 8 = 2048 * (r / 8).
Proof.
  intros Hr.
  assert (H : forallb (fun r => Z.shiftl (Z.land r 0xF8) 8 =? 2048 * (r / 8))
                      (seqZ 0 256) = true) by (vm_compute; reflexivity).
  rewrite forallb_forall in H. apply Z.eqb_eq, H.
  apply list_elem_of_In, elem_of_seqZ. lia.
Qed.

Lemma green_field (g : Z) :
  0 <= g < 256 -> Z.shiftl (Z.land g 0xFC) 3 = 32 * (g / 4).
Proof.
  intros Hg.
  assert (H : forallb (fun g => Z.shiftl (Z.land g 0xFC) 3 =? 32 * (g / 4))
                      (seqZ 0 256) = true) by (vm_compute; reflexivity).
  rewrite forallb_forall in H. apply Z.eqb_eq, H.
  apply list_elem_of_In, elem_of_seqZ. lia.
Qed.

Lemma fields_disjoint (i j k : Z) :
  0 <= i < 32 -> 0 <= j < 64 -> 0 <= k < 32 ->
  Z.lor (Z.lor (2048 * i) (32 * j)) k = 2048 * i + 32 * j + k.
Proof.
  intros Hi Hj Hk.
  assert (H : forallb (fun i => forallb (fun j => forallb (fun k =>
                 Z.lor (Z.lor (2048 * i) (32 * j)) k =? 2048 * i + 32 * j + k)
                 (seqZ 0 32)) (seqZ 0 64)) (seqZ 0 32) = true)
    by (vm_compute; reflexivity).
  rewrite forallb_forall in H.
  specialize (H i ltac:(apply list_elem_of_In, elem_of_seqZ; lia)).
  rewrite forallb_forall in H.
  specialize (H j ltac:(apply list_elem_of_In, elem_of_seqZ; lia)).
  rewrite forallb_forall in H.
  specialize (H k ltac:(apply list_elem_of_In, elem_of_seqZ; lia)).
  apply Z.eqb_eq. exact H.
Qed.

Lemma rgbTo565_sum (r g b : Z) :
  0 <= r < 256 -> 0 <= g < 256 -> 0 <= b < 256 ->
  rgbTo565 r g b = 2048 * (r / 8) + 32 * (g / 4) + b / 8.
Proof.
  intros Hr Hg Hb. unfold rgbTo565.
  rewrite red_field, green_field by assumption.
  rewrite Z.shiftr_div_pow2 by lia. change (2 ^ 3) with 8.
  assert (0 <= r / 8 < 32) by (split; [apply Z.div_pos|apply Z.div_lt_upper_bound]; lia).
  assert (0 <= g / 4 < 64) by (split; [apply Z.div_pos|apply Z.div_lt_upper_bound]; lia).
  assert (0 <= b / 8 < 32) by (split; [apply Z.div_pos|apply Z.div_lt_upper_bound]; lia).
  rewrite fields_disjoint by assumption.
  apply Z.mod_small. change (2 ^ 16) with 65536. lia.
Qed.

Lemma rgbTo565_range (r g b : Z) : 0 <= rgbTo565 r g b < 65536.
Proof. unfold rgbTo565. apply Z.mod_pos_bound. reflexivity. Qed.

(** X1.  The packed colour of three bytes keeps the top 5 bits of red, the top
    6 of green and the top 5 of blue, each in its own field: the red field
    read back is [r / 8], the green field [g / 4], the blue field [b / 8]. *)
Theorem rgbTo565_fields (r g b : Z) :
  0 <= r < 256 -> 0 <= g < 256 -> 0 <= b < 256 ->
  let v := rgbTo565 r g b in
  0 <= v < 65536 /\
  Z.shiftr v 11 = r / 8 /\
  Z.land (Z.shiftr v 5) 63 = g / 4 /\
  Z.land v 31 = b / 8.
Proof.
  intros Hr Hg Hb v. split; [apply rgbTo565_range|].
  unfold v. rewrite rgbTo565_sum by assumption.
  assert (0 <= r / 8 < 32) by (split; [apply Z.div_pos|apply Z.div_lt_upper_bound]; lia).
  assert (0 <= g / 4 < 64) by (split; [apply Z.div_pos|apply Z.div_lt_upper_bound]; lia).
  assert (0 <= b / 8 < 32) by (split; [apply Z.div_pos|apply Z.div_lt_upper_bound]; lia).
  rewrite !Z.shiftr_div_pow2 by lia.
  change 63 with (Z.ones 6). change 31 with (Z.ones 5).
  rewrite !Z.land_ones by lia.
  change (2 ^ 11) with 2048. change (2 ^ 5) with 32. change (2 ^ 6) with 64.
  generalize dependent (b / 8). generalize dependent (g / 4).
  generalize dependent (r / 8). intros i Hi j Hj k Hk.
  repeat split.
  - symmetry. apply Z.div_unique with (r := 32 * j + k); lia.
  - replace ((2048 * i + 32 * j + k) / 32) with (64 * i + j)
      by (apply Z.div_unique with (r := k); lia).
    symmetry. apply Z.mod_unique with (q := i); lia.
  - symmetry. apply Z.mod_unique with (q := 64 * i + j); lia.
Qed.

Lemma rgbTo565_fields_witness :
  rgbTo565 255 0 0 = TFT_RED /\ Z.shiftr (rgbTo565 200 100 50) 11 = 25 /\
  Z.land (rgbTo565 200 100 50) 31 = 6.
Proof.
  destruct (rgbTo565_fields 200 100 50 ltac:(lia) ltac:(lia) ltac:(lia))
    as (_ & Hr & _ & Hb).
  split; [reflexivity|]. split; [rewrite Hr; reflexivity|rewrite Hb; reflexivity].
Defined.

(** ** The colour of a slot button *)

Lemma expand5 (i : Z) :
  0 <= i < 32 ->
  0 <= Z.quot (i * 255) 31 < 256 /\ Z.quot (i * 255) 31 / 8 = i.
Proof.
  intros Hi.
  assert (H : forallb (fun i => (Z.quot (i * 255) 31 <? 256)
                                && (0 <=? Z.quot (i * 255) 31)
                                && (Z.quot (i * 255) 31 / 8 =? i))
                      (seqZ 0 32) = true) by (vm_compute; reflexivity).
  rewrite forallb_forall in H.
  specialize (H i ltac:(apply list_elem_of_In, elem_of_seqZ; lia)).
  apply andb_prop in H as [H H3]. apply andb_prop in H as [H1 H2].
  apply Z.ltb_lt in H1. apply Z.leb_le in H2. apply Z.eqb_eq in H3.
  split; [lia|exact H3].
Qed.

Lemma expand6 (j : Z) :
  0 <= j < 64 ->
  0 <= Z.quot (j * 255) 63 < 256 /\ Z.quot (j * 255) 63 / 4 = j.
Proof.
  intros Hj.
  assert (H : forallb (fun j => (Z.quot (j * 255) 63 <? 256)
                                && (0 <=? Z.quot (j * 255) 63)
                                && (Z.quot (j * 255) 63 / 4 =? j))
                      (seqZ 0 64) = true) by (vm_compute; reflexivity).
  rewrite forallb_forall in H.
  specialize (H j ltac:(apply list_elem_of_In, elem_of_seqZ; lia)).
  apply andb_prop in H as [H H3]. apply andb_prop in H as [H1 H2].
  apply Z.ltb_lt in H1. apply Z.leb_le in H2. apply Z.eqb_eq in H3.
  split; [lia|exact H3].
Qed.

Lemma fields_of (c : Z) :
  0 <= c < 65536 ->
  0 <= Z.land (Z.shiftr c 11) 0x1F < 32 /\
  0 <= Z.land (Z.shiftr c 5) 0x3F < 64 /\
  0 <= Z.land c 0x1F < 32 /\
  c = 2048 * Z.land (Z.shiftr c 11) 0x1F + 32 * Z.land (Z.shiftr c 5) 0x3F
      + Z.land c 0x1F.
Proof.
  intros Hc. rewrite !Z.shiftr_div_pow2 by lia.
  change 0x1F with (Z.ones 5). change 0x3F with (Z.ones 6).
  rewrite !Z.land_ones by lia.
  change (2 ^ 11) with 2048. change (2 ^ 5) with 32. change (2 ^ 6) with 64.
  Z.div_mod_to_equations. lia.
Qed.

Lemma rgb565To888_packs (c : Z) :
  0 <= c < 65536 ->
  let '(r, g, b) := rgb565To888 c in
  0 <= r < 256 /\ 0 <= g < 256 /\ 0 <= b < 256 /\ rgbTo565 r g b = c.
Proof.
  intros Hc. unfold rgb565To888.
  destruct (fields_of c Hc) as (Hi & Hj & Hk & Hsum).
  destruct (expand5 _ Hi) as [Hr Hr8]. destruct (expand6 _ Hj) as [Hg Hg4].
  destruct (expand5 _ Hk) as [Hb Hb8].
  unfold u8. rewrite !Z.mod_small by lia.
  split; [exact Hr|]. split; [exact Hg|]. split; [exact Hb|].
  rewrite rgbTo565_sum by assumption. rewrite Hr8, Hg4, Hb8. lia.
Qed.

Lemma hex2_substrings (r g b : Z) :
  let s := String "#"%char (hex2 r +:+ hex2 g +:+ hex2 b) in
  String.length s = 7%nat /\ String.get 0 s = Some "#"%char /\
  substring 1 2 s = hex2 r /\ substring 3 2 s = hex2 g /\
  substring 5 2 s = hex2 b.
Proof. unfold hex2. repeat split; reflexivity. Qed.

(** X2.  The colour a slot button is painted with leads back to the slot's
    colour: the three bytes the page computes from a 16-bit colour pack
    to that very colour, and the 7-character string printed from them,
    sent back as a colour argument, is accepted by the handlers and
    gives the colour again (given that [strtol] reads two hexadecimal
    digits as their value). *)
Theorem button_colour_round_trip (strtol16 : string -> Z) (c : Z) :
  0 <= c < 65536 ->
  (forall b, 0 <= b < 256 -> strtol16 (hex2 b) = b) ->
  (let '(r, g, b) := rgb565To888 c in rgbTo565 r g b = c) /\
  String.length (buttonColourHex c) = 7%nat /\
  parseColor strtol16 (buttonColourHex c) = Some c.
Proof.
  intros Hc Hstr. pose proof (rgb565To888_packs c Hc) as Hp.
  unfold buttonColourHex. destruct (rgb565To888 c) as [[r g] b].
  destruct Hp as (Hr & Hg & Hb & Hpack).
  destruct (hex2_substrings r g b) as (Hl & H0 & H1 & H3 & H5).
  cbv zeta in Hl, H0, H1, H3, H5.
  split; [exact Hpack|]. split; [exact Hl|].
  unfold parseColor. rewrite Hl, H0, H1, H3, H5.
  rewrite bool_decide_eq_true_2 by reflexivity. cbn [Nat.eqb andb].
  rewrite !Hstr by assumption. unfold u8. rewrite !Z.mod_small by lia.
  rewrite Hpack. reflexivity.
Qed.

Lemma strtolHex2_reads (b : Z) : 0 <= b < 256 -> strtolHex2 (hex2 b) = b.
Proof.
  intros Hb.
  assert (H : forallb (fun b => strtolHex2 (hex2 b) =? b) (seqZ 0 256) = true)
    by (vm_compute; reflexivity).
  rewrite forallb_forall in H. apply Z.eqb_eq, H.
  apply list_elem_of_In, elem_of_seqZ. lia.
Qed.

Lemma button_colour_round_trip_witness :
  buttonColourHex TFT_BLUE = "#0000FF" /\
  parseColor strtolHex2 (buttonColourHex TFT_BLUE) = Some TFT_BLUE.
Proof.
  destruct (button_colour_round_trip strtolHex2 TFT_BLUE) as (_ & _ & H).
  - unfold TFT_BLUE. lia.
  - apply strtolHex2_reads.
  - split; [reflexivity|exact H].
Defined.

(** ** The access point name *)

Lemma hexDigit_code (x : Z) :
  0 <= x < 16 ->
  Z.of_nat (nat_of_ascii (hexDigit x)) = if x <? 10 then 48 + x else 55 + x.
Proof.
  intros Hx.
  assert (H : x = 0 \/ x = 1 \/ x = 2 \/ x = 3 \/ x = 4 \/ x = 5 \/ x = 6 \/
              x = 7 \/ x = 8 \/ x = 9 \/ x = 10 \/ x = 11 \/ x = 12 \/
              x = 13 \/ x = 14 \/ x = 15) by lia.
  repeat (destruct H as [->|H]; [reflexivity|]). subst x. reflexivity.
Qed.

Lemma hexDigit_inj (x y : Z) :
  0 <= x < 16 -> 0 <= y < 16 -> hexDigit x = hexDigit y -> x = y.
Proof.
  intros Hx Hy H.
  pose proof (hexDigit_code x Hx) as Cx. pose proof (hexDigit_code y Hy) as Cy.
  rewrite H in Cx. rewrite Cx in Cy.
  destruct (x <? 10) eqn:Ex, (y <? 10) eqn:Ey; lia.
Qed.

Lemma hex2_inj (a b : Z) :
  0 <= a < 256 -> 0 <= b < 256 -> hex2 a = hex2 b -> a = b.
Proof.
  intros Ha Hb H. unfold hex2 in H. injection H as Hq Hr.
  pose proof (Z.quot_rem' a 16) as Ea. pose proof (Z.quot_rem' b 16) as Eb.
  pose proof (Z.rem_bound_pos a 16 ltac:(lia) ltac:(lia)).
  pose proof (Z.rem_bound_pos b 16 ltac:(lia) ltac:(lia)).
  assert (0 <= Z.quot a 16 < 16)
    by (split; [apply Z.quot_pos; lia | apply Z.quot_lt_upper_bound; lia]).
  assert (0 <= Z.quot b 16 < 16)
    by (split; [apply Z.quot_pos; lia | apply Z.quot_lt_upper_bound; lia]).
  apply hexDigit_inj in Hq; [|assumption|assumption].
  apply hexDigit_inj in Hr; [|assumption|assumption].
  lia.
Qed.

(** X3.  The access point name tells devices apart by the last three bytes of
    the MAC address, and by nothing else: it is always 14 characters
    long (so it fits the 32-byte buffer), and two addresses give the
    same name exactly when their bytes 3, 4 and 5 agree. *)
Theorem ssid_names_last_three_bytes (m1 m2 : list Z) :
  length m1 = 6%nat -> length m2 = 6%nat ->
  Forall (fun b => 0 <= b < 256) m1 -> Forall (fun b => 0 <= b < 256) m2 ->
  String.length (ssidOf m1) = 14%nat /\
  String.prefix "BusyBee-" (ssidOf m1) = true /\
  (ssidOf m1 = ssidOf m2 <-> drop 3 m1 = drop 3 m2).
Proof.
  intros L1 L2 F1 F2.
  destruct m1 as [|a0 [|a1 [|a2 [|a3 [|a4 [|a5 [|? ?]]]]]]]; try discriminate L1.
  destruct m2 as [|b0 [|b1 [|b2 [|b3 [|b4 [|b5 [|? ?]]]]]]]; try discriminate L2.
  split; [reflexivity|]. split; [reflexivity|].
  cbn [drop]. unfold ssidOf. cbn [lookup list_lookup default from_option id].
  repeat match goal with H : Forall _ (_ :: _) |- _ => inversion_clear H end.
  split.
  - intros Heq. unfold hex2 in Heq.
    cbv [String.append] in Heq.
    injection Heq as E1 E2 E3 E4 E5 E6.
    rewrite (hex2_inj a3 b3), (hex2_inj a4 b4), (hex2_inj a5 b5);
      try assumption; try reflexivity; unfold hex2; congruence.
  - intros [= -> -> ->]. reflexivity.
Qed.

Lemma ssid_names_last_three_bytes_witness :
  ssidOf [0x24; 0x6F; 0x28; 0x0A; 0xB1; 0xC2] = "BusyBee-0AB1C2" /\
  String.length (ssidOf [0x24; 0x6F; 0x28; 0x0A; 0xB1; 0xC2]) = 14%nat.
Proof.
  destruct (ssid_names_last_three_bytes
              [0x24; 0x6F; 0x28; 0x0A; 0xB1; 0xC2]
              [0x24; 0x6F; 0x28; 0x0A; 0xB1; 0xC2] eq_refl eq_refl) as (H & _).
  - repeat first [apply List.Forall_cons; [lia|] | apply List.Forall_nil].
  - repeat first [apply List.Forall_cons; [lia|] | apply List.Forall_nil].
  - split; [reflexivity|exact H].
Defined.

(** ** Well-formed status *)

Lemma c_str_idem (s : string) : c_str (c_str s) = c_str s.
Proof.
  induction s as [|c s IH]; [reflexivity|]. cbn [c_str].
  destruct (Ascii.eqb c "000") eqn:E; [reflexivity|].
  cbn [c_str]. rewrite E, IH. reflexivity.
Qed.

Lemma c_str_substring (s : string) (n : nat) :
  c_str s = s -> c_str (substring 0 n s) = substring 0 n s.
Proof.
  revert n. induction s as [|c s IH]; intros n Hs.
  - destruct n; reflexivity.
  - destruct n as [|n]; [reflexivity|].
    cbn [c_str] in Hs. destruct (Ascii.eqb c "000") eqn:E; [discriminate|].
    injection Hs as Hs. cbn [substring c_str]. rewrite E, IH by exact Hs.
    reflexivity.
Qed.

Lemma strncpy_fits (s : string) : fitsBuffer (strncpy s 31).
Proof.
  unfold fitsBuffer, strncpy. split.
  - apply c_str_substring, c_str_idem.
  - apply substring_length_le.
Qed.

Lemma fitsBuffer_copy (s : string) : fitsBuffer s -> strncpy s 31 = s.
Proof.
  intros [Hc Hl]. unfold strncpy. rewrite Hc. apply substring_whole. exact Hl.
Qed.

Lemma slotAt_valid (st : StatusState) (i : Z) :
  Forall validSlot (customStatuses st) -> validSlot (slotAt st i).
Proof.
  intros Hall. unfold slotAt.
  destruct (customStatuses st !! Z.to_nat i) as [c|] eqn:E.
  - cbn. eapply Forall_lookup_1; eassumption.
  - cbn. repeat split; cbn; lia.
Qed.

Lemma applyOp_valid (st : StatusState) (op : Op) :
  validStatus st -> validOp op -> validStatus (applyOp st op).
Proof.
  intros (Ht & Hc & Hl & Hs) Hop.
  destruct op as [| |b|s|c|i s|i c]; cbn [applyOp validOp] in *.
  - repeat split; assumption || apply Ht || apply Hc.
  - repeat split; assumption || apply Ht || apply Hc.
  - repeat split; assumption || apply Ht || apply Hc.
  - split; [exact Hop|]. split; [exact Hc|]. split; assumption.
  - split; [exact Ht|]. split; [exact Hop|]. split; assumption.
  - split; [exact Ht|]. split; [exact Hc|].
    cbn [customStatuses].
    split; [rewrite length_insert; exact Hl|].
    apply Forall_insert; [exact Hs|]. split; [exact Hop|].
    apply (slotAt_valid st i Hs).
  - split; [exact Ht|]. split; [exact Hc|].
    cbn [customStatuses].
    split; [rewrite length_insert; exact Hl|].
    apply Forall_insert; [exact Hs|]. split; [|exact Hop].
    apply (slotAt_valid st i Hs).
Qed.

Lemma runOps_valid (ops : list Op) (st : StatusState) :
  validStatus st -> Forall validOp ops -> validStatus (runOps ops st).
Proof.
  revert st. induction ops as [|op ops IH]; intros st Hst Hops; [exact Hst|].
  inversion Hops; subst. cbn. apply IH; [|assumption].
  apply applyOp_valid; assumption.
Qed.

Lemma parseColor_range (strtol16 : string -> Z) (c : string) (v : Z) :
  parseColor strtol16 c = Some v -> 0 <= v < 65536.
Proof.
  unfold parseColor. destruct (_ && _); [|discriminate].
  intros [= <-]. apply rgbTo565_range.
Qed.

Lemma literal_fits (s : string) :
  c_str s = s -> (String.length s <=? 31)%nat = true -> fitsBuffer s.
Proof. intros Hc Hl. split; [exact Hc|]. apply Nat.leb_le. exact Hl. Qed.

Ltac validOps Hs :=
  cbn [app];
  repeat first [apply List.Forall_cons | apply List.Forall_nil];
  cbn [validOp];
  first [ exact I
        | apply strncpy_fits
        | apply literal_fits; reflexivity
        | apply (proj2 (slotAt_valid _ _ Hs))
        | eapply parseColor_range; eassumption
        | unfold TFT_RED, TFT_GREEN; lia ].

Lemma applyIndexOps_valid (st : StatusState) (idx : Z) :
  validStatus st -> Forall validOp (applyIndexOps st idx).
Proof.
  intros (_ & _ & _ & Hs). unfold applyIndexOps.
  destruct (idx =? 0); [|destruct (idx =? 1)]; validOps Hs.
Qed.

Section Handlers.
Variables textWidth toInt strtol16 : string -> Z.

Lemma serverSetCustomOps_valid (req : gmap string string) :
  Forall validOp (serverSetCustomOps strtol16 req).
Proof.
  unfold serverSetCustomOps. apply Forall_app. split.
  - destruct (_ && _); validOps I.
  - destruct (parseColor _ _) eqn:E; validOps I.
Qed.

Lemma setStatusOps_valid (req : gmap string string) (st : StatusState) :
  validStatus st -> Forall validOp (setStatusOps toInt req st).
Proof.
  intros (_ & _ & _ & Hs). unfold setStatusOps.
  repeat match goal with |- context [if ?b then _ else _] => destruct b end;
    validOps Hs.
Qed.

Lemma setCustomStatusOps_valid (i : Z) (req : gmap string string) :
  Forall validOp (setCustomStatusOps strtol16 i req).
Proof.
  unfold setCustomStatusOps. apply Forall_app. split.
  - destruct (_ <=? _); validOps I.
  - destruct (parseColor _ _) eqn:E; validOps I.
Qed.

Lemma setNeedSave_valid (st : StatusState) (b : bool) :
  validStatus st -> validStatus (setNeedSave st b).
Proof. intros H. exact H. Qed.

Lemma serverSetCustom_valid req d :
  validStatus (status d) ->
  validStatus (status (serverSetCustom textWidth strtol16 req d)).
Proof.
  intros H. unfold serverSetCustom. cbn [status withStatus].
  apply setNeedSave_valid. cbn [status displayStatus resetMarquee withScreen withStatus].
  apply runOps_valid; [exact H|apply serverSetCustomOps_valid].
Qed.

End Handlers.

Section Polls.
Variables textWidth toInt strtol16 : string -> Z.

Lemma rotation_status (p : Pins) (d : Device) :
  status (fst (rotationButton p d)) = status d.
Proof.
  unfold rotationButton.
  repeat match goal with |- context [if ?b then _ else _] => destruct b end;
    reflexivity.
Qed.

Lemma mainButton_status (p : Pins) (d d' : Device) :
  mainButton textWidth p d = Returned d' ->
  status d' = status d \/
  exists idx, status d' = runOps (applyIndexOps (status d) idx) (status d).
Proof.
  unfold mainButton.
  repeat match goal with
         | |- context [if ?b then _ else _] => destruct b
         | |- context [match cycleLoop ?a ?b ?c ?e with _ => _ end] =>
             destruct (cycleLoop a b c e) as [[idx tries]|]
         end;
    intros [= <-]; try (left; reflexivity).
  right. exists idx. reflexivity.
Qed.

Lemma poll_status (p : Pins) (d d' : Device) :
  handleButtonPress textWidth p d = Returned d' ->
  status d' = status d \/
  exists idx, status d' = runOps (applyIndexOps (status d) idx) (status d).
Proof.
  unfold handleButtonPress. pose proof (rotation_status p d) as Hr.
  destruct (rotationButton p d) as [d1 flag]. cbn [fst snd] in *.
  destruct flag.
  - intros [= <-]. left. exact Hr.
  - intros Hm. apply mainButton_status in Hm. rewrite Hr in Hm. exact Hm.
Qed.

Lemma poll_valid (p : Pins) (d d' : Device) :
  validStatus (status d) ->
  handleButtonPress textWidth p d = Returned d' -> validStatus (status d').
Proof.
  intros Hv Hp. destruct (poll_status p d d' Hp) as [->|[idx ->]]; [exact Hv|].
  apply runOps_valid; [exact Hv|apply applyIndexOps_valid; exact Hv].
Qed.

Lemma setStatusHandler_valid req d :
  validStatus (status d) ->
  validStatus (status (setStatusHandler textWidth toInt strtol16 req d)).
Proof.
  intros H. unfold setStatusHandler.
  destruct (_ && _); [apply serverSetCustom_valid; exact H|].
  cbn [status saveStatus withFlash displayStatus resetMarquee withScreen withStatus].
  apply runOps_valid; [exact H|apply setStatusOps_valid; exact H].
Qed.

Lemma setCustomStatusHandler_valid i req d :
  validStatus (status d) ->
  validStatus (status (setCustomStatusHandler strtol16 i req d)).
Proof.
  intros H. unfold setCustomStatusHandler. cbn [status withFlash withStatus].
  apply runOps_valid; [exact H|apply setCustomStatusOps_valid].
Qed.

Lemma updateMarquee_status t w dm :
  status (fst (updateMarqueeIfNeeded t w dm)) = status (fst dm).
Proof.
  unfold updateMarqueeIfNeeded.
  repeat match goal with |- context [if ?b then _ else _] => destruct b end;
    reflexivity.
Qed.

Lemma saveCheck_valid t dl :
  validStatus (status (fst dl)) -> validStatus (status (fst (saveCheck t dl))).
Proof.
  intros H. unfold saveCheck.
  repeat match goal with |- context [if ?b then _ else _] => destruct b end;
    exact H.
Qed.

End Polls.

Lemma bootStatus_valid : validStatus bootStatus.
Proof.
  split; [apply literal_fits; reflexivity|]. split; [unfold bootStatus, TFT_RED; cbn; lia|].
  split; [reflexivity|].
  repeat constructor; cbn; unfold TFT_BLUE; lia.
Qed.

Section Validity.
Variables textWidth toInt strtol16 : string -> Z.
Variable targetPoints : list TargetPoint.
Variable cellColour : Z -> Z -> Z -> Z.

(** X4.  The status stays well formed: whatever route is served with whatever
    arguments, and whatever a pass of the display task meets, the status
    text and the slot texts are NUL-free strings of at most 31 bytes, the
    colours are below 65536, and there are three slots. *)
Theorem status_stays_valid (s : System) :
  validStatus (status (dev s)) ->
  (forall r req,
     validStatus (status (dev (serve textWidth toInt strtol16 r req s)))) /\
  (forall p e tm w t s' drawn,
     updateDisplayPass textWidth targetPoints cellColour p e tm w t s
       = Continues s' drawn ->
     validStatus (status (dev s'))).
Proof.
  intros Hv. split.
  - intros r req. destruct r; cbn [serve dev].
    + unfold setCornerInfoHandler. destruct (hasArg req "cornerInfo"); exact Hv.
    + exact Hv.
    + apply setStatusHandler_valid. exact Hv.
    + apply setCustomStatusHandler_valid. exact Hv.
    + exact Hv.
    + exact Hv.
  - intros p e tm w t s' drawn. unfold updateDisplayPass.
    destruct (gameOfLifeRunning (dev s)).
    + destruct (handleButtonPress textWidth p (dev s)) as [d1| |] eqn:Hp;
        try discriminate.
      destruct (stepGameOfLife _ _ e (gol s)) as [[g1 evs]|]; [|discriminate].
      intros [= <- _]. cbn [dev]. eapply poll_valid; eassumption.
    + destruct (handleButtonPress textWidth p (dev s)) as [d1| |] eqn:Hp;
        try discriminate.
      intros [= <- _]. cbn [dev]. apply saveCheck_valid. cbn [fst].
      assert (Hd1 : validStatus (status d1)) by (eapply poll_valid; eassumption).
      destruct (u32 (t - lastBatteryUpdate s) >=? 60000);
        cbn [status displayStatus withScreen];
        rewrite updateMarquee_status; exact Hd1.
Qed.

End Validity.

Lemma status_stays_valid_witness :
  validStatus
    (status (dev (serve (fun _ => 0) (fun _ => 0) (fun _ => 0) SetStatus
                        {[ "status" := "TALK" ]}
                        (mkSystem bootDevice golBoot (mkMarquee false 0 []) 0 0)))).
Proof.
  destruct (status_stays_valid (fun _ => 0) (fun _ => 0) (fun _ => 0) []
              (fun _ _ _ => 0)
              (mkSystem bootDevice golBoot (mkMarquee false 0 []) 0 0))
    as [H _].
  - apply bootStatus_valid.
  - apply H.
Defined.

(** ** The colour fields of the page *)

Lemma append_length (s1 s2 : string) :
  String.length (s1 +:+ s2) = (String.length s1 + String.length s2)%nat.
Proof.
  induction s1 as [|c s1 IH]; [reflexivity|].
  change (S (String.length (s1 +:+ s2)) = S (String.length s1 + String.length s2)).
  rewrite IH. reflexivity.
Qed.

Lemma zeroPad_length (m : nat) (s : string) :
  String.length (zeroPad m s) = (m + String.length s)%nat.
Proof.
  induction m as [|m IH]; [reflexivity|].
  cbn [zeroPad String.length]. rewrite IH. reflexivity.
Qed.

Lemma hexOf_length (d : nat) (k : nat) (n : Z) :
  (1 <= k)%nat -> 0 <= n < 16 ^ Z.of_nat k ->
  (String.length (hexOf d n) <= k)%nat.
Proof.
  revert k n. induction d as [|d IH]; intros k n Hk Hn; [cbn; lia|].
  cbn [hexOf]. destruct (Z.ltb_spec n 16) as [Hlt|Hge]; [cbn; lia|].
  rewrite append_length. cbn [String.length].
  destruct k as [|[|k]]; [lia| |].
  - change (16 ^ Z.of_nat 1) with 16 in Hn. lia.
  - assert (Hq : (String.length (hexOf d (Z.quot n 16)) <= S k)%nat).
    { apply IH; [lia|]. rewrite Z.quot_div_nonneg by lia.
      replace (Z.of_nat (S (S k))) with (Z.of_nat (S k) + 1) in Hn by lia.
      rewrite Z.pow_add_r, Z.pow_1_r in Hn by lia.
      split; [apply Z.div_pos; lia|apply Z.div_lt_upper_bound; lia]. }
    lia.
Qed.

Lemma colourHex_length (c : Z) :
  0 <= c < 65536 -> String.length (colourHex c) = 5%nat.
Proof.
  intros Hc. unfold colourHex. cbn [String.length]. rewrite zeroPad_length.
  pose proof (hexOf_length 8 4 c ltac:(lia) ltac:(change (16 ^ Z.of_nat 4) with 65536; lia)).
  lia.
Qed.

Lemma short_colour_rejected (strtol16 : string -> Z) (s : string) :
  String.length s = 5%nat -> parseColor strtol16 s = None.
Proof. intros Hl. unfold parseColor. rewrite Hl. reflexivity. Qed.

(** X5.  The colour of a well-formed status, and of each of its slots, prints
    as "#" and exactly four digits: five characters, which the 8-byte
    buffers of the page handler hold.  Being five characters and not
    seven, the value the page puts in its colour inputs is not one the
    handlers take as a colour: sent back unchanged it leaves the colour
    as it is. *)
Theorem colour_fields_fit (strtol16 : string -> Z) (st : StatusState) (i : Z) :
  validStatus st ->
  String.length (colourHex (customColor st)) = 5%nat /\
  String.length (colourHex (CustomStatus.color (slotAt st i))) = 5%nat /\
  parseColor strtol16 (colourHex (customColor st)) = None /\
  parseColor strtol16 (colourHex (CustomStatus.color (slotAt st i))) = None.
Proof.
  intros (_ & Hc & _ & Hs).
  pose proof (colourHex_length _ Hc) as H1.
  pose proof (colourHex_length _ (proj2 (slotAt_valid st i Hs))) as H2.
  split; [exact H1|]. split; [exact H2|].
  split; apply short_colour_rejected; assumption.
Qed.

Lemma colour_fields_fit_witness :
  colourHex (customColor bootStatus) = "#F800" /\
  parseColor (fun _ => 0)
    (colourHex (CustomStatus.color (slotAt bootStatus 1))) = None.
Proof.
  destruct (colour_fields_fit (fun _ => 0) bootStatus 1 bootStatus_valid)
    as (_ & _ & _ & H).
  split; [reflexivity|exact H].
Defined.

(** ** Save and load *)

Lemma slots_of_three (st : StatusState) :
  length (customStatuses st) = 3%nat ->
  customStatuses st = [slotAt st 0; slotAt st 1; slotAt st 2].
Proof.
  intros Hl. unfold slotAt.
  destruct (customStatuses st) as [|a [|b [|c [|? ?]]]]; try discriminate Hl.
  reflexivity.
Qed.

Lemma load_after_save (st : StatusState) (f : Flash) :
  validStatus st -> loadStatus (prefs (saveAll st f)) = setNeedSave st false.
Proof.
  intros (Ht & Hc & Hl & Hs).
  assert (Hk : forall k v, In (k, v) (persisted st) ->
                 prefs (saveAll st f) !! k = Some v) by apply saveAll_prefs.
  unfold loadStatus, loadSlot, getBool, getString, getUInt, getInt, toCharArray.
  change (upto 3) with [0; 1; 2]. cbn [fmap list_fmap].
  change (slotKey "customText" 0) with "customText1".
  change (slotKey "customText" 1) with "customText2".
  change (slotKey "customText" 2) with "customText3".
  change (slotKey "customColor" 0) with "customColor1".
  change (slotKey "customColor" 1) with "customColor2".
  change (slotKey "customColor" 2) with "customColor3".
  rewrite (Hk "isBusy" (PBool (isBusy st))) by (cbn; auto 12).
  rewrite (Hk "customText" (PString (customText st))) by (cbn; auto 12).
  rewrite (Hk "customColor" (PUInt (customColor st))) by (cbn; auto 12).
  rewrite (Hk "showBattery" (PBool (showBattery st))) by (cbn; auto 12).
  rewrite (Hk "showCornerInfo" (PInt (showCornerInfo st))) by (cbn; auto 12).
  rewrite (Hk "customText1" (PString (CustomStatus.text (slotAt st 0)))) by (cbn; auto 12).
  rewrite (Hk "customColor1" (PUInt (CustomStatus.color (slotAt st 0)))) by (cbn; auto 12).
  rewrite (Hk "customText2" (PString (CustomStatus.text (slotAt st 1)))) by (cbn; auto 12).
  rewrite (Hk "customColor2" (PUInt (CustomStatus.color (slotAt st 1)))) by (cbn; auto 12).
  rewrite (Hk "customText3" (PString (CustomStatus.text (slotAt st 2)))) by (cbn; auto 12).
  rewrite (Hk "customColor3" (PUInt (CustomStatus.color (slotAt st 2)))) by (cbn; auto 12).
  change (32 - 1)%nat with 31%nat.
  rewrite (fitsBuffer_copy _ Ht).
  rewrite !(fitsBuffer_copy _ (proj1 (slotAt_valid st _ Hs))).
  unfold setNeedSave. f_equal. rewrite (slots_of_three st Hl).
  destruct (slotAt st 0), (slotAt st 1), (slotAt st 2). reflexivity.
Qed.

(** X6.  Saving and loading are inverse on well-formed status: what [saveAll]
    writes to flash, the load block of [setup] reads back as the same
    status, field by field and slot by slot, whatever the flash held
    before. *)
Theorem saved_status_loads_back (st : StatusState) (f : Flash) :
  validStatus st ->
  loadStatus (prefs (saveAll st f)) = setNeedSave st false.
Proof. apply load_after_save. Qed.

Lemma saved_status_loads_back_witness :
  loadStatus (prefs (saveAll talkStatus (mkFlash ∅ []))) = talkStatus.
Proof.
  rewrite (saved_status_loads_back talkStatus (mkFlash ∅ [])); [reflexivity|].
  split; [apply literal_fits; reflexivity|].
  split; [unfold talkStatus, TFT_GREEN; cbn; lia|]. apply bootStatus_valid.
Defined.

Section Reboot.
Variables textWidth toInt strtol16 : string -> Z.

Lemma setup_status (f : Flash) :
  status (setupDevice textWidth f) = loadStatus (prefs f).
Proof. reflexivity. Qed.

Lemma mainButton_flash (p : Pins) (d d' : Device) :
  mainButton textWidth p d = Returned d' ->
  (status d' = status d /\ flash d' = flash d) \/
  flash d' = saveAll (status d') (flash d).
Proof.
  unfold mainButton.
  repeat match goal with
         | |- context [if ?b then _ else _] => destruct b
         | |- context [match cycleLoop ?a ?b ?c ?e with _ => _ end] =>
             destruct (cycleLoop a b c e) as [[idx tries]|]
         end;
    intros [= <-]; try (left; split; reflexivity).
  right. reflexivity.
Qed.

(** X7.  A status change that is written through is what the next boot
    shows: after any [/setStatus] request other than the free text one,
    and after a poll of the buttons that changed the status, each run to
    its end with the other task not writing meanwhile, [setup] on the
    flash as it then is loads exactly that status. *)
Theorem reboot_restores_status (d : Device) :
  validStatus (status d) ->
  (forall req,
     String.eqb (c_str (arg req "status")) "CUSTOM" = false ->
     let d' := setStatusHandler textWidth toInt strtol16 req d in
     status (setupDevice textWidth (flash d')) = setNeedSave (status d') false) /\
  (forall p d',
     handleButtonPress textWidth p d = Returned d' ->
     status d' <> status d ->
     status (setupDevice textWidth (flash d')) = setNeedSave (status d') false).
Proof.
  intros Hv. split.
  - intros req Hc d'. rewrite setup_status.
    assert (Hv' : validStatus (status d'))
      by (apply setStatusHandler_valid; exact Hv).
    unfold d', setStatusHandler in *. rewrite Hc in *.
    rewrite andb_false_r in *.
    cbn [flash saveStatus withFlash status displayStatus resetMarquee withScreen
         withStatus] in *.
    apply load_after_save. exact Hv'.
  - intros p d' Hp Hne. rewrite setup_status.
    assert (Hv' : validStatus (status d')) by (eapply poll_valid; eassumption).
    unfold handleButtonPress in Hp.
    pose proof (rotation_status p d) as Hrs.
    destruct (rotationButton p d) as [d1 flag] eqn:Hr. cbn [fst snd] in *.
    destruct flag; [injection Hp as <-; congruence|].
    destruct (mainButton_flash p d1 d' Hp) as [[Hs _]|Hf]; [congruence|].
    rewrite Hf. apply load_after_save. exact Hv'.
Qed.

End Reboot.

Lemma reboot_restores_status_witness :
  status (setupDevice (fun _ => 0)
            (flash (setStatusHandler (fun _ => 0) (fun _ => 0) (fun _ => 0)
                      {[ "status" := "TALK" ]} bootDevice)))
  = talkStatus.
Proof.
  destruct (reboot_restores_status (fun _ => 0) (fun _ => 0) (fun _ => 0)
              bootDevice bootStatus_valid) as (H & _).
  rewrite (H {[ "status" := "TALK" ]}) by (vm_compute; reflexivity).
  vm_compute. reflexivity.
Defined.

(** ** Flash and status in step *)

Lemma loadStatus_eq (m : gmap string PrefVal) :
  loadStatus m =
  mkStatus (getBool m "isBusy" true)
    (strncpy (getString m "customText" "BUSY") 31)
    (getUInt m "customColor" TFT_RED)
    [CustomStatus.mk (strncpy (getString m "customText1" "CUSTOM1") 31)
                     (getUInt m "customColor1" TFT_BLUE);
     CustomStatus.mk (strncpy (getString m "customText2" "CUSTOM2") 31)
                     (getUInt m "customColor2" TFT_BLUE);
     CustomStatus.mk (strncpy (getString m "customText3" "CUSTOM3") 31)
                     (getUInt m "customColor3" TFT_BLUE)]
    (getBool m "showBattery" true) (getInt m "showCornerInfo" 1) false.
Proof. reflexivity. Qed.

Ltac lookups :=
  unfold getBool, getString, getUInt, getInt;
  repeat first [ rewrite lookup_insert_eq
               | rewrite lookup_insert_ne by discriminate ].

Lemma load_put_rotation (v : PrefVal) (f : Flash) :
  loadStatus (prefs (put "screenRotation" v f)) = loadStatus (prefs f).
Proof.
  rewrite !loadStatus_eq. cbn [put prefs]. lookups. reflexivity.
Qed.

Lemma load_after_slot_save (st : StatusState) (f : Flash) :
  validStatus st ->
  loadStatus (prefs (saveCustomStatuses st f)) =
  mkStatus (isBusy (loadStatus (prefs f))) (customText (loadStatus (prefs f)))
           (customColor (loadStatus (prefs f))) (customStatuses st)
           (showBattery (loadStatus (prefs f)))
           (showCornerInfo (loadStatus (prefs f))) false.
Proof.
  intros (_ & _ & Hl & Hs).
  rewrite !loadStatus_eq. unfold saveCustomStatuses.
  change (upto 3) with [0; 1; 2]. cbn [fold_left put prefs].
  change (slotKey "customText" 0) with "customText1".
  change (slotKey "customText" 1) with "customText2".
  change (slotKey "customText" 2) with "customText3".
  change (slotKey "customColor" 0) with "customColor1".
  change (slotKey "customColor" 1) with "customColor2".
  change (slotKey "customColor" 2) with "customColor3".
  cbn [isBusy customText customColor showBattery showCornerInfo].
  lookups.
  rewrite !(fitsBuffer_copy _ (proj1 (slotAt_valid st _ Hs))).
  rewrite (slots_of_three st Hl) at 1.
  destruct (slotAt st 0), (slotAt st 1), (slotAt st 2). reflexivity.
Qed.

Lemma setNeedSave_clean (st : StatusState) :
  needSaveStatus st = false -> setNeedSave st false = st.
Proof. destruct st. cbn. intros ->. reflexivity. Qed.

Lemma saved_inSync (d : Device) (f : Flash) :
  validStatus (status d) -> flash d = saveAll (status d) f -> inSync d.
Proof.
  intros Hv Hf Hn. rewrite Hf, load_after_save by exact Hv.
  apply setNeedSave_clean. exact Hn.
Qed.

Section Sync.
Variables textWidth toInt strtol16 : string -> Z.
Variable targetPoints : list TargetPoint.
Variable cellColour : Z -> Z -> Z -> Z.

Lemma slotOps_frame (i : Z) (req : gmap string string) (st : StatusState) :
  let st' := runOps (setCustomStatusOps strtol16 i req) st in
  isBusy st' = isBusy st /\ customText st' = customText st /\
  customColor st' = customColor st /\ showBattery st' = showBattery st /\
  showCornerInfo st' = showCornerInfo st /\
  needSaveStatus st' = needSaveStatus st.
Proof.
  unfold setCustomStatusOps.
  destruct (strlen (arg req "text") <=? 20);
    destruct (parseColor strtol16 (arg req "color"));
    cbn; repeat split; reflexivity.
Qed.

Lemma setCustomStatus_sync (i : Z) (req : gmap string string) (d : Device) :
  validStatus (status d) -> inSync d ->
  inSync (setCustomStatusHandler strtol16 i req d).
Proof.
  intros Hv Hs Hn.
  pose proof (setCustomStatusHandler_valid strtol16 i req d Hv) as Hv'.
  unfold setCustomStatusHandler in *.
  cbn [status flash withFlash withStatus] in *.
  destruct (slotOps_frame i req (status d)) as (H1 & H2 & H3 & H4 & H5 & H6).
  rewrite load_after_slot_save by exact Hv'.
  rewrite Hs by congruence.
  rewrite <- H1, <- H2, <- H3, <- H4, <- H5, <- Hn.
  destruct (runOps _ _). reflexivity.
Qed.

Lemma rotation_sync (p : Pins) (d : Device) :
  inSync d -> inSync (fst (rotationButton p d)).
Proof.
  intros Hs. unfold rotationButton.
  repeat match goal with |- context [if ?b then _ else _] => destruct b end;
    cbn [fst]; intros Hn;
    cbn [flash status withButtons withFlash withRunning displayStatus
         withScreen] in *;
    rewrite ?load_put_rotation; apply Hs; exact Hn.
Qed.

Lemma poll_sync (p : Pins) (d d' : Device) :
  validStatus (status d) -> inSync d ->
  handleButtonPress textWidth p d = Returned d' -> inSync d'.
Proof.
  intros Hv Hs Hp.
  pose proof (poll_valid textWidth p d d' Hv Hp) as Hv'.
  unfold handleButtonPress in Hp.
  pose proof (rotation_sync p d Hs) as Hr.
  destruct (rotationButton p d) as [d1 flag]. cbn [fst snd] in *.
  destruct flag; [injection Hp as <-; exact Hr|].
  destruct (mainButton_flash textWidth p d1 d' Hp) as [[Hst Hf]|Hf].
  - unfold inSync. rewrite Hst, Hf. exact Hr.
  - eapply saved_inSync; eassumption.
Qed.

Lemma updateMarquee_flash (t w : Z) (dm : Device * Marquee) :
  flash (fst (updateMarqueeIfNeeded t w dm)) = flash (fst dm).
Proof.
  unfold updateMarqueeIfNeeded.
  repeat match goal with |- context [if ?b then _ else _] => destruct b end;
    reflexivity.
Qed.

Lemma saveCheck_sync (t : Z) (dl : Device * Z) :
  validStatus (status (fst dl)) -> inSync (fst dl) ->
  inSync (fst (saveCheck t dl)).
Proof.
  intros Hv Hs. unfold saveCheck.
  destruct (_ >=? _); [|exact Hs].
  destruct (needSaveStatus (status (fst dl))) eqn:Hn; [|exact Hs].
  cbn [fst]. intros _. unfold reallySaveStatus.
  cbn [flash status withStatus withFlash].
  apply load_after_save. exact Hv.
Qed.

Lemma overlap_breaks_sync (req : gmap string string) (d : Device) :
  validStatus (status d) ->
  0 < strlen (arg req "customText") <= 20 ->
  strncpy (arg req "customText") 31 <> customText (status d) ->
  ~ inSync (fst (interleave textWidth overlapped
                   (serverSetCustomStmts strtol16 req) reallySaveStmts d)).
Proof.
  intros Hv Hlen Hne.
  destruct (overlapped_device textWidth strtol16 req d Hlen)
    as (_ & Htext & Hflag & Hold & _).
  cbv zeta in Htext, Hflag, Hold.
  revert Htext Hflag Hold.
  generalize (fst (interleave textWidth overlapped
                     (serverSetCustomStmts strtol16 req) reallySaveStmts d)).
  intros d' Htext Hflag Hold Hs.
  specialize (Hs Hflag). apply (f_equal customText) in Hs.
  rewrite loadStatus_eq in Hs. cbn [customText] in Hs.
  unfold getString in Hs. rewrite Hold, Htext in Hs.
  rewrite (fitsBuffer_copy _ (proj1 Hv)) in Hs.
  apply Hne. symmetry. exact Hs.
Qed.

(** X8.  Flash and status stay in step between overlaps, and only then.
    The property "unless a deferred save is pending, a reboot would
    bring back the status exactly as it is" holds of the device as
    [setup] leaves it, and every route and every pass of the display
    task keeps it when each runs to its end before the next begins.
    It does not survive an overlap of the two tasks: when a free text
    command with a new text is served while the flush is between its
    write of the text and its clearing of the flag, the flag ends up
    clear with the flash holding the old text. *)
Theorem flash_tracks_status_between_overlaps (s : System) :
  validStatus (status (dev s)) -> inSync (dev s) ->
  (forall r req, inSync (dev (serve textWidth toInt strtol16 r req s))) /\
  (forall p e tm w t s' drawn,
     updateDisplayPass textWidth targetPoints cellColour p e tm w t s
       = Continues s' drawn ->
     inSync (dev s')) /\
  (forall f, inSync (setupDevice textWidth f)) /\
  (forall req,
     0 < strlen (arg req "customText") <= 20 ->
     strncpy (arg req "customText") 31 <> customText (status (dev s)) ->
     ~ inSync (fst (interleave textWidth overlapped
                      (serverSetCustomStmts strtol16 req) reallySaveStmts
                      (dev s)))).
Proof.
  intros Hv Hs. split; [|split; [|split]].
  - intros r req. destruct r; cbn [serve dev].
    + eapply saved_inSync; [|reflexivity].
      unfold setCornerInfoHandler. cbn [status displayStatus saveStatus
        withFlash withStatus withScreen].
      destruct (hasArg req "cornerInfo"); exact Hv.
    + eapply saved_inSync; [|reflexivity]. exact Hv.
    + pose proof (setStatusHandler_valid textWidth toInt strtol16 req (dev s) Hv)
        as Hv'.
      unfold setStatusHandler in *.
      destruct (_ && _).
      * intros Hn. discriminate Hn.
      * eapply saved_inSync; [exact Hv'|reflexivity].
    + apply setCustomStatus_sync; assumption.
    + exact Hs.
    + exact Hs.
  - intros p e tm w t s' drawn. unfold updateDisplayPass.
    destruct (gameOfLifeRunning (dev s)).
    + destruct (handleButtonPress textWidth p (dev s)) as [d1| |] eqn:Hp;
        try discriminate.
      destruct (stepGameOfLife _ _ e (gol s)) as [[g1 evs]|]; [|discriminate].
      intros [= <- _]. cbn [dev]. exact (poll_sync p (dev s) d1 Hv Hs Hp).
    + destruct (handleButtonPress textWidth p (dev s)) as [d1| |] eqn:Hp;
        try discriminate.
      intros [= <- _]. cbn [dev].
      assert (Hv1 : validStatus (status d1)) by (eapply poll_valid; eassumption).
      assert (Hs1 : inSync d1) by exact (poll_sync p (dev s) d1 Hv Hs Hp).
      assert (Hm : status (fst (updateMarqueeIfNeeded tm w (d1, marquee s)))
                   = status d1) by apply updateMarquee_status.
      assert (Hf : flash (fst (updateMarqueeIfNeeded tm w (d1, marquee s)))
                   = flash d1) by apply updateMarquee_flash.
      apply saveCheck_sync; cbn [fst].
      * destruct (_ >=? _); cbn [status displayStatus withScreen];
          rewrite Hm; exact Hv1.
      * unfold inSync.
        destruct (_ >=? _); cbn [status flash displayStatus withScreen];
          rewrite Hm, Hf; exact Hs1.
  - intros f Hn. reflexivity.
  - intros req Hlen Hne. apply overlap_breaks_sync; assumption.
Qed.

End Sync.

Lemma bootDevice_inSync : inSync bootDevice.
Proof. intros _. vm_compute. reflexivity. Qed.

Lemma flash_tracks_status_between_overlaps_witness :
  loadStatus (prefs (flash (dev
    (serve (fun _ => 0) (fun _ => 0) (fun _ => 0) (SetCustomStatus 1)
       {[ "text" := "LUNCH" ]}
       (mkSystem bootDevice golBoot (mkMarquee false 0 []) 0 0)))))
  = status (dev
      (serve (fun _ => 0) (fun _ => 0) (fun _ => 0) (SetCustomStatus 1)
         {[ "text" := "LUNCH" ]}
         (mkSystem bootDevice golBoot (mkMarquee false 0 []) 0 0))).
Proof.
  destruct (flash_tracks_status_between_overlaps (fun _ => 0) (fun _ => 0) (fun _ => 0) []
              (fun _ _ _ => 0)
              (mkSystem bootDevice golBoot (mkMarquee false 0 []) 0 0))
    as [H _].
  - apply bootStatus_valid.
  - apply bootDevice_inSync.
  - apply (H (SetCustomStatus 1) {[ "text" := "LUNCH" ]}).
    vm_compute. reflexivity.
Defined.

(** ** The rotation button *)

Section Rotation.
Variable textWidth : string -> Z.

(** X9.  An accepted press of the rotation button, with no animation running
    and the main button idle, sets the rotation to 1 when the last one
    this boot set was 3 (or none), and to 3 when it was 1; the new value
    is written to flash at once, where the next boot finds it.  Since
    [lastRotation] starts at 3 at every boot, the first accepted press
    after a boot always gives rotation 1, whatever rotation was loaded. *)
Theorem rotation_press (p : Pins) (d : Device) :
  anglePressed p = true ->
  300 < u32 (nowAngle p - lastPress (buttons d)) ->
  gameOfLifeRunning d = false ->
  buttonPressed p = false -> buttonWasPressed (buttons d) = false ->
  exists d',
    handleButtonPress textWidth p d = Returned d' /\
    rotation (screen d') = (if lastRotation (buttons d) =? 1 then 3 else 1) /\
    lastRotation (buttons d') = rotation (screen d') /\
    lastPress (buttons d') = nowAngle p /\
    getInt (prefs (flash d')) "screenRotation" 3 = rotation (screen d') /\
    status d' = status d /\
    (forall f, lastRotation (buttons (setupDevice textWidth f)) = 3).
Proof.
  intros Ha Hs Hr Hp Hw.
  unfold handleButtonPress, rotationButton. rewrite Ha, Hr.
  destruct (Z.gtb_spec (u32 (nowAngle p - lastPress (buttons d))) 300); [|lia].
  cbn [fst snd]. unfold mainButton.
  cbn [buttons withButtons withFlash displayStatus withScreen buttonWasPressed
       status gameOfLifeRunning screen flash].
  rewrite Hp, Hw. cbn [andb negb].
  eexists. split; [reflexivity|].
  cbn [screen setButtonState withButtons withFlash displayStatus withScreen
       rotation buttons lastRotation lastPress flash put prefs status].
  repeat split.
  unfold getInt. rewrite lookup_insert_eq. reflexivity.
Qed.

End Rotation.

Lemma rotation_press_witness :
  exists d',
    handleButtonPress (fun _ => 0) (mkPins true 5000 false 5000)
      (setupDevice (fun _ => 0)
         (put "screenRotation" (PInt 1) (mkFlash ∅ []))) = Returned d' /\
    rotation (screen d') = 1.
Proof.
  destruct (rotation_press (fun _ => 0) (mkPins true 5000 false 5000)
              (setupDevice (fun _ => 0)
                 (put "screenRotation" (PInt 1) (mkFlash ∅ []))))
    as (d' & Hd & Hrot & _); try reflexivity.
  exists d'. split; [exact Hd|]. rewrite Hrot. reflexivity.
Defined.

(** ** Polls of the main button *)

Lemma cycleLoop_total (st : StatusState) (idx : Z) :
  exists r, cycleLoop 4 st idx 0 = Some r.
Proof.
  cbn [cycleLoop]. generalize (Z.rem (idx + 1) 5). intros i1.
  destruct (Z.leb_spec 2 i1) as [H2|H2]; [|eexists; reflexivity].
  destruct (Z.leb_spec i1 4) as [H4|H4]; [|eexists; reflexivity].
  assert (Hc : i1 = 2 \/ i1 = 3 \/ i1 = 4) by lia.
  destruct (strlen (CustomStatus.text (slotAt st 0)) =? 0) eqn:E0;
  destruct (strlen (CustomStatus.text (slotAt st 1)) =? 0) eqn:E1;
  destruct (strlen (CustomStatus.text (slotAt st 2)) =? 0) eqn:E2;
  destruct Hc as [->|[-> | ->]];
  probe E0 E1 E2; eexists; reflexivity.
Qed.

Section MainButton.
Variable textWidth : string -> Z.

Lemma rotation_index (p : Pins) (d : Device) :
  statusIndex (buttons (fst (rotationButton p d))) = statusIndex (buttons d).
Proof.
  unfold rotationButton.
  repeat match goal with |- context [if ?b then _ else _] => destruct b end;
    reflexivity.
Qed.

Lemma mainButton_index (p : Pins) (d : Device) :
  0 <= statusIndex (buttons d) < 5 ->
  match mainButton textWidth p d with
  | Returned d' => 0 <= statusIndex (buttons d') < 5
  | DeepSleep _ => True
  | Spinning => False
  end.
Proof.
  intros Hi. unfold mainButton.
  destruct (cycleLoop_spec (status d) _ Hi) as (idx' & tries & Hc & _ & Hr & _).
  rewrite Hc.
  repeat match goal with |- context [if ?b then _ else _] => destruct b end;
    cbn; try exact I; try exact Hi; exact Hr.
Qed.

Lemma mainButton_never_spins (p : Pins) (d : Device) :
  mainButton textWidth p d <> Spinning.
Proof.
  unfold mainButton.
  destruct (cycleLoop_total (status d) (statusIndex (buttons d))) as [[i t] Hc].
  rewrite Hc.
  repeat match goal with |- context [if ?b then _ else _] => destruct b end;
    discriminate.
Qed.

(** X10.  No poll of the buttons is caught in the probe loop, whatever the
    state; and along any sequence of polls from a state whose status
    index lies in 0..4, the run never ends in the probe loop and the
    index stays in 0..4. *)
Theorem polls_keep_index (ps : list Pins) (d : Device) :
  0 <= statusIndex (buttons d) < 5 ->
  (forall p d0, handleButtonPress textWidth p d0 <> Spinning) /\
  match runPolls textWidth ps d with
  | Returned d' => 0 <= statusIndex (buttons d') < 5
  | DeepSleep _ => True
  | Spinning => False
  end.
Proof.
  intros Hi. split.
  - intros p d0. unfold handleButtonPress.
    destruct (snd (rotationButton p d0)); [discriminate|].
    apply mainButton_never_spins.
  - revert d Hi. induction ps as [|p ps IH]; intros d Hi; [exact Hi|].
    cbn [runPolls]. unfold handleButtonPress.
    pose proof (rotation_index p d) as Hri.
    destruct (rotationButton p d) as [d1 flag]. cbn [fst snd] in *.
    destruct flag.
    + apply IH. rewrite Hri. exact Hi.
    + pose proof (mainButton_index p d1 ltac:(rewrite Hri; exact Hi)) as Hm.
      destruct (mainButton textWidth p d1) as [d2| |]; [|exact I|contradiction].
      apply IH. exact Hm.
Qed.

End MainButton.

Lemma polls_keep_index_witness :
  match runPolls (fun _ => 0)
          [mkPins false 1000 true 1000; mkPins false 1100 false 1100;
           mkPins false 2000 true 2000; mkPins false 2100 false 2100]
          bootDevice with
  | Returned d' => 0 <= statusIndex (buttons d') < 5
  | DeepSleep _ => True
  | Spinning => False
  end.
Proof.
  apply (polls_keep_index (fun _ => 0)
           [mkPins false 1000 true 1000; mkPins false 1100 false 1100;
            mkPins false 2000 true 2000; mkPins false 2100 false 2100]
           bootDevice).
  vm_compute. split; [discriminate|reflexivity].
Defined.

Section Clicks.
Variable textWidth : string -> Z.

Lemma hold_poll (h : Pins) (d : Device) :
  anglePressed h = false -> buttonPressed h = true ->
  buttonWasPressed (buttons d) = true ->
  handleButtonPress textWidth h d =
  Returned (setButtonState d (buttonPressTime (buttons d)) true).
Proof.
  intros Ha Hp Hw. rewrite (rotation_button_up textWidth h d Ha).
  unfold mainButton. rewrite Hp, Hw. reflexivity.
Qed.

Lemma hold_polls (holds : list Pins) (d : Device) :
  Forall (fun h => anglePressed h = false /\ buttonPressed h = true) holds ->
  buttonWasPressed (buttons d) = true ->
  exists d1,
    runPolls textWidth holds d = Returned d1 /\
    buttonWasPressed (buttons d1) = true /\
    buttonPressTime (buttons d1) = buttonPressTime (buttons d) /\
    lastPress (buttons d1) = lastPress (buttons d) /\
    statusIndex (buttons d1) = statusIndex (buttons d) /\
    gameOfLifeRunning d1 = gameOfLifeRunning d /\
    status d1 = status d /\ flash d1 = flash d.
Proof.
  intros Hall. revert d. induction Hall as [|h holds [Ha Hp] _ IH]; intros d Hw.
  - exists d. repeat split; assumption.
  - cbn [runPolls]. rewrite (hold_poll h d Ha Hp Hw).
    destruct (IH (setButtonState d (buttonPressTime (buttons d)) true) eq_refl)
      as (d1 & Hrun & H1 & H2 & H3 & H4 & H5 & H6 & H7).
    exists d1. split; [exact Hrun|]. repeat split; assumption.
Qed.

(** X11.  The press is timed from its first poll: after the poll that sees the
    button go down at [t0] and any number of polls that see it still
    down, whenever they happen, nothing but the button state has
    changed, the device has not gone to sleep, and a release at time [t]
    finds a press of [t - t0] milliseconds (modulo 2^32). *)
Theorem press_is_timed_from_edge (ta t0 : Z) (holds : list Pins) (d : Device) :
  buttonWasPressed (buttons d) = false ->
  Forall (fun h => anglePressed h = false /\ buttonPressed h = true) holds ->
  exists d1,
    runPolls textWidth (mkPins false ta true t0 :: holds) d = Returned d1 /\
    buttonWasPressed (buttons d1) = true /\
    status d1 = status d /\ flash d1 = flash d /\
    statusIndex (buttons d1) = statusIndex (buttons d) /\
    forall p, pressDuration p d1 = u32 (now p - t0).
Proof.
  intros Hw Hall. cbn [runPolls].
  rewrite (rotation_button_up textWidth (mkPins false ta true t0) d eq_refl).
  unfold mainButton. cbn [buttonPressed]. rewrite Hw. cbn [andb negb now].
  destruct (hold_polls holds (setButtonState d t0 true) Hall eq_refl)
    as (d1 & Hrun & H1 & H2 & H3 & H4 & H5 & H6 & H7).
  exists d1. split; [exact Hrun|]. split; [exact H1|].
  split; [exact H6|]. split; [exact H7|]. split; [exact H4|].
  intros p. unfold pressDuration. rewrite H2. reflexivity.
Qed.

(** X12.  A second click inside the debounce window does nothing: when a short
    press has just cycled the status at time [now p1], a further press
    and release, itself a short press, whose release comes within 300 ms
    of [now p1] leaves status, index and flash as the first click left
    them. *)
Theorem second_click_is_dropped (p1 p2 p3 : Pins) (d : Device) :
  releases p1 d -> 0 <= statusIndex (buttons d) < 5 ->
  30 < pressDuration p1 d < 3000 ->
  300 < u32 (now p1 - lastPress (buttons d)) ->
  gameOfLifeRunning d = false ->
  anglePressed p2 = false -> buttonPressed p2 = true ->
  anglePressed p3 = false -> buttonPressed p3 = false ->
  30 < u32 (now p3 - now p2) < 3000 ->
  u32 (now p3 - now p1) <= 300 ->
  exists d1 d3,
    handleButtonPress textWidth p1 d = Returned d1 /\
    statusIndex (buttons d1) <> statusIndex (buttons d) /\
    runPolls textWidth [p2; p3] d1 = Returned d3 /\
    status d3 = status d1 /\
    statusIndex (buttons d3) = statusIndex (buttons d1) /\
    flash d3 = flash d1.
Proof.
  intros (Ha1 & Hp1 & Hw1) Hidx Hdur Hlast Hrun Ha2 Hp2 Ha3 Hp3 Hdur3 Hclose.
  rewrite (rotation_button_up textWidth p1 d Ha1).
  rewrite (mainButton_release textWidth p1 d Hp1 Hw1).
  unfold longPressDuration.
  destruct (Z.geb_spec (pressDuration p1 d) 3000); [lia|].
  destruct (Z.gtb_spec (pressDuration p1 d) 30); [|lia].
  destruct (Z.gtb_spec (u32 (now p1 - lastPress (buttons d))) 300); [|lia].
  rewrite Hrun.
  destruct (cycleLoop_spec (status d) _ Hidx) as (idx' & tries & Hc & _).
  destruct (cycleLoop_moves _ _ _ _ Hidx Hc) as [_ Hne].
  rewrite Hc. cbv zeta.
  match goal with
  | |- exists d1 d3, Returned ?x = Returned d1 /\ _ => set (d1 := x)
  end.
  assert (Hw : buttonWasPressed (buttons d1) = false) by reflexivity.
  assert (Hl : lastPress (buttons d1) = now p1) by reflexivity.
  assert (Hi : statusIndex (buttons d1) = idx') by reflexivity.
  clearbody d1.
  exists d1, (setButtonState (setButtonState d1 (now p2) true) 0 false).
  split; [reflexivity|]. split; [rewrite Hi; exact Hne|].
  cbn [runPolls].
  rewrite (rotation_button_up textWidth p2 _ Ha2).
  unfold mainButton at 1. rewrite Hp2, Hw. cbn [andb negb].
  rewrite (rotation_button_up textWidth p3 _ Ha3).
  rewrite (mainButton_release textWidth p3 (setButtonState d1 (now p2) true)
             Hp3 eq_refl).
  unfold pressDuration, longPressDuration.
  change (buttonPressTime (buttons (setButtonState d1 (now p2) true)))
    with (now p2).
  change (lastPress (buttons (setButtonState d1 (now p2) true)))
    with (lastPress (buttons d1)).
  rewrite Hl.
  destruct (Z.geb_spec (u32 (now p3 - now p2)) 3000); [lia|].
  destruct (Z.gtb_spec (u32 (now p3 - now p2)) 30); [|lia].
  destruct (Z.gtb_spec (u32 (now p3 - now p1)) 300); [lia|].
  split; [reflexivity|]. repeat split.
Qed.

(** X13.  The two buttons share one debounce timer: when a poll accepts a
    press of the rotation button and sees, in the same poll, the release
    of a short press of the main button read within 300 ms of it, the
    rotation changes and the short press is lost. *)
Theorem rotation_press_swallows_short_press (p : Pins) (d : Device) :
  anglePressed p = true ->
  300 < u32 (nowAngle p - lastPress (buttons d)) ->
  gameOfLifeRunning d = false ->
  buttonPressed p = false -> buttonWasPressed (buttons d) = true ->
  30 < pressDuration p d < 3000 ->
  u32 (now p - nowAngle p) <= 300 ->
  exists d',
    handleButtonPress textWidth p d = Returned d' /\
    rotation (screen d') = (if lastRotation (buttons d) =? 1 then 3 else 1) /\
    status d' = status d /\
    statusIndex (buttons d') = statusIndex (buttons d).
Proof.
  intros Ha Hs Hr Hp Hw Hdur Hclose.
  unfold handleButtonPress, rotationButton. rewrite Ha, Hr.
  destruct (Z.gtb_spec (u32 (nowAngle p - lastPress (buttons d))) 300); [|lia].
  cbn [fst snd].
  match goal with
  | |- exists d', mainButton _ _ ?x = _ /\ _ => set (d1 := x)
  end.
  assert (Hw1 : buttonWasPressed (buttons d1) = true) by exact Hw.
  assert (Ht : buttonPressTime (buttons d1) = buttonPressTime (buttons d))
    by reflexivity.
  assert (Hl : lastPress (buttons d1) = nowAngle p) by reflexivity.
  assert (Hrot : rotation (screen d1) =
                 if lastRotation (buttons d) =? 1 then 3 else 1) by reflexivity.
  assert (Hst : status d1 = status d) by reflexivity.
  assert (Hi : statusIndex (buttons d1) = statusIndex (buttons d))
    by reflexivity.
  clearbody d1.
  rewrite (mainButton_release textWidth p d1 Hp Hw1).
  unfold pressDuration in *. unfold longPressDuration. rewrite Ht, Hl.
  destruct (Z.geb_spec (u32 (now p - buttonPressTime (buttons d))) 3000); [lia|].
  destruct (Z.gtb_spec (u32 (now p - buttonPressTime (buttons d))) 30); [|lia].
  destruct (Z.gtb_spec (u32 (now p - nowAngle p)) 300); [lia|].
  eexists. split; [reflexivity|]. repeat split; assumption.
Qed.

End Clicks.

Lemma press_is_timed_from_edge_witness :
  exists d1,
    runPolls (fun _ => 0)
      (mkPins false 0 true 1000 ::
       [mkPins false 1020 true 1020; mkPins false 1500 true 1500]) bootDevice
    = Returned d1 /\
    buttonWasPressed (buttons d1) = true /\
    status d1 = status bootDevice /\ flash d1 = flash bootDevice /\
    statusIndex (buttons d1) = statusIndex (buttons bootDevice) /\
    forall p, pressDuration p d1 = u32 (now p - 1000).
Proof.
  apply (press_is_timed_from_edge (fun _ => 0) 0 1000
           [mkPins false 1020 true 1020; mkPins false 1500 true 1500]
           bootDevice).
  - reflexivity.
  - repeat constructor.
Defined.

Lemma second_click_is_dropped_witness :
  exists d1 d3,
    handleButtonPress (fun _ => 0) (mkPins false 1100 false 1100)
      (setButtonState bootDevice 1000 true) = Returned d1 /\
    statusIndex (buttons d1) <>
    statusIndex (buttons (setButtonState bootDevice 1000 true)) /\
    runPolls (fun _ => 0)
      [mkPins false 1150 true 1150; mkPins false 1250 false 1250] d1
    = Returned d3 /\
    status d3 = status d1 /\
    statusIndex (buttons d3) = statusIndex (buttons d1) /\
    flash d3 = flash d1.
Proof.
  apply (second_click_is_dropped (fun _ => 0)
           (mkPins false 1100 false 1100) (mkPins false 1150 true 1150)
           (mkPins false 1250 false 1250)
           (setButtonState bootDevice 1000 true));
    vm_compute; repeat split; try reflexivity; try discriminate.
Defined.

Lemma rotation_press_swallows_short_press_witness :
  exists d',
    handleButtonPress (fun _ => 0) (mkPins true 1100 false 1100)
      (setButtonState bootDevice 1000 true) = Returned d' /\
    rotation (screen d') = 1 /\
    status d' = status (setButtonState bootDevice 1000 true) /\
    statusIndex (buttons d') =
    statusIndex (buttons (setButtonState bootDevice 1000 true)).
Proof.
  apply (rotation_press_swallows_short_press (fun _ => 0)
           (mkPins true 1100 false 1100)
           (setButtonState bootDevice 1000 true));
    vm_compute; repeat split; try reflexivity; try discriminate.
Defined.

(** ** The button's index and the web *)

Section IndexAndWeb.
Variables textWidth toInt strtol16 : string -> Z.

Lemma serve_buttons (r : Route) (req : gmap string string) (s : System) :
  buttons (dev (serve textWidth toInt strtol16 r req s)) = buttons (dev s).
Proof.
  destruct r; cbn [serve dev]; try reflexivity.
  - unfold setStatusHandler. destruct (_ && _); reflexivity.
Qed.

(** X14.  The web never moves the button's place in the cycle, so the two can
    disagree: no route changes the button state, and when the status is
    set to TALK over the web while the button's index is still 0 (as it
    is after every boot), the next short press moves the index to 1 and
    shows TALK again: the press changes nothing on the screen. *)
Theorem press_after_web_talk_shows_talk (req : gmap string string) (p : Pins)
    (s : System) :
  c_str (arg req "status") = "TALK" ->
  statusIndex (buttons (dev s)) = 0 ->
  releases p (dev s) -> 30 < pressDuration p (dev s) < 3000 ->
  300 < u32 (now p - lastPress (buttons (dev s))) ->
  gameOfLifeRunning (dev s) = false ->
  let s1 := serve textWidth toInt strtol16 SetStatus req s in
  (forall r req' s0,
     buttons (dev (serve textWidth toInt strtol16 r req' s0)) = buttons (dev s0)) /\
  shown (status (dev s1)) = ("LET'S TALK", TFT_GREEN) /\
  exists d2,
    handleButtonPress textWidth p (dev s1) = Returned d2 /\
    statusIndex (buttons d2) = 1 /\
    shown (status d2) = shown (status (dev s1)) /\
    isBusy (status d2) = isBusy (status (dev s1)).
Proof.
  intros Ha Hi (Hup & Hp & Hw) Hdur Hlast Hrun s1.
  split; [intros r req' s0; apply serve_buttons|].
  assert (Hd1 : dev s1 =
                saveStatus (displayStatus (resetMarquee textWidth
                  (withStatus (dev s)
                     (runOps [SetIsBusy false; SetCustomText "LET'S TALK";
                              SetCustomColor TFT_GREEN] (status (dev s))))))).
  { unfold s1. cbn [serve dev]. unfold setStatusHandler, setStatusOps.
    rewrite Ha. reflexivity. }
  rewrite Hd1. split; [reflexivity|].
  match goal with |- context [handleButtonPress _ _ ?x] => set (d1 := x) end.
  assert (Hw1 : buttonWasPressed (buttons d1) = true) by exact Hw.
  rewrite (rotation_button_up textWidth p d1 Hup).
  rewrite (mainButton_release textWidth p d1 Hp Hw1).
  unfold pressDuration in *. unfold longPressDuration. subst d1.
  cbn [buttons saveStatus withFlash displayStatus withScreen resetMarquee
       withStatus buttonPressTime lastPress gameOfLifeRunning screen].
  destruct (Z.geb_spec (u32 (now p - buttonPressTime (buttons (dev s)))) 3000);
    [lia|].
  destruct (Z.gtb_spec (u32 (now p - buttonPressTime (buttons (dev s)))) 30);
    [|lia].
  destruct (Z.gtb_spec (u32 (now p - lastPress (buttons (dev s)))) 300); [|lia].
  rewrite Hrun, Hi.
  change (cycleLoop 4 ?st 0 0) with (Some (1, 1)). cbv zeta.
  eexists. split; [reflexivity|]. repeat split.
Qed.

End IndexAndWeb.

Lemma press_after_web_talk_shows_talk_witness :
  exists d2,
    handleButtonPress (fun _ => 0) (mkPins false 1100 false 1100)
      (dev (serve (fun _ => 0) (fun _ => 0) (fun _ => 0) SetStatus
              {[ "status" := "TALK" ]}
              (mkSystem (setButtonState bootDevice 1000 true) golBoot
                        (mkMarquee false 0 []) 0 0))) = Returned d2 /\
    statusIndex (buttons d2) = 1 /\
    shown (status d2) = ("LET'S TALK", TFT_GREEN).
Proof.
  destruct (press_after_web_talk_shows_talk (fun _ => 0) (fun _ => 0) (fun _ => 0)
              {[ "status" := "TALK" ]} (mkPins false 1100 false 1100)
              (mkSystem (setButtonState bootDevice 1000 true) golBoot
                        (mkMarquee false 0 []) 0 0))
    as (_ & Hs & d2 & Hp & Hi & Hsh & _);
    try (vm_compute; repeat split; reflexivity || discriminate).
  exists d2. split; [exact Hp|]. split; [exact Hi|].
  rewrite Hsh. exact Hs.
Defined.

(** ** The routes *)

Lemma custom_prefix_not_preset (a : string) :
  String.prefix "CUSTOM" a = true ->
  String.eqb (c_str a) "BUSY" = false /\ String.eqb (c_str a) "TALK" = false.
Proof.
  intros Hp. destruct a as [|c a]; [discriminate Hp|].
  cbn [String.prefix] in Hp.
  destruct (ascii_dec "C" c) as [<-|]; [|discriminate Hp].
  split; reflexivity.
Qed.

Section Routes.
Variables textWidth toInt strtol16 : string -> Z.

(** X15.  Picking a custom slot over the web.  A [/setStatus] request whose
    status starts with CUSTOM and has more after it takes the number
    that follows, less one, as the slot: when that is 0..2 and the slot
    has a text, the slot's text and colour become the status; otherwise
    the status stays as it is.  Either way the busy flag and the slots
    are left alone (the button sets the flag to false when it selects a
    slot, the web does not), the text is put back at the right edge, one
    full frame is drawn with the result, and all the fields are written
    to flash. *)
Theorem web_selects_slot (req : gmap string string) (d : Device) :
  let a := arg req "status" in
  let k := toInt (substring 6 (String.length a - 6) a) - 1 in
  let picked := (0 <=? k) && (k <? 3)
                && (0 <? strlen (CustomStatus.text (slotAt (status d) k))) in
  let d' := setStatusHandler textWidth toInt strtol16 req d in
  String.prefix "CUSTOM" a = true ->
  String.eqb (c_str a) "CUSTOM" = false ->
  shown (status d') =
    (if picked
     then (strncpy (CustomStatus.text (slotAt (status d) k)) 31,
           CustomStatus.color (slotAt (status d) k))
     else shown (status d)) /\
  isBusy (status d') = isBusy (status d) /\
  customStatuses (status d') = customStatuses (status d) /\
  needSaveStatus (status d') = needSaveStatus (status d) /\
  textX (screen d') = screenWidth /\
  frames (screen d') = frames (screen d) ++ [shown (status d')] /\
  flash d' = saveAll (status d') (flash d).
Proof.
  intros a k picked d' Hp Hc.
  destruct (custom_prefix_not_preset a Hp) as [Hb Ht].
  unfold d', setStatusHandler, setStatusOps. fold a.
  rewrite Hb, Ht, Hc, Hp. cbn [negb andb]. fold k. fold picked.
  destruct picked; cbn; repeat split; reflexivity.
Qed.

Lemma slotOps_shown (i : Z) (req : gmap string string) (st : StatusState) :
  let st' := runOps (setCustomStatusOps strtol16 i req) st in
  customText st' = customText st /\ customColor st' = customColor st /\
  isBusy st' = isBusy st.
Proof.
  unfold setCustomStatusOps.
  destruct (strlen (arg req "text") <=? 20);
    destruct (parseColor strtol16 (arg req "color"));
    cbn; repeat split; reflexivity.
Qed.

(** X16.  Only [/setStatus] changes what the screen says.  Every other route,
    whatever its arguments, leaves the status text, the status colour
    and the busy flag as they were; in particular saving a custom slot
    does not touch the status, even when the status was taken from that
    slot. *)
Theorem other_routes_keep_status (r : Route) (req : gmap string string)
    (s : System) :
  r <> SetStatus ->
  let s' := serve textWidth toInt strtol16 r req s in
  customText (status (dev s')) = customText (status (dev s)) /\
  customColor (status (dev s')) = customColor (status (dev s)) /\
  isBusy (status (dev s')) = isBusy (status (dev s)).
Proof.
  intros Hr s'. unfold s'. destruct r; cbn [serve dev]; try congruence.
  - unfold setCornerInfoHandler. cbn [status displayStatus saveStatus
      withFlash withStatus withScreen].
    destruct (hasArg req "cornerInfo"); repeat split; reflexivity.
  - repeat split; reflexivity.
  - unfold setCustomStatusHandler. cbn [status withFlash withStatus].
    apply slotOps_shown.
  - repeat split; reflexivity.
  - repeat split; reflexivity.
Qed.

End Routes.

Lemma web_selects_slot_witness :
  shown (status (setStatusHandler (fun _ => 0) (fun _ => 2) (fun _ => 0)
                   {[ "status" := "CUSTOM2" ]} bootDevice))
  = ("CUSTOM2", TFT_BLUE).
Proof.
  destruct (web_selects_slot (fun _ => 0) (fun _ => 2) (fun _ => 0)
              {[ "status" := "CUSTOM2" ]} bootDevice) as (H & _).
  - vm_compute. reflexivity.
  - vm_compute. reflexivity.
  - rewrite H. vm_compute. reflexivity.
Defined.

Lemma other_routes_keep_status_witness :
  customText (status (dev (serve (fun _ => 0) (fun _ => 0) (fun _ => 0)
                            (SetCustomStatus 0) {[ "text" := "LUNCH" ]}
                            (mkSystem bootDevice golBoot (mkMarquee false 0 []) 0 0))))
  = "BUSY".
Proof.
  destruct (other_routes_keep_status (fun _ => 0) (fun _ => 0) (fun _ => 0)
              (SetCustomStatus 0) {[ "text" := "LUNCH" ]}
              (mkSystem bootDevice golBoot (mkMarquee false 0 []) 0 0))
    as (H & _).
  - discriminate.
  - rewrite H. reflexivity.
Defined.

(** ** Passes of the display task *)

Section Passes.
Variable textWidth : string -> Z.
Variable targetPoints : list TargetPoint.
Variable cellColour : Z -> Z -> Z -> Z.





(** X19.  Stopping the animation over the web redraws nothing.  After
    [/stopthreebody], a pass that finds the buttons idle, no marquee and
    the battery refresh not yet due draws nothing at all: the panel keeps
    the last animation frame until something else draws the status. *)
Theorem web_stop_draws_nothing (toInt strtol16 : string -> Z)
    (req : gmap string string) (p : Pins) (e : Entropy) (tm w t : Z)
    (s : System) :
  anglePressed p = false -> buttonPressed p = false ->
  buttonWasPressed (buttons (dev s)) = false ->
  useMarquee (screen (dev s)) = false ->
  u32 (t - lastBatteryUpdate s) < 60000 ->
  let s1 := serve textWidth toInt strtol16 StopThreeBody req s in
  exists s',
    updateDisplayPass textWidth targetPoints cellColour p e tm w t s1
      = Continues s' [] /\
    gameOfLifeRunning (dev s') = false /\
    screen (dev s') = screen (dev s) /\ gol s' = gol s.
Proof.
  intros Ha Hb Hw Hm Hd s1. unfold s1, updateDisplayPass.
  cbn [serve dev gameOfLifeRunning withRunning gol marquee lastBatteryUpdate
       lastSaveCheck].
  rewrite (rotation_button_up textWidth p _ Ha).
  unfold mainButton. cbn [buttons withRunning]. rewrite Hb, Hw.
  cbn [andb negb].
  unfold updateMarqueeIfNeeded.
  cbn [fst snd screen setButtonState withButtons withRunning].
  rewrite Hm. cbn [negb fst snd].
  destruct (Z.geb_spec (u32 (t - lastBatteryUpdate s)) 60000); [lia|].
  unfold saveCheck. cbn [fst snd].
  eexists. split.
  - f_equal. unfold newFrames, newBands.
    cbn [screen setButtonState withButtons withRunning frames].
    rewrite !drop_all. reflexivity.
  - destruct (_ >=? _); [destruct (needSaveStatus _)|];
      cbn; repeat split; reflexivity.
Qed.

End Passes.



Lemma web_stop_draws_nothing_witness :
  exists s',
    updateDisplayPass (fun _ => 0) [] (fun _ _ _ => 0)
      (mkPins false 1000 false 1000) (mkEntropy (fun _ _ => 1) (fun l => l))
      1000 0 1000
      (serve (fun _ => 0) (fun _ => 0) (fun _ => 0) StopThreeBody ∅
         (mkSystem (withRunning bootDevice true) golBoot (mkMarquee false 0 []) 0 0))
    = Continues s' [] /\
    gameOfLifeRunning (dev s') = false.
Proof.
  destruct (web_stop_draws_nothing (fun _ => 0) [] (fun _ _ _ => 0)
              (fun _ => 0) (fun _ => 0) ∅
              (mkPins false 1000 false 1000)
              (mkEntropy (fun _ _ => 1) (fun l => l)) 1000 0 1000
              (mkSystem (withRunning bootDevice true) golBoot
                        (mkMarquee false 0 []) 0 0)
              eq_refl eq_refl eq_refl eq_refl ltac:(vm_compute; reflexivity))
    as (s' & Hp & Hoff & _).
  exists s'. split; [exact Hp|exact Hoff].
Defined.

(** ** The marquee *)

Lemma s16_small (v : Z) : - 32768 <= v < 32768 -> s16 v = v.
Proof.
  intros Hv. unfold s16. change (2 ^ 15) with 32768. change (2 ^ 16) with 65536.
  rewrite Z.mod_small by lia. lia.
Qed.

(** One due update, from the position [320 - 2k]. *)
Lemma marquee_tick (t w k : Z) (d : Device) (m : Marquee) :
  useMarquee (screen d) = true ->
  0 <= w <= 32766 -> 0 <= k <= (320 + w) / 2 ->
  textX (screen d) = 320 - 2 * k ->
  lastUpdate m = t ->
  let k' := (k + 1) mod ((320 + w) / 2 + 1) in
  updateMarqueeIfNeeded (t + updateInterval) w (d, m) =
  (withScreen d (mkScreen (320 - 2 * k') true (rotation (screen d))
                          (frames (screen d))),
   mkMarquee false (t + updateInterval)
     (bands m ++ [(customText (status d), customColor (status d), 320 - 2 * k')])).
Proof.
  intros Hm Hw Hk Hx Ht k'. unfold updateMarqueeIfNeeded.
  cbn [fst snd]. rewrite Hm, Ht, Hx. cbn [negb].
  replace (t + updateInterval - t) with 80 by (unfold updateInterval; lia).
  change (u32 80 >=? updateInterval) with true. cbv iota.
  unfold textSpeed, screenWidth.
  pose proof (Z.div_mod (320 + w) 2 ltac:(lia)) as Hdm.
  pose proof (Z.mod_pos_bound (320 + w) 2 ltac:(lia)) as Hmb.
  rewrite s16_small by lia.
  assert (Hk' : 320 - 2 * k' = if 320 - 2 * k - 2 <? - w then 320
                               else 320 - 2 * k - 2).
  { unfold k'. destruct (Z.ltb_spec (320 - 2 * k - 2) (- w)).
    - assert (k = (320 + w) / 2) as -> by lia.
      rewrite Z_mod_same_full. reflexivity.
    - rewrite Z.mod_small by lia. lia. }
  rewrite <- Hk'. reflexivity.
Qed.

Lemma marquee_run (n : nat) :
  forall (t w k : Z) (d : Device) (m : Marquee),
    useMarquee (screen d) = true ->
    0 <= w <= 32766 -> 0 <= k <= (320 + w) / 2 ->
    textX (screen d) = 320 - 2 * k ->
    lastUpdate m = t ->
    let P := (320 + w) / 2 + 1 in
    let dm := marqueeTicks n t w (d, m) in
    textX (screen (fst dm)) = 320 - 2 * ((k + Z.of_nat n) mod P) /\
    status (fst dm) = status d /\
    frames (screen (fst dm)) = frames (screen d) /\
    lastUpdate (snd dm) = t + updateInterval * Z.of_nat n /\
    exists bs,
      bands (snd dm) = bands m ++ bs /\ length bs = n /\
      forall i, (i < n)%nat ->
        bs !! i = Some (customText (status d), customColor (status d),
                        320 - 2 * ((k + Z.of_nat i + 1) mod P)).
Proof.
  induction n as [|n IH]; intros t w k d m Hm Hw Hk Hx Ht P dm.
  - subst dm. cbn [marqueeTicks fst snd].
    rewrite Z.add_0_r, Z.mod_small by (unfold P; lia).
    split; [exact Hx|]. split; [reflexivity|]. split; [reflexivity|].
    split; [lia|]. exists []. rewrite app_nil_r.
    split; [reflexivity|]. split; [reflexivity|]. intros i Hi. lia.
  - subst dm. cbn [marqueeTicks].
    rewrite (marquee_tick t w k d m Hm Hw Hk Hx Ht). cbv zeta. fold P.
    pose proof (Z.div_mod (320 + w) 2 ltac:(lia)) as Hdm.
    pose proof (Z.mod_pos_bound (320 + w) 2 ltac:(lia)) as Hmb.
    pose proof (Z.mod_pos_bound (k + 1) P ltac:(unfold P; lia)) as Hb.
    match goal with
    | |- context [marqueeTicks n ?t1 w (?d1, ?m1)] =>
        destruct (IH t1 w ((k + 1) mod P) d1 m1 eq_refl Hw
                    ltac:(fold P; lia) eq_refl eq_refl)
          as (H1 & H2 & H3 & H4 & bs & H5 & H6 & H7)
    end.
    fold P in H1, H7.
    split.
    { rewrite H1. rewrite Zplus_mod_idemp_l.
      replace (k + 1 + Z.of_nat n) with (k + Z.of_nat (S n)) by lia.
      reflexivity. }
    split; [exact H2|]. split; [exact H3|]. split; [rewrite H4; unfold updateInterval; lia|].
    eexists (_ :: bs). split.
    { rewrite H5. cbn [bands]. rewrite <- app_assoc. reflexivity. }
    split; [cbn [length]; lia|].
    intros [|i] Hi.
    + cbn [lookup list_lookup].
      replace (k + Z.of_nat 0 + 1) with (k + 1) by lia. reflexivity.
    + cbn [lookup list_lookup]. rewrite H7 by lia. cbn [status withScreen].
      replace ((k + 1) mod P + Z.of_nat i + 1)
        with ((k + 1) mod P + (Z.of_nat i + 1)) by lia.
      rewrite Zplus_mod_idemp_l.
      replace (k + 1 + (Z.of_nat i + 1)) with (k + Z.of_nat (S i) + 1) by lia.
      reflexivity.
Qed.

(** X20.  The marquee scrolls with a fixed period.  Started at the right edge
    (where every change of status puts it), with a text the sprite
    measures [w] pixels wide, [n] updates 80 ms apart leave the text at
    [320 - 2 (n mod P)] with [P = (320 + w) / 2 + 1]: it moves left by 2
    pixels per update and jumps back to 320 when the next step would go
    past [-w].  So the position never leaves [-w .. 320], each update
    draws exactly one band, at the position it has just set, with the
    current text and colour, and the status and the full frames are not
    touched. *)
Theorem marquee_scrolls (n : nat) (t w : Z) (d : Device) (m : Marquee) :
  useMarquee (screen d) = true -> textX (screen d) = screenWidth ->
  0 <= w <= 32766 -> lastUpdate m = t ->
  let P := (320 + w) / 2 + 1 in
  let dm := marqueeTicks n t w (d, m) in
  textX (screen (fst dm)) = 320 - 2 * (Z.of_nat n mod P) /\
  - w <= textX (screen (fst dm)) <= 320 /\
  status (fst dm) = status d /\
  frames (screen (fst dm)) = frames (screen d) /\
  exists bs,
    bands (snd dm) = bands m ++ bs /\ length bs = n /\
    forall i, (i < n)%nat ->
      bs !! i = Some (customText (status d), customColor (status d),
                      320 - 2 * ((Z.of_nat i + 1) mod P)).
Proof.
  intros Hm Hx Hw Ht P dm.
  pose proof (Z.div_mod (320 + w) 2 ltac:(lia)) as Hdm.
  pose proof (Z.mod_pos_bound (320 + w) 2 ltac:(lia)) as Hmb.
  assert (Hk : 0 <= 0 <= (320 + w) / 2) by lia.
  destruct (marquee_run n t w 0 d m Hm Hw Hk Hx Ht)
    as (H1 & H2 & H3 & _ & bs & H5 & H6 & H7).
  fold P in H1, H7. fold dm in H1, H2, H3, H5.
  rewrite Z.add_0_l in H1.
  pose proof (Z.mod_pos_bound (Z.of_nat n) P ltac:(unfold P; lia)) as Hb.
  split; [exact H1|]. split; [rewrite H1; unfold P in *; lia|].
  split; [exact H2|]. split; [exact H3|].
  exists bs. split; [exact H5|]. split; [exact H6|].
  intros i Hi. rewrite H7 by exact Hi. reflexivity.
Qed.

Lemma marquee_scrolls_witness :
  textX (screen (fst (marqueeTicks 3 0 400
    (withScreen bootDevice (mkScreen screenWidth true 3 []),
     mkMarquee false 0 [])))) = 314.
Proof.
  destruct (marquee_scrolls 3 0 400
              (withScreen bootDevice (mkScreen screenWidth true 3 []))
              (mkMarquee false 0 []) eq_refl eq_refl ltac:(lia) eq_refl)
    as (H & _).
  rewrite H. reflexivity.
Defined.

(** ** The fade of a dead cell *)

Lemma alphaStep_dead (a : Z) :
  0 <= a <= 255 -> alphaStep 0 a = Z.max 0 (a - 32).
Proof.
  intros Ha. unfold alphaStep, u8. cbn [Z.eqb negb].
  destruct (Z.gtb_spec a 0); [|lia].
  destruct (Z.gtb_spec a 32); [|lia].
  rewrite Z.mod_small by lia. lia.
Qed.

(** X21.  The fade level of a cell that stays dead falls by 32 per tick and
    stops at 0: from any level of a [uint8_t] it is 0 after eight ticks
    at the latest and stays 0, and it never rises or wraps on the way. *)
Theorem dead_cell_fades_out (n : nat) (a : Z) :
  0 <= a <= 255 ->
  alphaAfter 0 n a = Z.max 0 (a - 32 * Z.of_nat n) /\
  alphaAfter 0 (S n) a <= alphaAfter 0 n a /\
  ((8 <= n)%nat -> alphaAfter 0 n a = 0).
Proof.
  intros Ha.
  assert (H : forall m b, 0 <= b <= 255 ->
                alphaAfter 0 m b = Z.max 0 (b - 32 * Z.of_nat m)).
  { induction m as [|m IH]; intros b Hb.
    - cbn [alphaAfter]. lia.
    - cbn [alphaAfter]. rewrite alphaStep_dead by assumption.
      rewrite IH by lia. lia. }
  split; [apply H; exact Ha|]. split.
  - rewrite !H by exact Ha. lia.
  - intros Hn. rewrite H by exact Ha. lia.
Qed.

Lemma dead_cell_fades_out_witness :
  alphaAfter 0 3 255 = Z.max 0 (255 - 32 * Z.of_nat 3) /\
  alphaAfter 0 4 255 <= alphaAfter 0 3 255 /\
  ((8 <= 3)%nat -> alphaAfter 0 3 255 = 0).
Proof.
  apply (dead_cell_fades_out 3 255). lia.
Defined.

(** ** The fingerprint *)

Lemma log2_below (a n : Z) : 0 < n -> 0 <= a < 2 ^ n -> Z.log2 a < n.
Proof.
  intros Hn Ha. destruct (Z.eq_dec a 0) as [->|Hne].
  - change (Z.log2 0) with 0. exact Hn.
  - apply Z.log2_lt_pow2; lia.
Qed.

Lemma lxor_below (a b n : Z) :
  0 < n -> 0 <= a < 2 ^ n -> 0 <= b < 2 ^ n -> 0 <= Z.lxor a b < 2 ^ n.
Proof.
  intros Hn Ha Hb.
  assert (Hnn : 0 <= Z.lxor a b) by (apply Z.lxor_nonneg; lia).
  split; [exact Hnn|].
  destruct (Z.eq_dec (Z.lxor a b) 0) as [->|Hne]; [lia|].
  apply Z.log2_lt_pow2; [lia|].
  pose proof (Z.log2_lxor a b ltac:(lia) ltac:(lia)).
  pose proof (log2_below a n Hn Ha). pose proof (log2_below b n Hn Hb). lia.
Qed.

Lemma fold_below {A} (f : Z -> A -> Z) (l : list A) (h : Z) (P : A -> Prop) :
  (forall h a, P a -> 0 <= h < 2 ^ 24 -> 0 <= f h a < 2 ^ 24) ->
  Forall P l -> 0 <= h < 2 ^ 24 -> 0 <= fold_left f l h < 2 ^ 24.
Proof.
  intros Hf Hl. revert h. induction Hl as [|a l Ha _ IH]; intros h Hh.
  - exact Hh.
  - cbn [fold_left]. apply IH. apply Hf; assumption.
Qed.

Lemma upto_nonneg (n : Z) : Forall (fun i => 0 <= i) (upto n).
Proof.
  apply Forall_forall. intros i Hi. unfold upto in Hi.
  apply elem_of_seqZ in Hi. lia.
Qed.

(** X22.  The fingerprint of a grid of 0/1 cells uses 24 of its 32 bits: a live
    cell only ever toggles bit [(x + y) mod 24]. *)
Theorem fingerprint_has_24_bits (g : Grid) (rows cols : Z) :
  binaryGrid g -> 0 <= gridHash g rows cols < 2 ^ 24.
Proof.
  intros Hb. unfold gridHash.
  apply (fold_below _ _ _ (fun y => 0 <= y)); [|apply upto_nonneg|lia].
  intros h y Hy Hh.
  apply (fold_below _ _ _ (fun x => 0 <= x)); [|apply upto_nonneg|exact Hh].
  intros h' x Hx Hh'.
  apply lxor_below; [lia|exact Hh'|].
  pose proof (Z.rem_bound_pos (x + y) 24 ltac:(lia) ltac:(lia)) as Hr.
  unfold u32.
  destruct (Hb y x) as [-> | ->].
  - rewrite Z.shiftl_0_l. change (0 mod 2 ^ 32) with 0. lia.
  - rewrite Z.shiftl_1_l.
    assert (0 < 2 ^ Z.rem (x + y) 24 < 2 ^ 24).
    { split; [apply Z.pow_pos_nonneg; lia|].
      apply Z.pow_lt_mono_r; lia. }
    rewrite Z.mod_small by lia. lia.
Qed.

Lemma fingerprint_has_24_bits_witness :
  0 <= gridHash (golGrid (initGameOfLife twoBlocks golBoot)) 28 53 < 2 ^ 24.
Proof.
  apply (fingerprint_has_24_bits (golGrid (initGameOfLife twoBlocks golBoot))
           28 53).
  apply initGameOfLife_binary.
Defined.

(** ** Runs without a reset *)

Section QuietRuns.

Variable targetPoints : list TargetPoint.
Variable cellColour : Z -> Z -> Z -> Z.

Lemma newFingerprint_grid (st : GolState) :
  newFingerprint st =
  gridHash (nextGrid (golRows st) (golCols st) (golGrid st))
           (golRows st) (golCols st).
Proof. reflexivity. Qed.

(** A call that finds its fingerprint in the ring is not a quiet one. *)
Lemma repeat_not_quiet (e : Entropy) (st : GolState) :
  cycleFound (hashHistory st) (newFingerprint st) = true ->
  quietSteps targetPoints cellColour [e] st = None.
Proof.
  intros Hc. cbn [quietSteps]. unfold stepGameOfLife.
  change (gridHash (golGrid (nextGeneration (updateAlpha st)))
            (golRows (nextGeneration (updateAlpha st)))
            (golCols (nextGeneration (updateAlpha st))))
    with (newFingerprint st).
  change (hashHistory (nextGeneration (updateAlpha st))) with (hashHistory st).
  rewrite Hc, orb_true_r.
  destruct (animateToBusyBee targetPoints cellColour (shuffle e) _);
    reflexivity.
Qed.

(** One quiet call. *)
Lemma quiet_step (e : Entropy) (st st' : GolState) (recorded : list Z) :
  ringHolds st recorded ->
  quietSteps targetPoints cellColour [e] st = Some st' ->
  golRows st' = golRows st /\ golCols st' = golCols st /\
  golGrid st' = nextGrid (golRows st) (golCols st) (golGrid st) /\
  ringHolds st' (recorded ++ [newFingerprint st]).
Proof.
  intros Hr Hq. cbn [quietSteps] in Hq.
  destruct (step_cases targetPoints cellColour e st) as [Hs|[[m Hs]|Hs]];
    rewrite Hs in Hq; try discriminate Hq.
  cbn in Hq. injection Hq as <-.
  split; [reflexivity|]. split; [reflexivity|]. split; [reflexivity|].
  apply ring_record. exact Hr.
Qed.

Lemma quietSteps_cons (e : Entropy) (es : list Entropy) (st : GolState) :
  quietSteps targetPoints cellColour (e :: es) st =
  match quietSteps targetPoints cellColour [e] st with
  | Some st1 => quietSteps targetPoints cellColour es st1
  | None => None
  end.
Proof.
  cbn [quietSteps].
  destruct (stepGameOfLife targetPoints cellColour e st) as [[st1 evs]|];
    [|reflexivity].
  destruct (0 <? morphCount evs)%nat; reflexivity.
Qed.

Lemma generation_one (rows cols : Z) (g : Grid) :
  generation rows cols 1 g = nextGrid rows cols g.
Proof. reflexivity. Qed.

Lemma generation_shift (rows cols : Z) (n : nat) (g : Grid) :
  generation rows cols n (nextGrid rows cols g) = generation rows cols (S n) g.
Proof. unfold generation. apply Nat.iter_swap. Qed.

(** A run of quiet calls: the grid is the generation after as many steps,
    and the ring has taken one fingerprint per call. *)
Lemma quiet_run (es : list Entropy) (st st' : GolState) (recorded : list Z) :
  ringHolds st recorded ->
  quietSteps targetPoints cellColour es st = Some st' ->
  golRows st' = golRows st /\ golCols st' = golCols st /\
  golGrid st' = generation (golRows st) (golCols st) (length es) (golGrid st) /\
  exists fps,
    length fps = length es /\ ringHolds st' (recorded ++ fps) /\
    forall k, (k < length es)%nat ->
      fps !! k = Some (gridHash (generation (golRows st) (golCols st) (S k)
                                            (golGrid st))
                                (golRows st) (golCols st)).
Proof.
  revert st recorded. induction es as [|e es IH]; intros st recorded Hr Hq.
  - cbn in Hq. injection Hq as <-.
    split; [reflexivity|]. split; [reflexivity|]. split; [reflexivity|].
    exists []. rewrite app_nil_r. split; [reflexivity|]. split; [exact Hr|].
    intros k Hk. cbn in Hk. lia.
  - rewrite quietSteps_cons in Hq.
    destruct (quietSteps targetPoints cellColour [e] st) as [st1|] eqn:H1;
      [|discriminate Hq].
    destruct (quiet_step e st st1 recorded Hr H1) as (Hrows & Hcols & Hg & Hr1).
    destruct (IH st1 _ Hr1 Hq) as (Hrows' & Hcols' & Hg' & fps & Hl & Hr' & Hk).
    rewrite Hrows, Hcols, Hg in *.
    split; [exact Hrows'|]. split; [exact Hcols'|].
    split; [rewrite Hg'; apply generation_shift|].
    exists (newFingerprint st :: fps). cbn [length]. split; [lia|].
    split; [rewrite <- app_assoc in Hr'; exact Hr'|].
    intros [|k] Hlt.
    + rewrite generation_one, newFingerprint_grid. reflexivity.
    + cbn [lookup list_lookup]. rewrite Hk by lia.
      rewrite generation_shift. reflexivity.
Qed.

Lemma quietSteps_app (es1 es2 : list Entropy) (st : GolState) :
  quietSteps targetPoints cellColour (es1 ++ es2) st =
  match quietSteps targetPoints cellColour es1 st with
  | Some st1 => quietSteps targetPoints cellColour es2 st1
  | None => None
  end.
Proof.
  revert st. induction es1 as [|e es1 IH]; intros st; [reflexivity|].
  cbn [app]. rewrite (quietSteps_cons e (es1 ++ es2)), (quietSteps_cons e es1).
  destruct (quietSteps targetPoints cellColour [e] st); [apply IH|reflexivity].
Qed.

(** X23.  Stall detection finds every oscillation of period up to 8, still
    lifes included: at any point of a run from boot, when the pattern on
    the grid comes back to its generation 1 after [p] further
    generations, [p] at most 8, no [p + 1] calls in a row all pass
    without a reset (or the fault of the morph). *)
Theorem oscillator_is_reset (acts : list Action) (st : GolState)
    (recorded : list Z) (p : nat) (es : list Entropy) :
  trackedRun targetPoints cellColour golBoot [] acts = Done (st, recorded) ->
  (1 <= p <= 8)%nat ->
  generation (golRows st) (golCols st) (S p) (golGrid st) =
  generation (golRows st) (golCols st) 1 (golGrid st) ->
  length es = S p ->
  quietSteps targetPoints cellColour es st = None.
Proof.
  intros Hrun Hp Hper Hlen.
  assert (Hring : ringHolds st recorded)
    by (eapply tracked_ring; [apply ring_boot | exact Hrun]).
  induction es as [|e es' _] using rev_ind; [discriminate Hlen|].
  rewrite length_app in Hlen. cbn [length] in Hlen.
  assert (Hlen' : length es' = p) by lia. clear Hlen.
  rewrite quietSteps_app.
  destruct (quietSteps targetPoints cellColour es' st) as [st1|] eqn:Hq;
    [|reflexivity].
  destruct (quiet_run es' st st1 recorded Hring Hq)
    as (Hrows & Hcols & Hg & fps & Hl & Hr1 & Hk).
  apply repeat_not_quiet.
  apply (ring_members st1 (recorded ++ fps) _ Hr1). left.
  rewrite newFingerprint_grid, Hrows, Hcols, Hg, Hlen'.
  change (nextGrid (golRows st) (golCols st)
            (generation (golRows st) (golCols st) p (golGrid st)))
    with (generation (golRows st) (golCols st) (S p) (golGrid st)).
  rewrite Hper.
  specialize (Hk 0%nat ltac:(lia)).
  unfold lastN. rewrite length_app.
  rewrite drop_app_le by lia.
  apply in_or_app. right. apply list_elem_of_In.
  eapply list_elem_of_lookup_2. exact Hk.
Qed.

End QuietRuns.


(** A session started on a blinker: three cells in a row, of period 2. *)
Lemma oscillator_is_reset_witness :
  quietSteps [TargetPoint.mk 100 60 (-1) (-1)] (fun _ _ _ => 0)
    [mkEntropy (fun _ _ => 1) (fun l => l);
     mkEntropy (fun _ _ => 1) (fun l => l);
     mkEntropy (fun _ _ => 1) (fun l => l)]
    (initGameOfLife
       (fun y x => if (y =? 5) && ((x =? 4) || (x =? 5) || (x =? 6))
                   then 0 else 1) golBoot) = None.
Proof.
  apply (oscillator_is_reset [TargetPoint.mk 100 60 (-1) (-1)] (fun _ _ _ => 0)
           [Threebody (fun y x => if (y =? 5) && ((x =? 4) || (x =? 5) || (x =? 6))
                                  then 0 else 1)]
           _ [] 2).
  - reflexivity.
  - lia.
  - vm_compute. reflexivity.
  - reflexivity.
Defined.

(** ** The shape of the engine state *)










Section Shape.

Variable targetPoints : list TargetPoint.
Variable cellColour : Z -> Z -> Z -> Z.



End Shape.


(** ** The animator on a session grid *)

Lemma animateToBusyBee_pairs_witness :
  exists m,
    animateToBusyBee [TargetPoint.mk 100 60 (-1) (-1)] (fun _ _ _ => 0)
      (fun l => l) (initGameOfLife twoBlocks golBoot) = Done (Some m) /\
    length (usedCells m) = 1%nat /\ length (assignment m) = 1%nat.
Proof.
  destruct (animateToBusyBee_pairs [TargetPoint.mk 100 60 (-1) (-1)]
              (fun _ _ _ => 0) (fun l => l)
              (initGameOfLife twoBlocks golBoot))
    as (m & Hm & Hu & Ha & _).
  - discriminate.
  - intros t [<-|[]]. vm_compute. repeat split; discriminate || reflexivity.
  - reflexivity.
  - reflexivity.
  - vm_compute. reflexivity.
  - intros l. reflexivity.
  - exists m. split; [exact Hm|]. split; [exact Hu|exact Ha].
Defined.
